(** * Text-to-SQL agent: tool orchestration and isolated chart rendering

    A shallow embedding of the service layer of the Text-to-SQL template
    (service/routes.py, service/mcp_server.py, service/tools.py,
    service/chart_service.py, service/kernel.py) together with the
    properties its specification states about routing, the SQL
    self-correction retry and the chart rendering pipeline.

    Python values are dynamically typed, so the embedding works on a
    universe [pyval] of JSON-like values.  Code that talks to the outside
    (the skill service, the SQL engine, the file system, the child
    interpreter) is written in a state-and-exception monad over an
    explicit state; the outside itself is a record of oracles. *)

From Stdlib Require Import String Ascii ZArith List Bool Lia.
From Stdlib Require Import QArith.QArith_base.
From stdpp Require Import base option strings gmap.

Set Warnings "-register-all".
Close Scope Q_scope.
Open Scope string_scope.
Open Scope list_scope.

(* ===================================================================== *)
(** * Python values *)
(* ===================================================================== *)

Module Py.

(** JSON-like Python values.  A [dict] keeps its items in insertion order;
    [VFloat] carries the rational a finite double denotes. *)
Inductive pyval : Type :=
| VNone
| VBool (b : bool)
| VInt (n : Z)
| VFloat (q : Q)
| VStr (s : string)
| VList (l : list pyval)
| VDict (d : list (string * pyval)).

Definition pydict : Type := list (string * pyval).

(** [bool(v)]: the truth value Python's [if], [not], [and], [or] test. *)
Definition truthy (v : pyval) : bool :=
  match v with
  | VNone => false
  | VBool b => b
  | VInt n => negb (n =? 0)%Z
  | VFloat q => negb (Qnum q =? 0)%Z
  | VStr s => negb (String.eqb s "")
  | VList l => match l with [] => false | _ :: _ => true end
  | VDict d => match d with [] => false | _ :: _ => true end
  end.

(** Item lookup: the first item stored under the key. *)
Fixpoint lookup_item (k : string) (d : pydict) : option pyval :=
  match d with
  | [] => None
  | (k', v) :: rest => if String.eqb k k' then Some v else lookup_item k rest
  end.

(** [k in d] *)
Definition has_key (d : pydict) (k : string) : bool :=
  match lookup_item k d with Some _ => true | None => false end.

(** [d.get(k, default)] *)
Definition dict_get_or (d : pydict) (k : string) (default : pyval) : pyval :=
  match lookup_item k d with Some v => v | None => default end.

(** [d.get(k)] *)
Definition dict_get (d : pydict) (k : string) : pyval := dict_get_or d k VNone.

(** [len(v)], defined on strings, lists and dicts only. *)
Definition py_len (v : pyval) : option nat :=
  match v with
  | VStr s => Some (String.length s)
  | VList l => Some (List.length l)
  | VDict d => Some (List.length d)
  | _ => None
  end.

(** Whether [v[:n]] is defined: strings and lists can be sliced. *)
Definition sliceable (v : pyval) : bool :=
  match v with VStr _ | VList _ => true | _ => false end.

(** [str.lower()] on the ASCII letters.  The keywords searched for below
    are ASCII, and the only non-ASCII characters whose lowercase contains
    an ASCII letter (U+0130, U+212A) produce an [i] followed by a
    combining mark and a [k], which complete none of the keywords; so on
    these searches the ASCII map agrees with Python's. *)
Definition lower_ascii (c : ascii) : ascii :=
  let n := nat_of_ascii c in
  if (65 <=? n)%nat && (n <=? 90)%nat then ascii_of_nat (n + 32) else c.

Fixpoint lower (s : string) : string :=
  match s with
  | EmptyString => EmptyString
  | String c rest => String (lower_ascii c) (lower rest)
  end.

(** [needle in hay] on strings. *)
Fixpoint contains (needle hay : string) : bool :=
  String.prefix needle hay
  || match hay with
     | EmptyString => false
     | String _ rest => contains needle rest
     end.

End Py.
Export Py.

(* ===================================================================== *)
(** * Exceptions and the service monad *)
(* ===================================================================== *)

(** The exception classes the service tells apart in its [except]
    clauses; [Exception cls msg] is any other exception, of class [cls],
    with [str(e) = msg]. *)
Inductive exn : Type :=
| KernelException (status_code : Z) (msg : string)
| TimeoutExpired (msg : string)
| Exception (cls : string) (msg : string).

(** [str(e)] *)
Definition str_exn (e : exn) : string :=
  match e with
  | KernelException _ msg => msg
  | TimeoutExpired msg => msg
  | Exception _ msg => msg
  end.

Definition is_KernelException (e : exn) : bool :=
  match e with KernelException _ _ => true | _ => false end.

Definition is_TimeoutExpired (e : exn) : bool :=
  match e with TimeoutExpired _ => true | _ => false end.

(** Errors the Python interpreter and the libraries raise on their own.
    Their wording depends on the interpreter version, so the text is left
    to the environment ([interp_msg] below); the class is fixed here. *)
Inductive InterpError : Type :=
| UnexpectedKeyword (fn key : string)
| MissingArguments (fn : string) (missing : list string)
| NoAttribute (v : pyval) (attr : string)
| NotSubscriptable (v : pyval)
| NoLen (v : pyval)
| MissingKey (key : string)
| ValidationError (model : string) (field : string) (v : pyval)
| NoSuchFile (path : string)
| NotAFile (path : string)
| JSONDecodeError (text : string)
| CommandTimedOut (argv : list string)
| NotAMapping (v : pyval).

Definition interp_class (err : InterpError) : string :=
  match err with
  | UnexpectedKeyword _ _ | MissingArguments _ _
  | NotSubscriptable _ | NoLen _ => "TypeError"
  | NoAttribute _ _ => "AttributeError"
  | MissingKey _ => "KeyError"
  | ValidationError _ _ _ => "ValidationError"
  | NoSuchFile _ => "FileNotFoundError"
  | NotAFile _ => "IsADirectoryError"
  | JSONDecodeError _ => "JSONDecodeError"
  | CommandTimedOut _ => "TimeoutExpired"
  | NotAMapping _ => "TypeError"
  end.

(** ** The outside world *)

(** [kernel.Skill] *)
Record Skill : Type := { namespace : string; name : string }.

(** A file-system entry; file contents are byte strings. *)
Inductive node : Type :=
| Dir
| File (content : string).

(** [subprocess.CompletedProcess] *)
Record CompletedProcess : Type :=
  { returncode : Z; stdout : string; stderr : string }.

(** What a child process does when left alone: [elapsed] is the wall-clock
    time in seconds after which it exits ([None]: it never does), and
    [completed] what it exits with. *)
Record ChildRun : Type :=
  { elapsed : option Q; completed : CompletedProcess }.

(** The collaborators of the service, as oracles over an outside state
    [W]: the skill service behind [Kernel.run], the SQL engine behind
    [SQLiteDatabase], the random and temporary-name sources, the child
    interpreter, and the library functions whose results are only passed
    along. *)
Record Env (W : Type) : Type := {
  kernel_run : Skill -> string -> pyval -> W -> (exn + pyval) * W;
  db_is_connected : W -> bool;
  db_connect : W -> (exn + unit) * W;
  db_query : pyval -> W -> (exn + (pyval * pyval)) * W;
  uuid4_hex : W -> string * W;
  mkdtemp : gmap string node -> W -> string * W;
  spawn : list string -> string -> gmap string node -> W
          -> (ChildRun * gmap string node) * W;
  sys_executable : string;
  md5_hexdigest : string -> string;
  b64encode : string -> string;
  py_repr : pyval -> string;
  interp_msg : InterpError -> string
}.

Arguments kernel_run {W}.
Arguments db_is_connected {W}.
Arguments db_connect {W}.
Arguments db_query {W}.
Arguments uuid4_hex {W}.
Arguments mkdtemp {W}.
Arguments spawn {W}.
Arguments sys_executable {W}.
Arguments md5_hexdigest {W}.
Arguments b64encode {W}.
Arguments py_repr {W}.
Arguments interp_msg {W}.

(** ** The state of one request *)

(** The outside state, the file system, the module global
    [mcp_server._token], and three ghost logs: the calls made through
    [execute_tool], the directories [TemporaryDirectory] created, and the
    child processes run (each with the file system it left). *)
Record State (W : Type) : Type := mkState {
  world : W;
  fs : gmap string node;
  _token : string;
  tool_calls : list (string * pydict);
  workspaces : list string;
  children : list (ChildRun * gmap string node)
}.

Arguments mkState {W}.
Arguments world {W}.
Arguments fs {W}.
Arguments _token {W}.
Arguments tool_calls {W}.
Arguments workspaces {W}.
Arguments children {W}.

Section Monad.
Context {W : Type}.

Definition set_world (w : W) (s : State W) : State W :=
  mkState w (fs s) (_token s) (tool_calls s) (workspaces s) (children s).

Definition set_fs (f : gmap string node) (s : State W) : State W :=
  mkState (world s) f (_token s) (tool_calls s) (workspaces s) (children s).

(** A computation either returns or raises, and leaves a state behind in
    both cases. *)
Definition M (A : Type) : Type := State W -> (exn + A) * State W.

Definition ret {A} (a : A) : M A := fun s => (inr a, s).

Definition raise {A} (e : exn) : M A := fun s => (inl e, s).

Definition bind {A B} (m : M A) (k : A -> M B) : M B :=
  fun s => match m s with
           | (inr a, s') => k a s'
           | (inl e, s') => (inl e, s')
           end.

(** [try: body  except Exception as e: handler e]; a handler that does
    not apply to [e] re-raises it. *)
Definition try_except {A} (body : M A) (handler : exn -> M A) : M A :=
  fun s => match body s with
           | (inr a, s') => (inr a, s')
           | (inl e, s') => handler e s'
           end.

(** Running an oracle on the outside state. *)
Definition call {A} (f : W -> (exn + A) * W) : M A :=
  fun s => let '(r, w) := f (world s) in (r, set_world w s).

Definition of_sum {A} (r : exn + A) : M A :=
  match r with inl e => raise e | inr a => ret a end.

End Monad.

Notation "'let!' x ':=' m 'in' k" := (bind m (fun x => k))
  (at level 10, x name, m at level 100, k at level 200).
Notation "'do!' m 'in' k" := (bind m (fun _ => k))
  (at level 10, m at level 100, k at level 200).

(* ===================================================================== *)
(** * Interpreter and library primitives *)
(* ===================================================================== *)

Definition nl : string := String (ascii_of_nat 10) EmptyString.
Definition dq : string := String (ascii_of_nat 34) EmptyString.

(** Every line followed by a line break. *)
Definition unlines (ls : list string) : string :=
  fold_right (fun l acc => l +:+ nl +:+ acc) "" ls.

(** [os.path.join(d, n)] for a relative [n]. *)
Definition path_join (d n : string) : string := d +:+ "/" +:+ n.

(** Whether path [p] lies below directory [d]. *)
Definition under (d p : string) : bool := String.prefix (d +:+ "/") p.

(** [shutil.rmtree(d)]: the directory and everything below it. *)
Definition rmtree (d : string) (f : gmap string node) : gmap string node :=
  filter (fun kv => kv.1 <> d /\ under d kv.1 = false) f.

Section Primitives.
Context {W : Type} (env : Env W).

Definition interp_error {A} (err : InterpError) : M (W := W) A :=
  raise (Exception (interp_class err) (interp_msg env err)).

(** [str(v)], as an f-string formats a value. *)
Definition py_str (v : pyval) : string :=
  match v with VStr s => s | _ => py_repr env v end.

(** [len(v)] *)
Definition len (v : pyval) : M (W := W) nat :=
  match py_len v with
  | Some n => ret n
  | None => interp_error (NoLen v)
  end.

(** [v[:n]], evaluated for a log line: only whether it raises matters. *)
Definition slice_prefix (v : pyval) : M (W := W) unit :=
  if sliceable v then ret tt else interp_error (NotSubscriptable v).

(** [d[k]] *)
Definition getitem (d : pydict) (k : string) : M (W := W) pyval :=
  match lookup_item k d with
  | Some v => ret v
  | None => interp_error (MissingKey k)
  end.

(** [v.get(k, default)] on a value that need not be a dict. *)
Definition method_get (v : pyval) (k : string) (default : pyval)
  : M (W := W) pyval :=
  match v with
  | VDict d => ret (dict_get_or d k default)
  | _ => interp_error (NoAttribute v "get")
  end.

(** A [str] method called on a value that need not be a string. *)
Definition str_method (v : pyval) (attr : string) : M (W := W) string :=
  match v with
  | VStr s => ret s
  | _ => interp_error (NoAttribute v attr)
  end.

(** [await kernel.run(skill, token, input)] *)
Definition run_skill (skill : Skill) (token : string) (input : pydict)
  : M (W := W) pyval :=
  call (kernel_run env skill token (VDict input)).

(** [open(path, "w").write(content)] *)
Definition write_file (path content : string) : M (W := W) unit :=
  fun s => (inr tt, set_fs (<[path := File content]> (fs s)) s).

(** [os.path.exists(path)] *)
Definition path_exists (path : string) : M (W := W) bool :=
  fun s => (inr (match fs s !! path with Some _ => true | None => false end), s).

(** [os.listdir(path)], evaluated for a log line. *)
Definition listdir (path : string) : M (W := W) unit :=
  fun s => match fs s !! path with
           | Some Dir => (inr tt, s)
           | _ => interp_error (NoSuchFile path) s
           end.

(** [open(path, "rb").read()] *)
Definition read_file (path : string) : M (W := W) string :=
  fun s => match fs s !! path with
           | Some (File c) => (inr c, s)
           | Some Dir => interp_error (NotAFile path) s
           | None => interp_error (NoSuchFile path) s
           end.

(** [with tempfile.TemporaryDirectory() as temp_dir: body]: the directory
    is created on entry and removed on exit, however [body] ends. *)
Definition TemporaryDirectory {A} (body : string -> M (W := W) A) : M A :=
  fun s =>
    let '(d, w) := mkdtemp env (fs s) (world s) in
    let s1 := mkState w (<[d := Dir]> (fs s)) (_token s) (tool_calls s)
                      (workspaces s ++ [d]) (children s) in
    let '(r, s2) := body d s1 in
    (r, set_fs (rmtree d (fs s2)) s2).

(** [subprocess.run(argv, cwd=cwd, capture_output=True, text=True,
    timeout=timeout)]: a child that has not exited when the bound is
    reached is killed and [TimeoutExpired] is raised. *)
Definition subprocess_run (argv : list string) (cwd : string) (timeout : Q)
  : M (W := W) CompletedProcess :=
  fun s =>
    let '((run, f), w) := spawn env argv cwd (fs s) (world s) in
    let s' := mkState w f (_token s) (tool_calls s) (workspaces s)
                      (children s ++ [(run, f)]) in
    let expired := TimeoutExpired (interp_msg env (CommandTimedOut argv)) in
    match elapsed run with
    | Some t => if Qle_bool t timeout then (inr (completed run), s')
                else (inl expired, s')
    | None => (inl expired, s')
    end.

End Primitives.

(* ===================================================================== *)
(** * service/chart_service.py *)
(* ===================================================================== *)

Module chart_service.
Section chart_service.
Context {W : Type} (env : Env W).
#[local] Abbreviation M := (M (W := W)).

Definition _generate_unique_chart_id (query headers rows : pyval) : M string :=
  let query_hash :=
    String.substring 0 8
      (md5_hexdigest env
         (py_str env query +:+ "_" +:+ py_str env headers +:+ "_"
          +:+ py_str env rows)) in
  let! u := call (fun w => let '(h, w') := uuid4_hex env w in (inr h, w')) in
  ret ("chart_" +:+ query_hash +:+ "_" +:+ String.substring 0 8 u).

(** The text of [data.py].  What its cleaning loop computes is modelled
    in [data_preparation] below. *)
Definition _create_data_preparation_code (headers rows : pyval) : string :=
  unlines [
    "";
    "import pandas as pd";
    "import numpy as np";
    "";
    "# Data from SQL query";
    "headers = " +:+ py_str env headers;
    "rows = " +:+ py_str env rows;
    "";
    "# Create DataFrame and clean data";
    "df = pd.DataFrame(rows, columns=headers)";
    "";
    "# Simple data cleaning - convert columns to appropriate types";
    "for col in df.columns:";
    "    if df[col].dtype == 'object':";
    "        # Try to convert to numeric, but keep as string if it fails";
    "        numeric_series = pd.to_numeric(df[col], errors='coerce')";
    "        # Only convert if most values are successfully converted to numbers";
    "        if not numeric_series.isna().all():";
    "            # Check if it looks like it should be numeric (more than 50% converted successfully)";
    "            if (numeric_series.notna().sum() / len(df)) > 0.5:";
    "                df[col] = numeric_series.fillna(0)";
    "";
    "print(f" +:+ dq +:+ "DataFrame shape after cleaning: {df.shape}" +:+ dq +:+ ")";
    "print(f" +:+ dq +:+ "DataFrame dtypes: {df.dtypes.to_dict()}" +:+ dq +:+ ")";
    "print(f" +:+ dq +:+ "DataFrame head: {df.head().to_dict()}" +:+ dq +:+ ")"
  ].

(** The text of [chart.py]: the generated drawing code runs when the
    table is not empty, and the figure is saved under the chart id. *)
Definition _create_chart_execution_code (chart_code chart_uuid temp_dir : string)
  : string :=
  unlines [
    "";
    "import sys";
    "sys.path.append(" +:+ py_repr env (VStr temp_dir) +:+ ")";
    "import matplotlib";
    "matplotlib.use('Agg')  # Use non-interactive backend for server-side generation";
    "import matplotlib.pyplot as plt";
    "import pandas as pd";
    "import numpy as np";
    "";
    "# Import the prepared data";
    "from data import df, headers, rows";
    "";
    "print(" +:+ dq +:+ "DataFrame loaded:" +:+ dq +:+ ")";
    "print(f" +:+ dq +:+ "Shape: {df.shape}" +:+ dq +:+ ")";
    "print(f" +:+ dq +:+ "Columns: {df.columns.tolist()}" +:+ dq +:+ ")";
    "print(f" +:+ dq +:+ "Data types: {df.dtypes.to_dict()}" +:+ dq +:+ ")";
    "print(" +:+ dq +:+ "First few rows:" +:+ dq +:+ ")";
    "print(df.head())";
    "";
    "# Check if DataFrame is empty";
    "if df.empty:";
    "    print(" +:+ dq +:+ "DataFrame is empty, creating placeholder chart" +:+ dq +:+ ")";
    "    plt.figure(figsize=(8, 6))";
    "    plt.text(0.5, 0.5, 'No data available', ha='center', va='center', fontsize=16)";
    "    plt.xlim(0, 1)";
    "    plt.ylim(0, 1)";
    "    plt.title('No Data Available')";
    "else:";
    "    print(" +:+ dq +:+ "Generating chart with data" +:+ dq +:+ ")";
    "    " +:+ chart_code;
    "";
    "# Save the chart with unique filename";
    "plt.savefig(" +:+ py_repr env (VStr (chart_uuid +:+ ".png"))
      +:+ ", dpi=150, bbox_inches='tight', facecolor='white', edgecolor='none')";
    "print(f" +:+ dq +:+ "Chart saved as " +:+ chart_uuid +:+ ".png" +:+ dq +:+ ")";
    "plt.close()"
  ].

(** The wall-clock bound on the child interpreter, in seconds. *)
Definition timeout : Q := Qmake 60 1.

Definition _execute_chart_generation (chart_file temp_dir : string)
  : M CompletedProcess :=
  subprocess_run env [sys_executable env; chart_file] temp_dir timeout.

(** Step 1 of [_generate_chart_code]: classify the chart type, falling
    back to a bar chart when the classifier is unavailable or silent. *)
Definition classify_step (token : string) (query headers rows : pyval)
  : M pyval :=
  let classifier_skill := {| namespace := "playground"; name := "chart_classifier" |} in
  let classifier_input := [("query", query); ("headers", headers); ("rows", rows)] in
  try_except
    (let! classifier_response := run_skill env classifier_skill token classifier_input in
     let! chart_type := method_get env classifier_response "chart_type" VNone in
     let chart_type := if truthy chart_type then chart_type else VStr "bar" in
     do! str_method env chart_type "upper" in
     ret chart_type)
    (fun exp => if is_KernelException exp then ret (VStr "bar") else raise exp).

Definition generator_skill : Skill :=
  {| namespace := "playground"; name := "chart_generator" |}.

Definition generator_input (chart_type query headers rows : pyval) : pydict :=
  [("chart_type", chart_type); ("query", query); ("headers", headers);
   ("rows", rows)].

Definition _generate_chart_code (token : string) (query headers rows : pyval)
  : M string :=
  do! len env rows in
  let! chart_type := classify_step token query headers rows in
  (* Step 2: generate the chart code for that type *)
  try_except
    (let! generator_response :=
       run_skill env generator_skill token
                 (generator_input chart_type query headers rows) in
     let! chart_code := method_get env generator_response "chart_code" VNone in
     if negb (truthy chart_code)
     then raise (Exception "Exception" "Failed to generate chart code")
     else str_method env chart_code "split")
    (fun exp => if is_KernelException exp
                then raise (Exception "Exception" "Chart generation skill not available")
                else raise exp).

(** The [try] block of [generate_chart_image]: run the script, then
    recover the image. *)
Definition run_and_collect (chart_file temp_dir output_image : string) : M string :=
  try_except
    (let! result := _execute_chart_generation chart_file temp_dir in
     if negb (returncode result =? 0)%Z
     then raise (Exception "Exception" ("Chart generation failed: " +:+ stderr result))
     else
       do! listdir env temp_dir in
       let! present := path_exists output_image in
       if negb present
       then raise (Exception "Exception" "Chart image was not generated")
       else
         let! img_data := read_file env output_image in
         ret (b64encode env img_data))
    (fun e => if is_TimeoutExpired e
              then raise (Exception "Exception" "Chart generation timed out")
              else raise (Exception "Exception"
                            ("Error executing chart code: " +:+ str_exn e))).

(** The body of the [with] block of [generate_chart_image], run inside
    the temporary directory. *)
Definition in_workspace (headers rows : pyval) (chart_code chart_uuid : string)
           (temp_dir : string) : M string :=
  let data_file := path_join temp_dir "data.py" in
  let chart_file := path_join temp_dir "chart.py" in
  let output_image := path_join temp_dir (chart_uuid +:+ ".png") in
  let data_code := _create_data_preparation_code headers rows in
  do! write_file data_file data_code in
  let complete_chart_code :=
    _create_chart_execution_code chart_code chart_uuid temp_dir in
  do! write_file chart_file complete_chart_code in
  run_and_collect chart_file temp_dir output_image.

Definition generate_chart_image (token : string) (query headers rows : pyval)
  : M string :=
  do! len env rows in
  do! len env headers in
  do! (if truthy rows then slice_prefix env rows else ret tt) in
  let! chart_code := _generate_chart_code token query headers rows in
  let! chart_uuid := _generate_unique_chart_id query headers rows in
  TemporaryDirectory env (in_workspace headers rows chart_code chart_uuid).

End chart_service.
End chart_service.

(* ===================================================================== *)
(** * service/tools.py *)
(* ===================================================================== *)

Module tools.
Section tools.
Context {W : Type} (env : Env W).
#[local] Abbreviation M := (M (W := W)).

Definition tool_generate_sql (token : string) (question error_feedback : pyval)
  : M pydict :=
  do! (if truthy error_feedback then slice_prefix env error_feedback else ret tt) in
  try_except
    (let skill := {| namespace := "playground"; name := "sql-generator" |} in
     (* the error feedback helps the skill correct itself *)
     let skill_question :=
       if truthy error_feedback
       then VStr (py_str env question +:+ nl +:+ nl
                  +:+ "Previous attempt failed with error: "
                  +:+ py_str env error_feedback +:+ nl
                  +:+ "Please fix the SQL for SQLite (use strftime for dates, etc.)")
       else question in
     let! response := run_skill env skill token [("question", skill_question)] in
     let! sql_query := method_get env response "answer" VNone in
     if negb (truthy sql_query)
     then ret [("success", VBool false);
               ("error", VStr "Unable to generate SQL query")]
     else ret [("success", VBool true); ("sql_query", sql_query)])
    (fun e => ret [("success", VBool false); ("error", VStr (str_exn e))]).

Definition tool_execute_sql (query : pyval) : M pydict :=
  try_except
    (let! connected := call (fun w => (inr (db_is_connected env w), w)) in
     do! (if negb connected then call (db_connect env) else ret tt) in
     let! result := call (db_query env query) in
     let '(headers, rows) := result in
     let row_count :=
       match rows with VList l => Z.of_nat (List.length l) | _ => 1%Z end in
     do! len env headers in
     ret [("success", VBool true); ("query", query); ("headers", headers);
          ("rows", rows); ("count", VInt row_count)])
    (fun e => ret [("success", VBool false); ("error", VStr (str_exn e))]).

Definition classifier_skill : Skill :=
  {| namespace := "playground"; name := "chart_classifier" |}.

Definition tool_classify_chart_type (token : string) (query headers rows : pyval)
  : M pydict :=
  do! len env rows in
  do! len env headers in
  try_except
    (let! response :=
       run_skill env classifier_skill token
                 [("query", query); ("headers", headers); ("rows", rows)] in
     let! chart_type := method_get env response "chart_type" (VStr "bar") in
     do! str_method env chart_type "upper" in
     let! n := len env rows in
     ret [("success", VBool true); ("chart_type", chart_type);
          ("rows_count", VInt (Z.of_nat n)); ("headers", headers)])
    (fun e => ret [("success", VBool false); ("error", VStr (str_exn e));
                   ("chart_type", VStr "bar")]).

Definition tool_generate_chart (token : string) (query headers rows : pyval)
  : M pydict :=
  do! len env rows in
  do! len env headers in
  try_except
    (let! chart_base64 :=
       chart_service.generate_chart_image env token query headers rows in
     let image_size_kb :=
       Qmake (Z.of_nat (String.length chart_base64) * 3) 4096 in
     let! n := len env rows in
     ret [("success", VBool true); ("chart_image", VStr chart_base64);
          ("image_size_kb", VFloat image_size_kb);
          ("rows_count", VInt (Z.of_nat n))])
    (fun e => ret [("success", VBool false); ("error", VStr (str_exn e))]).

End tools.
End tools.

(* ===================================================================== *)
(** * service/mcp_server.py *)
(* ===================================================================== *)

Module mcp_server.
Section mcp_server.
Context {W : Type} (env : Env W).
#[local] Abbreviation M := (M (W := W)).

Definition set_token (token : string) : M unit :=
  fun s => (inr tt, mkState (world s) (fs s) token (tool_calls s)
                            (workspaces s) (children s)).

Definition get_token : M string := fun s => (inr (_token s), s).

(** [if not result["success"]: raise Exception(result.get("error", default))] *)
Definition check_success (result : pydict) (default : string) : M unit :=
  let! ok := getitem env result "success" in
  if negb (truthy ok)
  then raise (Exception "Exception"
                (py_str env (dict_get_or result "error" (VStr default))))
  else ret tt.

Definition _run_generate_sql (question error_feedback : pyval) : M pydict :=
  do! (if truthy error_feedback then slice_prefix env error_feedback else ret tt) in
  let! token := get_token in
  let! result := tools.tool_generate_sql env token question error_feedback in
  do! check_success result "SQL generation failed" in
  let! sql_query := getitem env result "sql_query" in
  ret [("sql_query", sql_query)].

Definition _run_execute_sql (query : pyval) : M pydict :=
  let! result := tools.tool_execute_sql env query in
  do! check_success result "Query execution failed" in
  let! q := getitem env result "query" in
  let! headers := getitem env result "headers" in
  let! rows := getitem env result "rows" in
  let! count := getitem env result "count" in
  ret [("query", q); ("headers", headers); ("rows", rows); ("count", count)].

Definition _run_classify_chart_type (query headers rows : pyval) : M pydict :=
  do! len env rows in
  let! token := get_token in
  let! result := tools.tool_classify_chart_type env token query headers rows in
  do! check_success result "Chart classification failed" in
  let! chart_type := getitem env result "chart_type" in
  let! headers' := getitem env result "headers" in
  let! rows_count := getitem env result "rows_count" in
  ret [("chart_type", chart_type); ("headers", headers');
       ("rows_count", rows_count)].

Definition _run_generate_chart (query headers rows : pyval) : M pydict :=
  do! len env rows in
  let! token := get_token in
  let! result := tools.tool_generate_chart env token query headers rows in
  do! check_success result "Chart generation failed" in
  let! chart_image := getitem env result "chart_image" in
  let! image_size_kb := getitem env result "image_size_kb" in
  let! rows_count := getitem env result "rows_count" in
  ret [("chart_image", chart_image); ("image_size_kb", image_size_kb);
       ("rows_count", rows_count)].

(** Calling [fn] with the items of [arguments] as keyword arguments, for
    a function with the given required and optional parameters: an
    unexpected or a missing argument is a [TypeError]. *)
Definition bind_kwargs (fn : string) (required optional : list string)
           (arguments : pydict) : M unit :=
  match List.find (fun kv => negb (existsb (String.eqb (fst kv))
                                           (required ++ optional)))
                  arguments with
  | Some (k, _) => interp_error env (UnexpectedKeyword fn k)
  | None =>
      match List.filter (fun p => negb (has_key arguments p)) required with
      | [] => ret tt
      | missing => interp_error env (MissingArguments fn missing)
      end
  end.

(** The table from tool names to implementations, each called with the
    arguments as keywords. *)
Definition _TOOL_IMPLEMENTATIONS (tool_name : string)
  : option (pydict -> M pydict) :=
  if String.eqb tool_name "generate_sql" then
    Some (fun a =>
      do! bind_kwargs "_run_generate_sql" ["question"] ["error_feedback"] a in
      _run_generate_sql (dict_get a "question")
                        (dict_get_or a "error_feedback" VNone))
  else if String.eqb tool_name "execute_sql" then
    Some (fun a =>
      do! bind_kwargs "_run_execute_sql" ["query"] [] a in
      _run_execute_sql (dict_get a "query"))
  else if String.eqb tool_name "classify_chart_type" then
    Some (fun a =>
      do! bind_kwargs "_run_classify_chart_type" ["query"; "headers"; "rows"] [] a in
      _run_classify_chart_type (dict_get a "query") (dict_get a "headers")
                               (dict_get a "rows"))
  else if String.eqb tool_name "generate_chart" then
    Some (fun a =>
      do! bind_kwargs "_run_generate_chart" ["query"; "headers"; "rows"] [] a in
      _run_generate_chart (dict_get a "query") (dict_get a "headers")
                          (dict_get a "rows"))
  else None.

(** Ghost: record the call in [tool_calls]. *)
Definition log_tool_call (tool_name : string) (arguments : pydict) : M unit :=
  fun s => (inr tt, mkState (world s) (fs s) (_token s)
                            (tool_calls s ++ [(tool_name, arguments)])
                            (workspaces s) (children s)).

Definition execute_tool (tool_name : string) (arguments : pydict) : M pydict :=
  do! log_tool_call tool_name arguments in
  match _TOOL_IMPLEMENTATIONS tool_name with
  | None => raise (Exception "ValueError" ("Unknown tool: " +:+ tool_name))
  | Some tool_impl => tool_impl arguments
  end.

End mcp_server.
End mcp_server.

(* ===================================================================== *)
(** * service/models.py *)
(* ===================================================================== *)

Inductive ToolResponseType : Type :=
| SQL_QUERY
| QUERY_RESULTS
| CHART_TYPE
| CHART_IMAGE
| ERROR.

Record AgentRequest : Type :=
  { message : string; context : option pydict }.

Record AgentResponse : Type :=
  { response_type : ToolResponseType;
    data : pydict;
    tool_used : string;
    success : bool }.

Record ToolRouterDecision : Type :=
  { tool : string; arguments : pydict }.

(* ===================================================================== *)
(** * service/routes.py *)
(* ===================================================================== *)

Module routes.

(** The error fragments that make a failed query worth regenerating. *)
Definition fixable_errors : list string :=
  ["no such function"; "syntax error"; "no such column"; "near"].

Definition _is_fixable_sql_error (error : string) : bool :=
  existsb (fun err => contains err (lower error)) fixable_errors.

Definition _error_response (error tool_used : string) : AgentResponse :=
  {| response_type := ERROR;
     data := [("error", VStr error)];
     tool_used := tool_used;
     success := false |}.

(** The table [response_types] of [_execute_with_retry], read with
    [.get(tool, ToolResponseType.ERROR)]. *)
Definition response_types (tool : string) : ToolResponseType :=
  if String.eqb tool "generate_sql" then SQL_QUERY
  else if String.eqb tool "execute_sql" then QUERY_RESULTS
  else if String.eqb tool "classify_chart_type" then CHART_TYPE
  else if String.eqb tool "generate_chart" then CHART_IMAGE
  else ERROR.

Section routes.
Context {W : Type} (env : Env W).
#[local] Abbreviation M := (M (W := W)).

(** The validating constructors of the request and decision models: a
    field of the wrong type is a validation error. *)
Definition mk_ToolRouterDecision (tool arguments : pyval) : M ToolRouterDecision :=
  match tool, arguments with
  | VStr t, VDict a => ret {| tool := t; arguments := a |}
  | VStr _, _ =>
      interp_error env (ValidationError "ToolRouterDecision" "arguments" arguments)
  | _, _ => interp_error env (ValidationError "ToolRouterDecision" "tool" tool)
  end.

Definition mk_AgentRequest (body : pyval) : M AgentRequest :=
  match body with
  | VDict d =>
      match lookup_item "message" d with
      | Some (VStr m) =>
          match lookup_item "context" d with
          | None | Some VNone => ret {| message := m; context := None |}
          | Some (VDict c) => ret {| message := m; context := Some c |}
          | Some v => interp_error env (ValidationError "AgentRequest" "context" v)
          end
      | Some v => interp_error env (ValidationError "AgentRequest" "message" v)
      | None => interp_error env (ValidationError "AgentRequest" "message" VNone)
      end
  | _ => interp_error env (NotAMapping body)
  end.

(** Fallback decision when the tool_router skill fails. *)
Definition _fallback_tool_decision (message : string) (context : pydict)
  : M ToolRouterDecision :=
  if truthy (dict_get context "query") && negb (truthy (dict_get context "headers"))
  then
    let! query := getitem env context "query" in
    mk_ToolRouterDecision (VStr "execute_sql") (VDict [("query", query)])
  else if truthy (dict_get context "headers")
  then
    let! headers := getitem env context "headers" in
    mk_ToolRouterDecision
      (VStr "generate_chart")
      (VDict [("query", dict_get_or context "query" (VStr ""));
              ("headers", headers);
              ("rows", dict_get_or context "rows" (VList []))])
  else
    mk_ToolRouterDecision (VStr "generate_sql")
                          (VDict [("question", VStr message)]).

Definition router_skill : Skill :=
  {| namespace := "playground"; name := "tool_router" |}.

Definition router_input (message : string) (context : pydict) : pydict :=
  [("message", VStr message);
   ("context", if truthy (VDict context) then VDict context else VNone)].

(** Ask the tool_router skill which tool to execute; [None] if that
    failed. *)
Definition _get_tool_decision (token message : string) (context : pydict)
  : M (option ToolRouterDecision) :=
  try_except
    (let! response :=
       run_skill env router_skill token (router_input message context) in
     let! tool := method_get env response "tool" (VStr "") in
     let! arguments := method_get env response "arguments" (VDict []) in
     let! decision := mk_ToolRouterDecision tool arguments in
     ret (Some decision))
    (fun e =>
       if is_KernelException e
       then let! decision := _fallback_tool_decision message context in
            ret (Some decision)
       else ret None).

(** Attempt to fix an SQL error by regenerating with feedback; [None] if
    that failed. *)
Definition _retry_sql_with_correction (error message : string) (context : pydict)
  : M (option AgentResponse) :=
  try_except
    (let original_question := dict_get_or context "original_question" (VStr message) in
     let! corrected :=
       mcp_server.execute_tool env "generate_sql"
         [("question", original_question); ("error_feedback", VStr error)] in
     let! sql_query := getitem env corrected "sql_query" in
     let! data := mcp_server.execute_tool env "execute_sql" [("query", sql_query)] in
     ret (Some {| response_type := QUERY_RESULTS;
                  data := data;
                  tool_used := "execute_sql";
                  success := true |}))
    (fun retry_error => ret None).

(** Execute the tool, with one automatic retry on SQL errors. *)
Definition _execute_with_retry (decision : ToolRouterDecision) (message : string)
           (context : pydict) : M AgentResponse :=
  try_except
    (let! data := mcp_server.execute_tool env (tool decision) (arguments decision) in
     ret {| response_type := response_types (tool decision);
            data := data;
            tool_used := tool decision;
            success := true |})
    (fun e =>
       let error_msg := str_exn e in
       let! retry_response :=
         (if String.eqb (tool decision) "execute_sql" && _is_fixable_sql_error error_msg
          then _retry_sql_with_correction error_msg message context
          else ret None) in
       match retry_response with
       | Some response => ret response
       | None => ret (_error_response error_msg (tool decision))
       end).

(** The [/agent] endpoint, from the decoded request body (or the error
    decoding it raised) to the response model.  Nothing the endpoint
    calls raises [HTTPException], so its re-raising clause is left out. *)
Definition agent_endpoint (request_json : exn + pyval) (token : string)
  : M AgentResponse :=
  try_except
    (let! body := of_sum request_json in
     let! req := mk_AgentRequest body in
     do! mcp_server.set_token token in
     let ctx := match context req with Some c => c | None => [] end in
     let! decision := _get_tool_decision token (message req) ctx in
     match decision with
     | None => ret (_error_response "Could not determine tool" "unknown")
     | Some decision => _execute_with_retry decision (message req) ctx
     end)
    (fun e => ret (_error_response (str_exn e) "unknown")).

End routes.
End routes.

(* ===================================================================== *)
(** * service/kernel.py *)
(* ===================================================================== *)

Module kernel.

(** An HTTP response: status, body text, and what [response.json()]
    makes of the body ([None]: the body is not valid JSON). *)
Record Response : Type :=
  { status_code : Z; text : string; json : option pyval }.

Section HttpKernel.
Context {W : Type}.
(** [session.post(url, json, token)]: a response, or the class and
    message of the transport error raised instead. *)
Variable post : string -> pyval -> string -> W -> ((string * string) + Response) * W.
Variable msg_of : InterpError -> string.
Variable url : string.

Definition endpoint (skill : Skill) : string :=
  url +:+ "v1/skills/" +:+ namespace skill +:+ "/" +:+ name skill +:+ "/run".

(** [HttpKernel.run] *)
Definition run (skill : Skill) (token : string) (input : pyval) (w : W)
  : (exn + pyval) * W :=
  match post (endpoint skill) input token w with
  | (inl (cls, msg), w') => (inl (Exception cls msg), w')
  | (inr response, w') =>
      if (400 <=? status_code response)%Z
      then (inl (KernelException (status_code response) (text response)), w')
      else match json response with
           | Some v => (inr v, w')
           | None =>
               (inl (Exception "JSONDecodeError"
                               (msg_of (JSONDecodeError (text response)))), w')
           end
  end.

(** An environment whose skill service is reached through
    [HttpKernel]. *)
Definition HttpKernel (env : Env W) : Env W :=
  {| kernel_run := run;
     db_is_connected := db_is_connected env;
     db_connect := db_connect env;
     db_query := db_query env;
     uuid4_hex := uuid4_hex env;
     mkdtemp := mkdtemp env;
     spawn := spawn env;
     sys_executable := sys_executable env;
     md5_hexdigest := md5_hexdigest env;
     b64encode := b64encode env;
     py_repr := py_repr env;
     interp_msg := msg_of |}.

End HttpKernel.
End kernel.

(* ===================================================================== *)
(** * The cleaning loop of data.py *)
(* ===================================================================== *)

Module data_preparation.

(** A DataFrame column: of dtype [object], holding text cells or missing
    values ([None]), or numeric. *)
Inductive column : Type :=
| ObjectCol (cells : list (option string))
| NumericCol (values : list Q).

Section cleaning.
(** [pd.to_numeric] on one text cell: the number it reads, if any. *)
Variable to_numeric : string -> option Q.

(** [pd.to_numeric(df[col], errors='coerce')]: [None] stands for NaN. *)
Definition numeric_series (cells : list (option string)) : list (option Q) :=
  map (fun c => match c with Some t => to_numeric t | None => None end) cells.

Definition isna (x : option Q) : bool :=
  match x with None => true | Some _ => false end.

(** [numeric_series.notna().sum()] *)
Definition notna_sum (ns : list (option Q)) : nat :=
  List.length (List.filter (fun x => negb (isna x)) ns).

(** [numeric_series.fillna(0)] *)
Definition fillna0 (ns : list (option Q)) : list Q :=
  map (fun x => match x with Some q => q | None => Qmake 0 1 end) ns.

(** [notna().sum() / len(df) > 0.5].  Both operands are row counts, the
    double quotient is correctly rounded and 0.5 is a double, so below
    2^53 rows the test on doubles is the test on the exact quotient. *)
Definition mostly_numeric (ns : list (option Q)) : bool :=
  negb (Qle_bool (Qmake (Z.of_nat (notna_sum ns)) (Pos.of_nat (List.length ns)))
                 (Qmake 1 2)).

(** One round of the loop body, for one column. *)
Definition clean_column (col : column) : column :=
  match col with
  | ObjectCol cells =>
      let ns := numeric_series cells in
      if negb (forallb isna ns)
      then if mostly_numeric ns then NumericCol (fillna0 ns) else col
      else col
  | NumericCol _ => col
  end.




End cleaning.

(** A reading of unsigned decimal tokens, which [pd.to_numeric] reads as
    the numbers they spell. *)
Definition digit (c : ascii) : option Z :=
  let n := nat_of_ascii c in
  if (48 <=? n)%nat && (n <=? 57)%nat then Some (Z.of_nat (n - 48)) else None.

Fixpoint digits (acc : Z) (t : string) : option Z :=
  match t with
  | EmptyString => Some acc
  | String c rest =>
      match digit c with
      | Some d => digits (10 * acc + d) rest
      | None => None
      end
  end.

Definition decimal (t : string) : option Q :=
  match t with
  | EmptyString => None
  | _ => match digits 0 t with Some n => Some (Qmake n 1) | None => None end
  end.

End data_preparation.


(* ===================================================================== *)
(** * Text primitives of the skills *)
(* ===================================================================== *)

Module Text.

(** [str.isspace] on ASCII characters.  The answers the chart classifier
    and the tool router read are modelled as ASCII texts: on other
    characters Python's [strip], [split] and [lower] know more white
    space and more letters.  [Lines.strip] below removes the white space
    of every character. *)
Definition is_space (c : ascii) : bool :=
  let n := nat_of_ascii c in
  ((9 <=? n)%nat && (n <=? 13)%nat) || ((28 <=? n)%nat && (n <=? 32)%nat).

(** [s.lstrip()] *)
Fixpoint lstrip (s : string) : string :=
  match s with
  | EmptyString => EmptyString
  | String c rest => if is_space c then lstrip rest else s
  end.

(** [s.rstrip()] *)
Fixpoint rstrip (s : string) : string :=
  match s with
  | EmptyString => EmptyString
  | String c rest =>
      match rstrip rest with
      | EmptyString => if is_space c then EmptyString else String c EmptyString
      | kept => String c kept
      end
  end.

(** [s.strip()] *)
Definition strip (s : string) : string := lstrip (rstrip s).

(** [s[n:]] *)
Fixpoint drop (n : nat) (s : string) : string :=
  match n, s with
  | O, _ => s
  | S n', String _ rest => drop n' rest
  | S _, EmptyString => EmptyString
  end.

(** [s.split(sep, 1)[1]] when [sep in s]: what follows the first
    occurrence of [sep]. *)
Fixpoint after_first (sep s : string) : option string :=
  if String.prefix sep s then Some (drop (String.length sep) s)
  else match s with
       | EmptyString => None
       | String _ rest => after_first sep rest
       end.

(** [s.split()]: the maximal runs of characters that are not white
    space. *)
Fixpoint words (s : string) : list string :=
  match s with
  | EmptyString => []
  | String c rest =>
      if is_space c then words rest
      else match rest with
           | EmptyString => [String c EmptyString]
           | String c' _ =>
               if is_space c' then String c EmptyString :: words rest
               else match words rest with
                    | w :: ws => String c w :: ws
                    | [] => [String c EmptyString]
                    end
           end
  end.

End Text.

(* ===================================================================== *)
(** * service/dependencies.py *)
(* ===================================================================== *)

Module dependencies.

(** [HTTPException(status_code, detail)] *)
Record HTTPException : Type := { status_code : Z; detail : string }.

(** [get_token], from the Authorization header and the value of the
    environment variable PHARIA_AI_TOKEN, if set. *)
Definition get_token (authorization : string) (PHARIA_AI_TOKEN : option string)
  : HTTPException + string :=
  if String.prefix "Bearer " authorization
  then inr (Text.drop (String.length "Bearer ") authorization)
  else match PHARIA_AI_TOKEN with
       | Some token => inr token
       | None => inl {| status_code := 400;
                        detail := "Invalid authorization header" |}
       end.

End dependencies.

(* ===================================================================== *)
(** * skill/chart_classifier.py *)
(* ===================================================================== *)

Module chart_classifier.

Definition valid_types : list string :=
  ["bar"; "line"; "pie"; "scatter"; "histogram"].

(** Extract the chart type from the response, handling thinking tags and
    extra text. *)
Definition extract_chart_type (response_text : string) : string :=
  let response_text :=
    match Text.after_first "</think>" response_text with
    | Some rest => Text.strip rest
    | None => response_text
    end in
  let response_text := Text.strip (lower response_text) in
  match List.find (fun chart_type => contains chart_type response_text) valid_types with
  | Some chart_type => chart_type
  | None => match Text.words response_text with
            | w :: _ => w
            | [] => ""
            end
  end.

(** [Input] *)
Record Input : Type :=
  { query : string; headers : list string; rows : list (list pyval) }.

Section skill.
(** [csi.chat(model, [system, user], params)]: the content of the
    model's message, or the exception raised. *)
Variable chat : string -> string -> exn + string.
(** [json.dumps] *)
Variable json_dumps : pyval -> string.
(** The text of [SYSTEM_PROMPT]. *)
Variable SYSTEM_PROMPT : string.
(** [Template(USER_PROMPT_TEMPLATE).render(query, headers_json,
    sample_data_json, total_rows, num_columns)] *)
Variable render : string -> string -> string -> nat -> nat -> string.

(** The skill: the chart type of its [Output]. *)
Definition classify_chart_type (input : Input) : string :=
  let sample_data := firstn 5 (rows input) in
  let num_columns := List.length (headers input) in
  let headers_json := json_dumps (VList (map VStr (headers input))) in
  let sample_data_json := json_dumps (VList (map VList sample_data)) in
  let formatted_user_prompt :=
    render (query input) headers_json sample_data_json
           (List.length (rows input)) num_columns in
  match chat SYSTEM_PROMPT formatted_user_prompt with
  | inr content =>
      let chart_type := extract_chart_type (Text.strip content) in
      if String.eqb chart_type "" || negb (existsb (String.eqb chart_type) valid_types)
      then "bar"
      else chart_type
  | inl _ => "bar"
  end.

End skill.
End chart_classifier.

(* ===================================================================== *)
(** * skill/tool_router.py *)
(* ===================================================================== *)

Module tool_router.

(** [d[k] = v]: the value is replaced where the key stands, a new key is
    added at the end. *)
Fixpoint dict_set (d : pydict) (k : string) (v : pyval) : pydict :=
  match d with
  | [] => [(k, v)]
  | (k', v') :: rest =>
      if String.eqb k k' then (k', v) :: rest else (k', v') :: dict_set rest k v
  end.

(** [d.setdefault(k, v)] *)
Definition dict_setdefault (d : pydict) (k : string) (v : pyval) : pydict :=
  if has_key d k then d else d ++ [(k, v)].

(** What follows the first "{", brace included: [s[s.find("{"):]]. *)
Fixpoint from_brace (s : string) : option string :=
  match s with
  | EmptyString => None
  | String c rest =>
      if Ascii.eqb c "{" then Some s else from_brace rest
  end.

Section skill.
(** [csi.chat(model, [system, user], params).message.content], from the
    user prompt; the system prompt and the parameters are constants. *)
Variable chat : string -> exn + string.
(** [json.loads]; [None] when it raises [JSONDecodeError]. *)
Variable json_loads : string -> option pyval.
(** [repr] and the text of the interpreter's own errors. *)
Variable py_repr : pyval -> string.
Variable interp_msg : InterpError -> string.
(** Whether slices can be hashed, as they can from Python 3.12 on: what
    slicing a dict raises depends on it. *)
Variable hashable_slices : bool.

Definition interp_error {A} (err : InterpError) : exn + A :=
  inl (Exception (interp_class err) (interp_msg err)).

Definition bindE {A B} (r : exn + A) (k : A -> exn + B) : exn + B :=
  match r with
  | inl e => inl e
  | inr a => k a
  end.

Definition py_str (v : pyval) : string :=
  match v with VStr s => s | _ => py_repr v end.

(** [str(v[:100])] *)
Definition first_100 (v : pyval) : exn + string :=
  match v with
  | VStr s => inr (String.substring 0 100 s)
  | VList l => inr (py_repr (VList (firstn 100 l)))
  | VDict _ =>
      if hashable_slices then interp_error (MissingKey "slice(None, 100, None)")
      else interp_error (NotSubscriptable v)
  | _ => interp_error (NotSubscriptable v)
  end.

(** [str(len(v))] *)
Definition len_text (v : pyval) : exn + string :=
  match py_len v with
  | Some n => inr (py_repr (VInt (Z.of_nat n)))
  | None => interp_error (NoLen v)
  end.

(** [bool(input.context)]: a context that is given and not empty. *)
Definition given (context : option pydict) : option pydict :=
  match context with
  | Some (item :: items) => Some (item :: items)
  | _ => None
  end.

(** The lines describing the context in the prompt. *)
Definition context_parts (context : option pydict) : exn + list string :=
  match given context with
  | Some ctx =>
      bindE (if truthy (dict_get ctx "query")
             then bindE (first_100 (dict_get ctx "query"))
                        (fun q => inr ["SQL query available: " +:+ q +:+ "..."])
             else inr [])
            (fun parts =>
               if truthy (dict_get ctx "headers") && truthy (dict_get ctx "rows")
               then bindE (len_text (dict_get ctx "rows"))
                          (fun n => inr (parts ++ ["Data available: " +:+ n
                                                   +:+ " rows, columns: "
                                                   +:+ py_str (dict_get ctx "headers")]))
               else inr parts)
  | None => inr []
  end.

Definition user_prompt (message : string) (parts : list string) : string :=
  let context_desc :=
    match parts with
    | [] => "No context provided"
    | _ => String.concat nl parts
    end in
  "Message: " +:+ message +:+ nl +:+ nl +:+ "Context:" +:+ nl +:+ context_desc
  +:+ nl +:+ nl +:+ "Which tool should be called? Respond with JSON only." +:+ nl.

(** [arguments[k] = v] on a value that need not be a dict: a [TypeError]
    on anything else. *)
Definition setitem (arguments : pyval) (k : string) (v : pyval) : exn + pyval :=
  match arguments with
  | VDict d => inr (VDict (dict_set d k v))
  | _ => interp_error (NotSubscriptable arguments)
  end.

(** [arguments.setdefault(k, v)] on a value that need not be a dict. *)
Definition setdefault (arguments : pyval) (k : string) (v : pyval) : exn + pyval :=
  match arguments with
  | VDict d => inr (VDict (dict_setdefault d k v))
  | _ => interp_error (NoAttribute arguments "setdefault")
  end.

(** [k not in arguments] on a value that need not be a dict. *)
Definition not_in (k : string) (arguments : pyval) : exn + bool :=
  match arguments with
  | VDict d => inr (negb (has_key d k))
  | VList l => inr (negb (existsb (fun x => match x with
                                            | VStr s => String.eqb s k
                                            | _ => false
                                            end) l))
  | VStr s => inr (negb (contains k s))
  | _ => interp_error (NotAMapping arguments)
  end.

(** The chart data of a decision: taken from the context when there is
    one, defaulted otherwise. *)
Definition chart_data (context : option pydict) (arguments : pyval) : exn + pyval :=
  match given context with
  | Some ctx =>
      bindE (setitem arguments "query" (dict_get_or ctx "query" (VStr "")))
            (fun a =>
               bindE (setitem a "headers" (dict_get_or ctx "headers" (VList [])))
                     (fun a => setitem a "rows" (dict_get_or ctx "rows" (VList []))))
  | None =>
      bindE (setdefault arguments "query" (VStr ""))
            (fun a =>
               bindE (setdefault a "headers" (VList []))
                     (fun a => setdefault a "rows" (VList [])))
  end.

(** [Output(tool=tool, arguments=arguments)], validated. *)
Definition Output (tool arguments : pyval) : exn + ToolRouterDecision :=
  match tool, arguments with
  | VStr t, VDict a => inr {| tool := t; arguments := a |}
  | VStr _, _ => interp_error (ValidationError "Output" "arguments" arguments)
  | _, _ => interp_error (ValidationError "Output" "tool" tool)
  end.

Definition is_tool (tool : pyval) (name : string) : bool :=
  match tool with VStr t => String.eqb t name | _ => false end.

(** What the skill makes of a parsed decision. *)
Definition complete (message : string) (context : option pydict) (decision : pyval)
  : exn + ToolRouterDecision :=
  match decision with
  | VDict d =>
      let tool := dict_get_or d "tool" (VStr "") in
      let arguments := dict_get_or d "arguments" (VDict []) in
      bindE
        (if is_tool tool "generate_chart" then chart_data context arguments
         else if is_tool tool "execute_sql" then
           bindE (not_in "query" arguments)
                 (fun missing =>
                    if missing
                    then setitem arguments "query"
                           match given context with
                           | Some ctx => dict_get_or ctx "query" (VStr "")
                           | None => VStr ""
                           end
                    else inr arguments)
         else if is_tool tool "generate_sql" then
           bindE (not_in "question" arguments)
                 (fun missing =>
                    if missing then setitem arguments "question" (VStr message)
                    else inr arguments)
         else if is_tool tool "classify_chart_type" then chart_data context arguments
         else inr arguments)
        (fun arguments => Output tool arguments)
  | _ => interp_error (NoAttribute decision "get")
  end.

(** The loop over the answer from its first "{": [taken] is the text
    from that brace up to the current character, [brace_count] the
    braces open.  [None]: the loop ended without a decision. *)
Fixpoint scan (message : string) (context : option pydict)
         (taken rest : string) (brace_count : Z)
  : option (exn + ToolRouterDecision) :=
  match rest with
  | EmptyString => None
  | String c rest' =>
      let taken' := taken +:+ String c EmptyString in
      if Ascii.eqb c "{" then scan message context taken' rest' (brace_count + 1)
      else if Ascii.eqb c "}" then
        if (brace_count - 1 =? 0)%Z then
          match json_loads taken' with
          | Some decision => Some (complete message context decision)
          | None => scan message context taken' rest' (brace_count - 1)
          end
        else scan message context taken' rest' (brace_count - 1)
      else scan message context taken' rest' brace_count
  end.

(** The decision taken when the answer cannot be parsed. *)
Definition fallback (message : string) (context : option pydict)
  : ToolRouterDecision :=
  match given context with
  | Some ctx =>
      if truthy (dict_get ctx "query") && negb (truthy (dict_get ctx "headers"))
      then {| tool := "execute_sql";
              arguments := [("query", dict_get ctx "query")] |}
      else if truthy (dict_get ctx "headers") && truthy (dict_get ctx "rows")
      then {| tool := "generate_chart";
              arguments := [("query", dict_get_or ctx "query" (VStr ""));
                            ("headers", dict_get ctx "headers");
                            ("rows", dict_get ctx "rows")] |}
      else {| tool := "generate_sql"; arguments := [("question", VStr message)] |}
  | None => {| tool := "generate_sql"; arguments := [("question", VStr message)] |}
  end.

(** The skill. *)
Definition route_tool (message : string) (context : option pydict)
  : exn + ToolRouterDecision :=
  bindE (context_parts context) (fun parts =>
  bindE (chat (user_prompt message parts)) (fun llm_response =>
    let llm_response :=
      match Text.after_first "</think>" llm_response with
      | Some rest => Text.strip rest
      | None => llm_response
      end in
    match from_brace llm_response with
    | Some text =>
        match scan message context "" text 0 with
        | Some outcome => outcome
        | None => inr (fallback message context)
        end
    | None => inr (fallback message context)
    end)).

End skill.
End tool_router.

(* ===================================================================== *)
(** * Text primitives of the SQL skill *)
(* ===================================================================== *)

Module Lines.

(** In this module a text stands for its UTF-8 encoding: a character
    beyond ASCII is a sequence of two to four bytes from 128 on, and no
    such byte is part of an ASCII character. *)
Definition encoded (bytes : list nat) : string :=
  string_of_list_ascii (map ascii_of_nat bytes).

(** The characters [str.isspace] holds of, which [str.strip] removes:
    the controls 9 to 13 and 28 to 31 and the space, U+0085, U+00A0,
    U+1680, U+2000 to U+200A, U+2028, U+2029, U+202F, U+205F and
    U+3000. *)
Definition white_space : list string :=
  map encoded
      [[9]; [10]; [11]; [12]; [13]; [28]; [29]; [30]; [31]; [32];
       [194; 133]; [194; 160];
       [225; 154; 128];
       [226; 128; 128]; [226; 128; 129]; [226; 128; 130]; [226; 128; 131];
       [226; 128; 132]; [226; 128; 133]; [226; 128; 134]; [226; 128; 135];
       [226; 128; 136]; [226; 128; 137]; [226; 128; 138];
       [226; 128; 168]; [226; 128; 169]; [226; 128; 175];
       [226; 129; 159];
       [227; 128; 128]].

(** What follows the white-space character a text begins with, if it
    begins with one. *)
Definition after_space (s : string) : option string :=
  match List.find (fun w => String.prefix w s) white_space with
  | Some w => Some (Text.drop (String.length w) s)
  | None => None
  end.

(** [s.lstrip()].  Every character removed shortens the text, so its
    length is fuel enough. *)
Fixpoint lstrip_fuel (fuel : nat) (s : string) : string :=
  match fuel with
  | O => s
  | S fuel' =>
      match after_space s with
      | Some rest => lstrip_fuel fuel' rest
      | None => s
      end
  end.

Definition lstrip (s : string) : string := lstrip_fuel (String.length s) s.

(** [s.rstrip()], from the end of the text: what is kept of the rest is
    kept, with the byte in front of it, unless the two make up one
    white-space character, behind which nothing was kept. *)
Fixpoint rstrip (s : string) : string :=
  match s with
  | EmptyString => EmptyString
  | String c rest =>
      let kept := String c (rstrip rest) in
      if existsb (String.eqb kept) white_space then EmptyString else kept
  end.

(** [s.strip()] *)
Definition strip (s : string) : string := lstrip (rstrip s).

(** [s.upper().startswith(word)], for a word given letter by letter,
    each letter with the characters whose uppercase it is. *)
Fixpoint starts_upper (letters : list (list string)) (s : string) : bool :=
  match letters with
  | [] => true
  | alternatives :: more =>
      existsb (fun w => String.prefix w s
                        && starts_upper more (Text.drop (String.length w) s))
              alternatives
  end.

Definition newline : ascii := ascii_of_nat 10.

(** [s.split(newline)]: the lines of a text, one more than it has line
    breaks. *)
Fixpoint split_lines (s : string) : list string :=
  match s with
  | EmptyString => [EmptyString]
  | String c rest =>
      if Ascii.eqb c newline then EmptyString :: split_lines rest
      else match split_lines rest with
           | line :: more => String c line :: more
           | [] => [String c EmptyString]
           end
  end.

(** [s.rstrip(".")] *)
Fixpoint rstrip_dots (s : string) : string :=
  match s with
  | EmptyString => EmptyString
  | String c rest =>
      match rstrip_dots rest with
      | EmptyString => if Ascii.eqb c "." then EmptyString else String c EmptyString
      | kept => String c kept
      end
  end.

Fixpoint last_char (s : string) : option ascii :=
  match s with
  | EmptyString => None
  | String c EmptyString => Some c
  | String _ rest => last_char rest
  end.

(** [s.endswith(c)] for a one-character [c]. *)
Definition ends_with (c : ascii) (s : string) : bool :=
  match last_char s with
  | Some c' => Ascii.eqb c' c
  | None => false
  end.

(** [re.sub(r"<think>(.*?)</think>", "", s, flags=re.DOTALL)]: from left
    to right, every "<think>" that has a "</think>" behind it goes with
    all that stands up to the first such "</think>".  A "<think>" with
    none behind it stays, and so does what follows it, where no other
    match can start.  Every removal shortens the text, so its length is
    fuel enough. *)
Fixpoint without_thinking (fuel : nat) (s : string) : string :=
  match fuel with
  | O => s
  | S fuel' =>
      match s with
      | EmptyString => EmptyString
      | String c rest =>
          if String.prefix "<think>" s
          then match Text.after_first "</think>" (Text.drop 7 s) with
               | Some behind => without_thinking fuel' behind
               | None => s
               end
          else String c (without_thinking fuel' rest)
      end
  end.

Definition remove_thinking (s : string) : string :=
  without_thinking (String.length s) s.

End Lines.

(* ===================================================================== *)
(** * skill/qa.py *)
(* ===================================================================== *)

Module qa.

(** [line.upper().startswith("SELECT")].  [str.upper] maps a text
    character by character.  Beside the letters themselves in both
    cases, the characters whose uppercase begins with a letter of SELECT
    are U+017F, which gives S, U+1E97, which gives T and a combining
    mark, and U+00DF, U+FB05 and U+FB06, which give SS and ST, of which
    SELECT has neither. *)
Definition starts_select (line : string) : bool :=
  Lines.starts_upper
    [["S"; "s"; Lines.encoded [197; 191]];
     ["E"; "e"]; ["L"; "l"]; ["E"; "e"]; ["C"; "c"];
     ["T"; "t"; Lines.encoded [225; 186; 151]]]
    line.

(** The inner loop of [extract_sql_text]: the lines taken behind the
    SELECT line, up to a line that starts another statement or a comment
    (left out) or that ends with a semicolon (taken). *)
Fixpoint continuation (lines : list string) : list string :=
  match lines with
  | [] => []
  | next_line :: more =>
      if starts_select next_line
         || String.prefix "//" next_line
         || String.prefix "#" next_line
      then []
      else if Lines.ends_with ";" next_line then [next_line]
      else next_line :: continuation more
  end.

(** The outer loop, which walks the lines from the last to the first:
    the last line that starts with SELECT, and the lines behind it. *)
Fixpoint last_select (lines : list string) : option (string * list string) :=
  match lines with
  | [] => None
  | line :: more =>
      match last_select more with
      | Some found => Some found
      | None => if starts_select line then Some (line, more) else None
      end
  end.

(** The stripped lines of the text that are not empty. *)
Definition lines_of (sql_text_cleaned : string) : list string :=
  List.filter (fun line => negb (String.eqb line ""))
              (map Lines.strip (Lines.split_lines (Lines.strip sql_text_cleaned))).

Definition extract_sql_text (sql_text : string) : string :=
  let sql_text_cleaned := Lines.remove_thinking sql_text in
  match last_select (lines_of sql_text_cleaned) with
  | Some (line, behind) =>
      let sql_lines := line :: continuation behind in
      let sql_query := Lines.rstrip_dots (String.concat " " sql_lines) in
      if Lines.ends_with ";" sql_query then sql_query else sql_query +:+ ";"
  | None => Lines.strip sql_text_cleaned
  end.

(** [Input], [Output], [FewShotExample] *)
Record Input : Type := { question : string; database_schema : option string }.
Record Output : Type := { answer : option string; duration : option Q }.
Record FewShotExample : Type := { example_question : string; sql_query : string }.

(** A search result: the path of the document and its text. *)
Record SearchResult (DocumentPath : Type) : Type :=
  { document_path : DocumentPath; content : string }.
Arguments document_path {DocumentPath}.
Arguments content {DocumentPath}.

Section skill.
Variable DocumentPath : Type.
(** [csi.search(index, question, 10)] *)
Variable search : string -> exn + list (SearchResult DocumentPath).
(** [csi.document_metadata(path)]: a JSON value, [None] for a document
    without metadata. *)
Variable document_metadata : DocumentPath -> exn + pyval.
(** [csi.chat(model, [system, user], params).message.content] *)
Variable chat : string -> string -> exn + string.
(** The two templates, rendered. *)
Variable render_system : string -> string.
Variable render_user : string -> list FewShotExample -> string -> string.
Variable DATABASE_SCHEMA : string.
Variable interp_msg : InterpError -> string.

Definition interp_error {A} (err : InterpError) : exn + A :=
  inl (Exception (interp_class err) (interp_msg err)).

Definition bindE {A B} (r : exn + A) (k : A -> exn + B) : exn + B :=
  match r with
  | inl e => inl e
  | inr a => k a
  end.

(** [[csi.document_metadata(result.document_path) for result in documents]] *)
Fixpoint documents_metadata (documents : list (SearchResult DocumentPath))
  : exn + list pyval :=
  match documents with
  | [] => inr []
  | result :: more =>
      bindE (document_metadata (document_path result)) (fun metadata =>
      bindE (documents_metadata more) (fun others => inr (metadata :: others)))
  end.

(** [metadata.get("query", default)] on a value that need not be a dict. *)
Definition metadata_query (metadata default : pyval) : exn + pyval :=
  match metadata with
  | VDict d => inr (dict_get_or d "query" default)
  | _ => interp_error (NoAttribute metadata "get")
  end.

(** [FewShotExample(question=..., sql_query=...)], validated. *)
Definition mk_FewShotExample (q : string) (sql : pyval) : exn + FewShotExample :=
  match sql with
  | VStr s => inr {| example_question := q; sql_query := s |}
  | _ => interp_error (ValidationError "FewShotExample" "sql_query" sql)
  end.

(** The comprehension over [zip(documents, documents_metadata)]. *)
Fixpoint examples_of (pairs : list (SearchResult DocumentPath * pyval))
  : exn + list FewShotExample :=
  match pairs with
  | [] => inr []
  | (document, metadata) :: more =>
      bindE (metadata_query metadata VNone) (fun q =>
        if truthy q
        then bindE (metadata_query metadata (VStr "")) (fun sql =>
             bindE (mk_FewShotExample (content document) sql) (fun example =>
             bindE (examples_of more) (fun others => inr (example :: others))))
        else examples_of more)
  end.

Definition few_shot_examples (question : string) : exn + list FewShotExample :=
  bindE (search question) (fun documents =>
    match documents with
    | [] => inr []
    | _ :: _ =>
        bindE (documents_metadata documents) (fun metadata =>
          examples_of (List.combine documents metadata))
    end).

Definition unable_response : string := "None".

(** The user prompt: the schema of the input, or the built-in one when
    the input has none or an empty one. *)
Definition formatted_user_prompt (input : Input) (examples : list FewShotExample)
  : string :=
  render_user
    match database_schema input with
    | Some schema => if String.eqb schema "" then DATABASE_SCHEMA else schema
    | None => DATABASE_SCHEMA
    end
    examples (question input).

(** The skill. *)
Definition custom_rag (input : Input) : exn + Output :=
  bindE (few_shot_examples (question input)) (fun examples =>
    match chat (render_system unable_response)
               (formatted_user_prompt input examples) with
    | inr reply =>
        let sql_output := extract_sql_text (Lines.strip reply) in
        if String.eqb sql_output unable_response || String.eqb sql_output ""
        then inr {| answer := None; duration := None |}
        else inr {| answer := Some sql_output; duration := None |}
    | inl _ => inr {| answer := None; duration := None |}
    end).

End skill.
End qa.

(* ===================================================================== *)
(** * Scripted environments, for concrete runs *)
(* ===================================================================== *)

Module scripted.

(** The outside state counts the SQL queries run so far.  Skills answer
    by name, the SQL engine answers the [n]-th query with the [n]-th
    entry of its script, and the child interpreter does as told. *)
Definition env (skills : string -> exn + pyval)
           (db : list (exn + (pyval * pyval)))
           (child : gmap string node -> ChildRun * gmap string node)
  : Env nat :=
  {| kernel_run := fun skill _ _ w => (skills (name skill), w);
     db_is_connected := fun _ => true;
     db_connect := fun w => (inr tt, w);
     db_query := fun _ w =>
       (nth w db (inl (Exception "OperationalError" "database is locked")), S w);
     uuid4_hex := fun w => ("0123456789abcdef0123456789abcdef", w);
     mkdtemp := fun _ w => ("/tmp/tmpjob", w);
     spawn := fun _ _ f w => (child f, w);
     sys_executable := "python";
     md5_hexdigest := fun _ => "d41d8cd98f00b204e9800998ecf8427e";
     b64encode := fun b => b;
     py_repr := fun _ => "<value>";
     interp_msg := fun _ => "<interpreter error>" |}.

Definition no_skill : string -> exn + pyval :=
  fun _ => inl (KernelException 503 "Service Unavailable").

Definition idle_child (f : gmap string node) : ChildRun * gmap string node :=
  ({| elapsed := Some (Qmake 1 1);
      completed := {| returncode := 0; stdout := ""; stderr := "" |} |}, f).

Definition start : State nat := mkState 0%nat ∅ "" [] [] [].

End scripted.

(* ===================================================================== *)
(** * The vocabulary of the specification *)
(* ===================================================================== *)

(** ** Routing decisions *)

Definition ExecuteSQL (query : pyval) : ToolRouterDecision :=
  {| tool := "execute_sql"; arguments := [("query", query)] |}.

Definition GenerateChart (query headers rows : pyval) : ToolRouterDecision :=
  {| tool := "generate_chart";
     arguments := [("query", query); ("headers", headers); ("rows", rows)] |}.

Definition GenerateSQL (question : string) : ToolRouterDecision :=
  {| tool := "generate_sql"; arguments := [("question", VStr question)] |}.

(** The fallback rules read with "present" as "the key is in the
    mapping", which is how the specification words them. *)
Definition routed_by_presence (message : string) (context : pydict)
           (result : exn + ToolRouterDecision) : Prop :=
  (has_key context "query" = true -> has_key context "headers" = false ->
   result = inr (ExecuteSQL (dict_get context "query")))
  /\ (has_key context "headers" = true ->
      result = inr (GenerateChart (dict_get_or context "query" (VStr ""))
                                  (dict_get context "headers")
                                  (dict_get_or context "rows" (VList []))))
  /\ (has_key context "query" = false -> has_key context "headers" = false ->
      result = inr (GenerateSQL message)).

(** The same rules read with "present" as "the value is truthy", the
    defaults still applying when the key is missing. *)
Definition routed_by_truth (message : string) (context : pydict)
           (result : exn + ToolRouterDecision) : Prop :=
  (truthy (dict_get context "query") = true ->
   truthy (dict_get context "headers") = false ->
   result = inr (ExecuteSQL (dict_get context "query")))
  /\ (truthy (dict_get context "headers") = true ->
      result = inr (GenerateChart (dict_get_or context "query" (VStr ""))
                                  (dict_get context "headers")
                                  (dict_get_or context "rows" (VList []))))
  /\ (truthy (dict_get context "query") = false ->
      truthy (dict_get context "headers") = false ->
      result = inr (GenerateSQL message)).

(** The deterministic local rule, as a function of message and context. *)
Definition local_rule (message : string) (context : pydict) : ToolRouterDecision :=
  if truthy (dict_get context "query") && negb (truthy (dict_get context "headers"))
  then ExecuteSQL (dict_get context "query")
  else if truthy (dict_get context "headers")
  then GenerateChart (dict_get_or context "query" (VStr ""))
                     (dict_get context "headers")
                     (dict_get_or context "rows" (VList []))
  else GenerateSQL message.

(** The decision a reply of the router skill stands for, if it is a
    valid one: an object whose [tool], the empty name by default, is a
    string and whose [arguments], none by default, are an object. *)
Definition decision_of (reply : pyval) : option ToolRouterDecision :=
  match reply with
  | VDict d =>
      match dict_get_or d "tool" (VStr ""), dict_get_or d "arguments" (VDict []) with
      | VStr t, VDict a => Some {| tool := t; arguments := a |}
      | _, _ => None
      end
  | _ => None
  end.

(** The request body of a turn with a message and a context. *)
Definition request (message : string) (context : pydict) : pyval :=
  VDict [("message", VStr message); ("context", VDict context)].

Definition with_token {W} (token : string) (s : State W) : State W :=
  mkState (world s) (fs s) token (tool_calls s) (workspaces s) (children s).

(** ** The retry *)

(** [error], compared case-insensitively, contains [keyword]. *)
Definition mentions (keyword error : string) : Prop :=
  exists pre post, lower error = pre +:+ keyword +:+ post.

(** The retry condition in the specification's words. *)
Definition retryable (tool error : string) : Prop :=
  tool = "execute_sql"
  /\ exists keyword,
       In keyword ["no such function"; "syntax error"; "no such column"; "near"]
       /\ mentions keyword error.

(** The GenerateSQL call of a retry: the original question when the
    context has one, the message otherwise, and the error as feedback. *)
Definition retry_call (error message : string) (context : pydict)
  : string * pydict :=
  ("generate_sql",
   [("question", match lookup_item "original_question" context with
                 | Some question => question
                 | None => VStr message
                 end);
    ("error_feedback", VStr error)]).

(** The ExecuteSQL call of a retry. *)
Definition retried (query : pyval) : string * pydict :=
  ("execute_sql", [("query", query)]).

(** The terminal state Failed, as a response. *)
Definition Failed (error tool : string) : AgentResponse :=
  {| response_type := ERROR; data := [("error", VStr error)];
     tool_used := tool; success := false |}.

(** ** Chart tools *)

Definition classifier_input (query headers rows : pyval) : pyval :=
  VDict [("query", query); ("headers", headers); ("rows", rows)].

Definition chart_arguments (query headers rows : pyval) : pydict :=
  [("query", query); ("headers", headers); ("rows", rows)].

(** ** Render outcomes *)

(** The identifier of a render: a prefix of the content hash of the
    query and the table, and a prefix of the random hexadecimal [u]. *)
Definition chart_id {W} (env : Env W) (query headers rows : pyval) (u : string)
  : string :=
  "chart_"
  +:+ String.substring 0 8
        (md5_hexdigest env (py_str env query +:+ "_" +:+ py_str env headers
                            +:+ "_" +:+ py_str env rows))
  +:+ "_" +:+ String.substring 0 8 u.

(** The failures of a render, and the exception the pipeline raises for
    each. *)
Inductive RenderFailure : Type :=
| Timeout
| ProcessFailed (stderr : string)
| ArtifactMissing.

Definition render_error (failure : RenderFailure) : exn :=
  Exception "Exception"
    match failure with
    | Timeout => "Chart generation timed out"
    | ProcessFailed stderr =>
        "Error executing chart code: Chart generation failed: " +:+ stderr
    | ArtifactMissing => "Error executing chart code: Chart image was not generated"
    end.



(** What the pipeline makes of a child's run and of the file system it
    left. *)
Definition render_result {W} (env : Env W) (run : ChildRun) (f : gmap string node)
           (d image : string) : exn + string :=
  match elapsed run with
  | Some t =>
      if Qle_bool t chart_service.timeout then
        if negb (returncode (completed run) =? 0)%Z
        then inl (render_error (ProcessFailed (stderr (completed run))))
        else match f !! d with
             | Some Dir =>
                 match f !! image with
                 | None => inl (render_error ArtifactMissing)
                 | Some (File bytes) => inr (b64encode env bytes)
                 | Some Dir =>
                     inl (Exception "Exception"
                            ("Error executing chart code: "
                             +:+ interp_msg env (NotAFile image)))
                 end
             | _ => inl (Exception "Exception"
                           ("Error executing chart code: "
                            +:+ interp_msg env (NoSuchFile d)))
             end
      else inl (render_error Timeout)
  | None => inl (render_error Timeout)
  end.

(** The steps before the render succeed from state [s]: the headers
    have a length and the rows can be sampled, as the log lines need
    them, and the chart code [code] is acquired, which leaves state
    [s1]. *)
Definition acquires {W} (env : Env W) (token : string) (query headers rows : pyval)
           (s : State W) (code : string) (s1 : State W) : Prop :=
  py_len headers <> None
  /\ (truthy rows = true -> sliceable rows = true)
  /\ chart_service._generate_chart_code env token query headers rows s
     = (inr code, s1).

(** The file system the child starts in: the one found, with the
    workspace [d] and the two scripts in it. *)
Definition staged {W} (env : Env W) (headers rows : pyval) (code cid d : string)
           (f0 : gmap string node) : gmap string node :=
  <[path_join d "chart.py" :=
      File (chart_service._create_chart_execution_code env code cid d)]>
    (<[path_join d "data.py" :=
         File (chart_service._create_data_preparation_code env headers rows)]>
       (<[d := Dir]> f0)).

(** ** Column typing *)

(** Whether a cell holds a value that converts to a number. *)
Definition converts (to_numeric : string -> option Q) (cell : option string) : bool :=
  match cell with
  | Some t => match to_numeric t with Some _ => true | None => false end
  | None => false
  end.

Definition converted (to_numeric : string -> option Q) (cells : list (option string))
  : nat :=
  List.length (List.filter (converts to_numeric) cells).

Definition non_missing (cells : list (option string)) : nat :=
  List.length (List.filter (fun c => match c with Some _ => true | None => false end)
                           cells).

(** The numeric coercion of a column, non-convertible cells filled with 0. *)
Definition coerced (to_numeric : string -> option Q) (cells : list (option string))
  : list Q :=
  map (fun c => match c with
                | Some t => match to_numeric t with Some q => q | None => Qmake 0 1 end
                | None => Qmake 0 1
                end) cells.

(** The threshold as the specification words it: over the non-missing
    values. *)
Definition typed_over_non_missing (to_numeric : string -> option Q)
           (cells : list (option string)) : Prop :=
  let result := data_preparation.clean_column to_numeric
                  (data_preparation.ObjectCol cells) in
  (non_missing cells < 2 * converted to_numeric cells ->
   result = data_preparation.NumericCol (coerced to_numeric cells))
  /\ (2 * converted to_numeric cells <= non_missing cells ->
      result = data_preparation.ObjectCol cells).

(** ** Frames *)

Section Frames.
Context {W : Type}.

(** A computation is silent when it records no tool call. *)
Definition silent {A} (m : M (W := W) A) : Prop :=
  forall s, tool_calls (snd (m s)) = tool_calls s.

(** A computation is outside-only when it leaves the file system, the
    token and the ghost logs as found. *)
Definition outside_only {A} (m : M (W := W) A) : Prop :=
  forall s, exists w, snd (m s) = set_world w s.

End Frames.

(* ===================================================================== *)
(** * Scenarios *)
(* ===================================================================== *)

(** A turn whose query fails twice, both times with a retryable error:
    the engine rejects "SELEC 1" near the typo, the generator proposes a
    query on a column that does not exist. *)
Module twice_failing.

Definition skills (skill_name : string) : exn + pyval :=
  if String.eqb skill_name "sql-generator"
  then inr (VDict [("answer", VStr "SELECT total FROM Customers")])
  else inl (KernelException 503 "Service Unavailable").

Definition db : list (exn + (pyval * pyval)) :=
  [inl (Exception "OperationalError" "near SELEC: syntax error");
   inl (Exception "OperationalError" "no such column: total")].

Definition env : Env nat := scripted.env skills db scripted.idle_child.

Definition context : pydict :=
  [("query", VStr "SELEC 1"); ("original_question", VStr "How many customers?")].

Definition turn : (exn + AgentResponse) * State nat :=
  routes._execute_with_retry
    env {| tool := "execute_sql"; arguments := [("query", VStr "SELEC 1")] |}
    "run it" context scripted.start.

End twice_failing.

(** A turn whose query fails once: the corrected query runs. *)
Module once_failing.

Definition skills (skill_name : string) : exn + pyval :=
  if String.eqb skill_name "sql-generator"
  then inr (VDict [("answer", VStr "SELECT 1")])
  else inl (KernelException 503 "Service Unavailable").

Definition db : list (exn + (pyval * pyval)) :=
  [inl (Exception "OperationalError" "near SELEC: syntax error");
   inr (VList [VStr "1"], VList [VList [VInt 1]])].

Definition turn : (exn + AgentResponse) * State nat :=
  routes._execute_with_retry
    (scripted.env skills db scripted.idle_child)
    {| tool := "execute_sql"; arguments := [("query", VStr "SELEC 1")] |}
    "run it" [] scripted.start.

End once_failing.

(** The router skill answers 200 with a body that is not JSON. *)
Module unparseable_reply.

Definition post (target : string) (input : pyval) (token : string) (w : nat)
  : ((string * string) + kernel.Response) * nat :=
  (inr {| kernel.status_code := 200;
          kernel.text := "Sure! The right tool is generate_sql.";
          kernel.json := None |}, w).

Definition env : Env nat :=
  kernel.HttpKernel post (fun _ => "<interpreter error>") "http://kernel/"
                    (scripted.env scripted.no_skill [] scripted.idle_child).

End unparseable_reply.

(** The connection to the skill service cannot be opened. *)
Module transport_error.

Definition post (target : string) (input : pyval) (token : string) (w : nat)
  : ((string * string) + kernel.Response) * nat :=
  (inl ("ConnectError", "All connection attempts failed"), w).

Definition env : Env nat :=
  kernel.HttpKernel post (fun _ => "<interpreter error>") "http://kernel/"
                    (scripted.env scripted.no_skill [] scripted.idle_child).

End transport_error.

(** The router skill answers with a list of tool names, which is no
    decision. *)
Module invalid_decision.

Definition skills (skill_name : string) : exn + pyval :=
  inr (VList [VStr "generate_sql"; VStr "execute_sql"]).

Definition env : Env nat := scripted.env skills [] scripted.idle_child.

End invalid_decision.

(** The classifier is down; the generator answers without code. *)
Module classifier_down.

Definition skills (skill_name : string) : exn + pyval :=
  if String.eqb skill_name "chart_generator" then inr (VDict [])
  else inl (KernelException 503 "Service Unavailable").

Definition env : Env nat := scripted.env skills [] scripted.idle_child.

Definition headers : pyval := VList [VStr "Country"; VStr "Customers"].

Definition rows : pyval :=
  VList [VList [VStr "Germany"; VInt 11]; VList [VStr "France"; VInt 9]].

Definition query : pyval :=
  VStr "SELECT Country, COUNT(CustomerID) FROM Customers GROUP BY Country".

End classifier_down.

(** The classifier answers, but names no chart type. *)
Module mute_classifier.

Definition skills (skill_name : string) : exn + pyval :=
  if String.eqb skill_name "chart_classifier" then inr (VDict [])
  else inl (KernelException 503 "Service Unavailable").

Definition env : Env nat := scripted.env skills [] scripted.idle_child.

End mute_classifier.

(** Four renders of the same table, with a child that never exits, one
    that crashes, one that exits without saving, and one that draws. *)
Module renders.

Definition skills (skill_name : string) : exn + pyval :=
  if String.eqb skill_name "chart_classifier"
  then inr (VDict [("chart_type", VStr "bar")])
  else if String.eqb skill_name "chart_generator"
  then inr (VDict [("chart_code", VStr "plt.bar(df['Country'], df['Customers'])")])
  else inl (KernelException 404 "Not Found").

Definition image : string := "/tmp/tmpjob/chart_d41d8cd9_01234567.png".

Definition exits (code : Z) (err : string) : ChildRun :=
  {| elapsed := Some (Qmake 2 1);
     completed := {| returncode := code; stdout := ""; stderr := err |} |}.

Definition sleeping (f : gmap string node) : ChildRun * gmap string node :=
  ({| elapsed := None;
      completed := {| returncode := 0; stdout := ""; stderr := "" |} |}, f).

Definition crashing (f : gmap string node) : ChildRun * gmap string node :=
  (exits 1 "NameError: name 'plot' is not defined", f).

Definition forgetting (f : gmap string node) : ChildRun * gmap string node :=
  (exits 0 "", f).

Definition drawing (f : gmap string node) : ChildRun * gmap string node :=
  (exits 0 "", <[image := File "PNG"]> f).

Definition render (child : gmap string node -> ChildRun * gmap string node)
  : (exn + string) * State nat :=
  chart_service.generate_chart_image
    (scripted.env skills [] child) "tok" classifier_down.query
    classifier_down.headers classifier_down.rows scripted.start.

End renders.


(* ===================================================================== *)
(** * Further vocabulary: the dispatcher and its responses *)
(* ===================================================================== *)

(** The names registered in [_TOOL_IMPLEMENTATIONS]. *)
Definition known_tools : list string :=
  ["generate_sql"; "execute_sql"; "classify_chart_type"; "generate_chart"].

(** The keyword parameters of each implementation: function name,
    required parameters, optional parameters. *)
Definition signature (tool_name : string) : option (string * list string * list string) :=
  if String.eqb tool_name "generate_sql"
  then Some ("_run_generate_sql", ["question"], ["error_feedback"])
  else if String.eqb tool_name "execute_sql"
  then Some ("_run_execute_sql", ["query"], [])
  else if String.eqb tool_name "classify_chart_type"
  then Some ("_run_classify_chart_type", ["query"; "headers"; "rows"], [])
  else if String.eqb tool_name "generate_chart"
  then Some ("_run_generate_chart", ["query"; "headers"; "rows"], [])
  else None.

(** The arguments fit the parameters: every key is a parameter and every
    required parameter is a key. *)
Definition fits (required optional : list string) (arguments : pydict) : bool :=
  forallb (fun kv => existsb (String.eqb (fst kv)) (required ++ optional)) arguments
  && forallb (has_key arguments) required.

(** The state after [execute_tool] has recorded a call. *)
Definition logged {W} (tool_name : string) (arguments : pydict) (s : State W)
  : State W :=
  mkState (world s) (fs s) (_token s) (tool_calls s ++ [(tool_name, arguments)])
          (workspaces s) (children s).

(** The two shapes a response takes: a success names a registered tool
    and carries the response type of that tool; a failure has the type
    [ERROR] and carries one error message. *)
Definition well_formed (response : AgentResponse) : Prop :=
  (success response = true
   /\ In (tool_used response) known_tools
   /\ response_type response = routes.response_types (tool_used response)
   /\ response_type response <> ERROR)
  \/ (success response = false
      /\ response_type response = ERROR
      /\ exists msg, data response = [("error", VStr msg)]).

(** The payload of a query that ran. *)
Definition query_results (query headers rows : pyval) (count : Z) : pydict :=
  [("query", query); ("headers", headers); ("rows", rows); ("count", VInt count)].

(** The question the sql-generator skill is asked when a previous
    attempt failed with [error]. *)
Definition correction_prompt {W} (env : Env W) (question : pyval) (error : string)
  : pyval :=
  VStr (py_str env question +:+ nl +:+ nl
        +:+ "Previous attempt failed with error: " +:+ error +:+ nl
        +:+ "Please fix the SQL for SQLite (use strftime for dates, etc.)").

Definition sql_generator : Skill :=
  {| namespace := "playground"; name := "sql-generator" |}.

(** The payload of a chart that was drawn. *)
Definition chart_payload (chart_base64 : string) (n_rows : nat) : pydict :=
  [("chart_image", VStr chart_base64);
   ("image_size_kb", VFloat (Qmake (Z.of_nat (String.length chart_base64) * 3) 4096));
   ("rows_count", VInt (Z.of_nat n_rows))].


(* ===================================================================== *)
(** * Further scenarios *)
(* ===================================================================== *)

(** The engine answers the first query with one row. *)
Module answering.

Definition db : list (exn + (pyval * pyval)) :=
  [inr (VList [VStr "1"], VList [VList [VInt 1]])].

Definition env : Env nat := scripted.env scripted.no_skill db scripted.idle_child.

End answering.

(** The connection is closed and cannot be opened. *)
Module closed_database.

Definition env : Env nat :=
  {| kernel_run := kernel_run answering.env;
     db_is_connected := fun _ => false;
     db_connect := fun w =>
       (inl (Exception "OperationalError" "unable to open database file"), w);
     db_query := db_query answering.env;
     uuid4_hex := uuid4_hex answering.env;
     mkdtemp := mkdtemp answering.env;
     spawn := spawn answering.env;
     sys_executable := sys_executable answering.env;
     md5_hexdigest := md5_hexdigest answering.env;
     b64encode := b64encode answering.env;
     py_repr := py_repr answering.env;
     interp_msg := interp_msg answering.env |}.

End closed_database.

(** The random source gives a new value at every draw. *)
Module fresh_random.

Definition env : Env nat :=
  {| kernel_run := kernel_run answering.env;
     db_is_connected := db_is_connected answering.env;
     db_connect := db_connect answering.env;
     db_query := db_query answering.env;
     uuid4_hex := fun w =>
       (match w with
        | O => "0123456789abcdef0123456789abcdef"
        | S _ => "fedcba9876543210fedcba9876543210"
        end, S w);
     mkdtemp := mkdtemp answering.env;
     spawn := spawn answering.env;
     sys_executable := sys_executable answering.env;
     md5_hexdigest := md5_hexdigest answering.env;
     b64encode := b64encode answering.env;
     py_repr := py_repr answering.env;
     interp_msg := interp_msg answering.env |}.

End fresh_random.

(** The router skill answers with a decision. *)
Module routing.

Definition skills (skill_name : string) : exn + pyval :=
  if String.eqb skill_name "tool_router"
  then inr (VDict [("tool", VStr "generate_sql");
                   ("arguments", VDict [("question", VStr "How many customers?")])])
  else inl (KernelException 503 "Service Unavailable").

Definition env : Env nat := scripted.env skills [] scripted.idle_child.

End routing.

(** The model answers with a chart decision wrapped in prose and after
    its thinking, carrying rows of its own; the context has other data. *)
Module chart_reply.
Definition decision_text : string :=
  "{" +:+ dq +:+ "tool" +:+ dq +:+ ": " +:+ dq +:+ "generate_chart" +:+ dq +:+ ", "
  +:+ dq +:+ "arguments" +:+ dq +:+ ": {" +:+ dq +:+ "rows" +:+ dq +:+ ": []}}".
Definition reply : string :=
  "<think>a {chart}?</think> Decision: " +:+ decision_text +:+ " Done.".
Definition chat (prompt : string) : exn + string := inr reply.
Definition json_loads (text : string) : option pyval :=
  if String.eqb text decision_text
  then Some (VDict [("tool", VStr "generate_chart");
                    ("arguments", VDict [("rows", VList [])])])
  else None.
Definition py_repr (v : pyval) : string := "<repr>".
Definition interp_msg (err : InterpError) : string := "<message>".
Definition context : pydict :=
  [("headers", VList [VStr "Country"; VStr "Customers"]);
   ("rows", VList [VList [VStr "Germany"; VInt 11]])].
Definition decision : ToolRouterDecision :=
  {| tool := "generate_chart";
     arguments := [("rows", VList [VList [VStr "Germany"; VInt 11]]);
                   ("query", VStr "");
                   ("headers", VList [VStr "Country"; VStr "Customers"])] |}.
End chart_reply.

(** The model answers in prose; the context has headers and no rows. *)
Module prose_reply.
Definition chat (prompt : string) : exn + string :=
  inr "I would draw a chart of the customers.".
Definition json_loads (text : string) : option pyval := None.
Definition context : pydict :=
  [("query", VStr "SELECT Country FROM Customers WHERE 1 = 0");
   ("headers", VList [VStr "Country"]);
   ("rows", VList [])].
End prose_reply.

(** A context whose query is a number. *)
Module numeric_query.
Definition context : pydict := [("query", VInt 7)].
End numeric_query.

(** The SQL skill with an index that finds one document without
    metadata, or none at all, and a model that answers with a statement
    over two lines. *)
Module sql_reply.
Definition hit : qa.SearchResult nat :=
  {| qa.document_path := 0%nat; qa.content := "How many customers are there?" |}.
Definition finds_one (question : string) : exn + list (qa.SearchResult nat) :=
  inr [hit].
Definition finds_none (question : string) : exn + list (qa.SearchResult nat) :=
  inr [].
Definition document_metadata (path : nat) : exn + pyval := inr VNone.
Definition reply : string :=
  "Here it is:" +:+ nl +:+ "select count(CustomerID)" +:+ nl +:+ "from Customers.".
Definition chat (system user : string) : exn + string := inr reply.
Definition render_system (unable_response : string) : string := "<system>".
Definition render_user (schema : string) (examples : list qa.FewShotExample)
           (question : string) : string := "<user>".
Definition interp_msg (err : InterpError) : string := "<message>".
Definition input : qa.Input :=
  {| qa.question := "How many customers?"; qa.database_schema := None |}.
End sql_reply.

(* ===================================================================== *)
(** * Strings: what [contains] and [lower] decide *)
(* ===================================================================== *)

Section StringFacts.

Lemma append_cons (c : ascii) (p q : string) :
  String c p +:+ q = String c (p +:+ q).
Proof. reflexivity. Qed.

Lemma prefix_spec (p s : string) :
  String.prefix p s = true <-> exists post, s = p +:+ post.
Proof.
  revert s. induction p as [|c p IH]; intros s.
  - split; [intros _; now exists s | intros _; now destruct s].
  - destruct s as [|c' s].
    + split; [discriminate | intros [post H]; discriminate].
    + change (String.prefix (String c p) (String c' s))
        with (if Ascii.ascii_dec c c' then String.prefix p s else false).
      destruct (Ascii.ascii_dec c c') as [->|Hne].
      * rewrite IH. split; intros [post H]; exists post;
          rewrite append_cons in *; congruence.
      * split; [discriminate | intros [post H]; rewrite append_cons in H; congruence].
Qed.

Lemma contains_cons (needle : string) (c : ascii) (hay : string) :
  contains needle (String c hay)
  = String.prefix needle (String c hay) || contains needle hay.
Proof. reflexivity. Qed.

(** [needle in hay] holds exactly when [hay] splits around [needle]. *)
Lemma contains_spec (needle hay : string) :
  contains needle hay = true <-> exists pre post, hay = pre +:+ needle +:+ post.
Proof.
  induction hay as [|c hay IH].
  - change (contains needle "") with (String.prefix needle "" || false).
    rewrite orb_false_r, prefix_spec. split.
    + intros [post H]. now exists "", post.
    + intros [[|c pre] [post H]]; [now exists post | discriminate].
  - rewrite contains_cons, orb_true_iff, prefix_spec, IH. split.
    + intros [[post H] | (pre & post & H)].
      * now exists "", post.
      * exists (String c pre), post. rewrite append_cons. now rewrite H.
    + intros ([|c' pre] & post & H).
      * left. now exists post.
      * right. exists pre, post. rewrite append_cons in H. congruence.
Qed.

End StringFacts.

(* ===================================================================== *)
(** * The fallback router *)
(* ===================================================================== *)

Section Fallback.
Context {W : Type} (env : Env W).

Lemma getitem_truthy (context : pydict) (k : string) (s : State W) :
  truthy (dict_get context k) = true ->
  getitem env context k s = (inr (dict_get context k), s).
Proof.
  unfold dict_get, dict_get_or, getitem.
  destruct (lookup_item k context); [reflexivity | discriminate].
Qed.

(** The fallback router computes the local rule, never raises, and
    leaves the state alone. *)
Lemma fallback_computes (message : string) (context : pydict) (s : State W) :
  routes._fallback_tool_decision env message context s
  = (inr (local_rule message context), s).
Proof.
  unfold routes._fallback_tool_decision, local_rule.
  destruct (truthy (dict_get context "query")) eqn:Hq;
    destruct (truthy (dict_get context "headers")) eqn:Hh; cbn [andb negb];
    unfold bind; rewrite ?(getitem_truthy _ _ _ Hh), ?(getitem_truthy _ _ _ Hq);
    reflexivity.
Qed.

Lemma local_rule_by_truth (message : string) (context : pydict) :
  routed_by_truth message context (inr (local_rule message context)).
Proof.
  unfold routed_by_truth, local_rule.
  destruct (truthy (dict_get context "query"));
    destruct (truthy (dict_get context "headers")); cbn [andb negb];
    repeat split; intros; congruence.
Qed.

(** C3 (amended): the fallback router never raises and leaves the state
    alone, and it routes by the truth value of [context.query] and
    [context.headers]: a truthy query without truthy headers goes to
    ExecuteSQL with that query; truthy headers go to GenerateChart with
    those headers, the rows (default: the empty list) and the query
    (default: the empty string); anything else goes to GenerateSQL with
    the message as the question. *)
Theorem fallback_routes_by_truth (message : string) (context : pydict)
        (s : State W) :
  exists decision,
    routes._fallback_tool_decision env message context s = (inr decision, s)
    /\ routed_by_truth message context (inr decision).
Proof.
  exists (local_rule message context). split.
  - apply fallback_computes.
  - apply local_rule_by_truth.
Qed.

(** C10: an empty-string query with no truthy headers is routed to
    GenerateSQL, and a truthy query with headers equal to the empty list
    is routed to ExecuteSQL. *)
Theorem fallback_tests_truthiness (message : string) (context : pydict)
        (s : State W) :
  (lookup_item "query" context = Some (VStr "") ->
   truthy (dict_get context "headers") = false ->
   routes._fallback_tool_decision env message context s
   = (inr (GenerateSQL message), s))
  /\ (forall query,
        lookup_item "query" context = Some query -> truthy query = true ->
        lookup_item "headers" context = Some (VList []) ->
        routes._fallback_tool_decision env message context s
        = (inr (ExecuteSQL query), s)).
Proof.
  rewrite fallback_computes. unfold local_rule, dict_get, dict_get_or. split.
  - intros Hq Hh. rewrite Hq. cbn [truthy String.eqb negb andb].
    unfold dict_get, dict_get_or in Hh. now rewrite Hh.
  - intros query Hq Ht Hh. rewrite Hq, Hh, Ht. reflexivity.
Qed.

End Fallback.

(** C3, as stated, fails: the context [{"query": ""}] has the key
    [query] and no key [headers], and is routed to GenerateSQL. *)
Lemma fallback_presence_counterexample :
  ~ routed_by_presence "run it" [("query", VStr "")]
      (fst (routes._fallback_tool_decision
              (scripted.env scripted.no_skill [] scripted.idle_child)
              "run it" [("query", VStr "")] scripted.start)).
Proof.
  intros (Hexec & _). specialize (Hexec eq_refl eq_refl). discriminate Hexec.
Qed.

(** Both rules of C10 at work. *)
Example fallback_tests_truthiness_run :
  let env := scripted.env scripted.no_skill [] scripted.idle_child in
  fst (routes._fallback_tool_decision env "top customers" [("query", VStr "")]
         scripted.start) = inr (GenerateSQL "top customers")
  /\ fst (routes._fallback_tool_decision env "run it"
            [("query", VStr "SELECT 1"); ("headers", VList [])] scripted.start)
     = inr (ExecuteSQL (VStr "SELECT 1")).
Proof. split; reflexivity. Qed.

(* ===================================================================== *)
(** * Who writes the ghost log of tool calls *)
(* ===================================================================== *)

Section Silent.
Context {W : Type} (env : Env W).
#[local] Abbreviation M := (M (W := W)).

Lemma silent_ret {A} (a : A) : silent (W := W) (ret a).
Proof. now intros s. Qed.

Lemma silent_raise {A} (e : exn) : silent (W := W) (raise (A := A) e).
Proof. now intros s. Qed.

Lemma silent_bind {A B} (m : M A) (k : A -> M B) :
  silent m -> (forall a, silent (k a)) -> silent (bind m k).
Proof.
  intros Hm Hk s. unfold bind. specialize (Hm s).
  destruct (m s) as [[e|a] s']; cbn in *; [exact Hm|].
  now rewrite Hk.
Qed.

Lemma silent_try {A} (m : M A) (h : exn -> M A) :
  silent m -> (forall e, silent (h e)) -> silent (try_except m h).
Proof.
  intros Hm Hh s. unfold try_except. specialize (Hm s).
  destruct (m s) as [[e|a] s']; cbn in *; [|exact Hm].
  now rewrite Hh.
Qed.

Lemma silent_call {A} (f : W -> (exn + A) * W) : silent (call f).
Proof. intros s. unfold call. now destruct (f (world s)). Qed.

Lemma silent_interp_error {A} (err : InterpError) :
  silent (interp_error (A := A) env err).
Proof. now intros s. Qed.

Lemma silent_write_file (p c : string) : silent (write_file (W := W) p c).
Proof. now intros s. Qed.

Lemma silent_path_exists (p : string) : silent (path_exists (W := W) p).
Proof. now intros s. Qed.

Lemma silent_listdir (p : string) : silent (listdir env p).
Proof. intros s. unfold listdir. now destruct (fs s !! p) as [[|]|]. Qed.

Lemma silent_read_file (p : string) : silent (read_file env p).
Proof. intros s. unfold read_file. now destruct (fs s !! p) as [[|]|]. Qed.

Lemma silent_subprocess_run (argv : list string) (cwd : string) (t : Q) :
  silent (subprocess_run env argv cwd t).
Proof.
  intros s. unfold subprocess_run.
  destruct (spawn env argv cwd (fs s) (world s)) as [[run f] w].
  destruct (elapsed run) as [t'|]; [destruct (Qle_bool t' t)|]; reflexivity.
Qed.

Lemma silent_TemporaryDirectory {A} (body : string -> M A) :
  (forall d, silent (body d)) -> silent (TemporaryDirectory env body).
Proof.
  intros Hb s. unfold TemporaryDirectory.
  destruct (mkdtemp env (fs s) (world s)) as [d w].
  match goal with |- context [body d ?s1] => specialize (Hb d s1) end.
  destruct (body d _) as [r s2]. exact Hb.
Qed.

Lemma silent_set_token (t : string) : silent (mcp_server.set_token (W := W) t).
Proof. now intros s. Qed.

Lemma silent_get_token : silent (mcp_server.get_token (W := W)).
Proof. now intros s. Qed.

End Silent.

Create HintDb silent.

#[local] Hint Resolve silent_ret silent_raise silent_call silent_interp_error
  silent_write_file silent_path_exists silent_listdir silent_read_file
  silent_subprocess_run silent_set_token silent_get_token : silent.

(** Silence is compositional: walk down binds, handlers and branches. *)
Ltac silent_step :=
  match goal with
  | |- silent (bind _ _) => apply silent_bind; [|intros]
  | |- silent (try_except _ _) => apply silent_try; [|intros]
  | |- silent (TemporaryDirectory _ _) => apply silent_TemporaryDirectory; intros
  | |- silent (if ?b then _ else _) => destruct b
  | |- silent (match ?x with _ => _ end) => destruct x
  | |- silent (let (_, _) := ?x in _) => destruct x
  | |- silent _ => solve [auto with silent]
  end.

Ltac silent := repeat silent_step.

Section SilentTools.
Context {W : Type} (env : Env W).

Lemma silent_len (v : pyval) : silent (len env v).
Proof. unfold len. silent. Qed.

Lemma silent_slice_prefix (v : pyval) : silent (slice_prefix env v).
Proof. unfold slice_prefix. silent. Qed.

Lemma silent_getitem (d : pydict) (k : string) : silent (getitem env d k).
Proof. unfold getitem. silent. Qed.

Lemma silent_method_get (v : pyval) (k : string) (default : pyval) :
  silent (method_get env v k default).
Proof. unfold method_get. silent. Qed.

Lemma silent_str_method (v : pyval) (attr : string) :
  silent (str_method env v attr).
Proof. unfold str_method. silent. Qed.

Lemma silent_run_skill (skill : Skill) (token : string) (input : pydict) :
  silent (run_skill env skill token input).
Proof. unfold run_skill. silent. Qed.

#[local] Hint Resolve silent_len silent_slice_prefix silent_getitem silent_method_get
  silent_str_method silent_run_skill : silent.

Lemma silent_generate_chart_image (token : string) (query headers rows : pyval) :
  silent (chart_service.generate_chart_image env token query headers rows).
Proof.
  unfold chart_service.generate_chart_image, chart_service._generate_chart_code,
    chart_service.classify_step, chart_service.in_workspace,
    chart_service._generate_unique_chart_id, chart_service.run_and_collect,
    chart_service._execute_chart_generation.
  silent.
Qed.

Lemma silent_check_success (result : pydict) (default : string) :
  silent (mcp_server.check_success env result default).
Proof. unfold mcp_server.check_success. silent. Qed.

Lemma silent_bind_kwargs (fn : string) (required optional : list string)
      (arguments : pydict) :
  silent (mcp_server.bind_kwargs env fn required optional arguments).
Proof. unfold mcp_server.bind_kwargs. silent. Qed.

#[local] Hint Resolve silent_generate_chart_image silent_check_success
  silent_bind_kwargs : silent.

Lemma silent_tool_impl (tool_name : string) (impl : pydict -> M pydict)
      (arguments : pydict) :
  mcp_server._TOOL_IMPLEMENTATIONS env tool_name = Some impl ->
  silent (impl arguments).
Proof.
  unfold mcp_server._TOOL_IMPLEMENTATIONS.
  repeat match goal with
         | |- context [if String.eqb ?a ?b then _ else _] =>
             destruct (String.eqb a b)
         end;
    intros H; inversion H; subst; clear H;
    unfold mcp_server._run_generate_sql, mcp_server._run_execute_sql,
      mcp_server._run_classify_chart_type, mcp_server._run_generate_chart,
      tools.tool_generate_sql, tools.tool_execute_sql,
      tools.tool_classify_chart_type, tools.tool_generate_chart;
    silent.
Qed.

(** A call through [execute_tool] records itself, and nothing else. *)
Lemma execute_tool_calls (tool_name : string) (arguments : pydict) (s : State W) :
  tool_calls (snd (mcp_server.execute_tool env tool_name arguments s))
  = tool_calls s ++ [(tool_name, arguments)].
Proof.
  unfold mcp_server.execute_tool, bind, mcp_server.log_tool_call.
  destruct (mcp_server._TOOL_IMPLEMENTATIONS env tool_name) as [impl|] eqn:Himpl.
  - match goal with
    | |- tool_calls (snd (impl arguments ?s1)) = _ =>
        rewrite (silent_tool_impl _ _ arguments Himpl s1)
    end.
    reflexivity.
  - reflexivity.
Qed.

End SilentTools.

(* ===================================================================== *)
(** * The SQL self-correction retry *)
(* ===================================================================== *)

Lemma is_fixable_spec (error : string) :
  routes._is_fixable_sql_error error = true
  <-> exists keyword, In keyword routes.fixable_errors /\ mentions keyword error.
Proof.
  unfold routes._is_fixable_sql_error. rewrite existsb_exists.
  split; intros (k & Hin & Hk); exists k; (split; [exact Hin|]);
    apply contains_spec; exact Hk.
Qed.

Lemma retryable_decides (tool error : string) :
  String.eqb tool "execute_sql" && routes._is_fixable_sql_error error = true
  <-> retryable tool error.
Proof.
  unfold retryable. rewrite andb_true_iff, String.eqb_eq, is_fixable_spec.
  reflexivity.
Qed.

Section Retry.
Context {W : Type} (env : Env W).
#[local] Abbreviation M := (M (W := W)).

Lemma bind_returns {A B} (m : M A) (k : A -> M B) (s s' : State W) (b : B) :
  bind m k s = (inr b, s') ->
  exists a s1, m s = (inr a, s1) /\ k a s1 = (inr b, s').
Proof.
  unfold bind. destruct (m s) as [[e|a] s1]; [discriminate|].
  intros H. now exists a, s1.
Qed.

(** What a successful [generate_sql] call returns always has the key
    [sql_query]. *)
Lemma generate_sql_payload (arguments corrected : pydict) (s s' : State W) :
  mcp_server.execute_tool env "generate_sql" arguments s = (inr corrected, s') ->
  exists sql_query, corrected = [("sql_query", sql_query)].
Proof.
  unfold mcp_server.execute_tool. intros H.
  apply bind_returns in H as (? & s1 & _ & H).
  cbn [mcp_server._TOOL_IMPLEMENTATIONS String.eqb Ascii.eqb Bool.eqb] in H.
  apply bind_returns in H as (? & s2 & _ & H).
  unfold mcp_server._run_generate_sql in H.
  repeat (apply bind_returns in H as (? & ? & _ & H)).
  inversion H. eauto.
Qed.

(** The three ways a retry can go. *)
Lemma retry_cases (error message : string) (context : pydict) (s1 : State W) :
  let gen := retry_call error message context in
  match mcp_server.execute_tool env "generate_sql" (snd gen) s1 with
  | (inl _, s2) =>
      routes._retry_sql_with_correction env error message context s1 = (inr None, s2)
  | (inr corrected, s2) =>
      exists sql_query,
        corrected = [("sql_query", sql_query)]
        /\ match mcp_server.execute_tool env "execute_sql" [("query", sql_query)] s2 with
           | (inl _, s3) =>
               routes._retry_sql_with_correction env error message context s1
               = (inr None, s3)
           | (inr data, s3) =>
               routes._retry_sql_with_correction env error message context s1
               = (inr (Some {| response_type := QUERY_RESULTS; data := data;
                               tool_used := "execute_sql"; success := true |}), s3)
           end
  end.
Proof.
  cbv zeta. unfold routes._retry_sql_with_correction, try_except, bind, retry_call,
    dict_get_or. cbn [snd].
  destruct (mcp_server.execute_tool env "generate_sql" _ s1)
    as [[e2|corrected] s2] eqn:Hgen; [reflexivity|].
  destruct (generate_sql_payload _ _ _ _ Hgen) as [q ->].
  exists q. split; [reflexivity|].
  cbn [getitem lookup_item String.eqb Ascii.eqb Bool.eqb ret].
  destruct (mcp_server.execute_tool env "execute_sql" _ s2) as [[e3|data] s3];
    reflexivity.
Qed.

(** C2: when a tool fails, a retry is attempted exactly when the tool is
    [execute_sql] and the error, lowercased, contains one of the four
    keywords; the retry then starts with a GenerateSQL call on the
    original question (the message if the context has none) with the
    error as feedback; otherwise no further call is made and the turn
    fails with the error. *)
Theorem retry_trigger (decision : ToolRouterDecision) (message : string)
        (context : pydict) (s s1 s' : State W) (e : exn) (r : exn + AgentResponse) :
  mcp_server.execute_tool env (tool decision) (arguments decision) s = (inl e, s1) ->
  routes._execute_with_retry env decision message context s = (r, s') ->
  let first := (tool decision, arguments decision) in
  (retryable (tool decision) (str_exn e) ->
   exists rest,
     tool_calls s' = tool_calls s
                     ++ first :: retry_call (str_exn e) message context :: rest)
  /\ (~ retryable (tool decision) (str_exn e) ->
      tool_calls s' = tool_calls s ++ [first]
      /\ r = inr (Failed (str_exn e) (tool decision)))
  /\ (tool decision <> "execute_sql" ->
      tool_calls s' = tool_calls s ++ [first]
      /\ r = inr (Failed (str_exn e) (tool decision))).
Proof.
  intros Hfirst Hrun first.
  pose proof (execute_tool_calls env (tool decision) (arguments decision) s) as Hlog.
  rewrite Hfirst in Hlog. cbn [snd] in Hlog.
  unfold routes._execute_with_retry, try_except in Hrun.
  unfold bind at 1 in Hrun. rewrite Hfirst in Hrun.
  assert (Hno : String.eqb (tool decision) "execute_sql"
                && routes._is_fixable_sql_error (str_exn e) = false ->
                tool_calls s' = tool_calls s ++ [first]
                /\ r = inr (Failed (str_exn e) (tool decision))).
  { intros Hb. rewrite Hb in Hrun. cbn in Hrun. inversion Hrun; subst.
    split; [exact Hlog | reflexivity]. }
  split; [|split].
  - intros Hretry. apply retryable_decides in Hretry.
    rewrite Hretry in Hrun. unfold bind in Hrun.
    pose proof (retry_cases (str_exn e) message context s1) as Hcases.
    cbv zeta in Hcases.
    pose proof (execute_tool_calls env "generate_sql"
                  (snd (retry_call (str_exn e) message context)) s1) as Hgen.
    destruct (mcp_server.execute_tool env "generate_sql" _ s1)
      as [[e2|corrected] s2]; cbn [snd] in Hgen.
    + rewrite Hcases in Hrun. inversion Hrun; subst. exists [].
      rewrite Hgen, Hlog, <- app_assoc. reflexivity.
    + destruct Hcases as (q & _ & Hcases).
      pose proof (execute_tool_calls env "execute_sql" [("query", q)] s2) as Hexec.
      destruct (mcp_server.execute_tool env "execute_sql" _ s2)
        as [[e3|data] s3]; cbn [snd] in Hexec;
        rewrite Hcases in Hrun; inversion Hrun; subst;
        exists [retried q]; rewrite Hexec, Hgen, Hlog, <- !app_assoc; reflexivity.
  - intros Hnot. apply Hno. apply not_true_is_false.
    intros Hb. apply Hnot, retryable_decides, Hb.
  - intros Hne. apply Hno. apply andb_false_iff. left.
    now apply String.eqb_neq.
Qed.

End Retry.

Section RetryCap.
Context {W : Type} (env : Env W).

(** C1: when [execute_sql] fails with a retryable error, the turn makes
    at most one further GenerateSQL call and at most one further
    ExecuteSQL call, and ends either with the results of the corrected
    query or in a Failed response carrying the original error; it ends
    in that Failed response whenever the retry's GenerateSQL fails or the
    corrected ExecuteSQL fails, whatever the second error is. *)
Theorem retry_cap (args : pydict) (message : string) (context : pydict)
        (s s1 s' : State W) (e : exn) (r : exn + AgentResponse) :
  mcp_server.execute_tool env "execute_sql" args s = (inl e, s1) ->
  retryable "execute_sql" (str_exn e) ->
  routes._execute_with_retry
    env {| tool := "execute_sql"; arguments := args |} message context s
  = (r, s') ->
  let first := ("execute_sql", args) in
  let gen := retry_call (str_exn e) message context in
  let failed := inr (Failed (str_exn e) "execute_sql") in
  (tool_calls s' = tool_calls s ++ [first; gen]
   \/ exists query, tool_calls s' = tool_calls s ++ [first; gen; retried query])
  /\ ((exists data, r = inr {| response_type := QUERY_RESULTS; data := data;
                               tool_used := "execute_sql"; success := true |})
      \/ r = failed)
  /\ (forall e2 s2,
        mcp_server.execute_tool env "generate_sql" (snd gen) s1 = (inl e2, s2) ->
        r = failed /\ tool_calls s' = tool_calls s ++ [first; gen])
  /\ (forall query s2 e3 s3,
        mcp_server.execute_tool env "generate_sql" (snd gen) s1
        = (inr [("sql_query", query)], s2) ->
        mcp_server.execute_tool env "execute_sql" [("query", query)] s2
        = (inl e3, s3) ->
        r = failed /\ tool_calls s' = tool_calls s ++ [first; gen; retried query]).
Proof.
  intros Hfirst Hretry Hrun first gen failed.
  pose proof (execute_tool_calls env "execute_sql" args s) as Hlog.
  rewrite Hfirst in Hlog. cbn [snd] in Hlog.
  unfold routes._execute_with_retry, try_except in Hrun.
  unfold bind at 1 in Hrun. cbn [tool arguments] in Hrun.
  rewrite Hfirst in Hrun.
  apply retryable_decides in Hretry. rewrite Hretry in Hrun. unfold bind in Hrun.
  pose proof (retry_cases env (str_exn e) message context s1) as Hcases.
  cbv zeta in Hcases. fold gen in Hcases.
  pose proof (execute_tool_calls env "generate_sql" (snd gen) s1) as Hgen.
  destruct (mcp_server.execute_tool env "generate_sql" (snd gen) s1)
    as [[e2|corrected] s2]; cbn [snd] in Hgen.
  - rewrite Hcases in Hrun. inversion Hrun; subst s' r.
    assert (Hcalls : tool_calls s2 = tool_calls s ++ [first; gen]).
    { rewrite Hgen, Hlog, <- app_assoc. reflexivity. }
    split; [now left|]. split; [now right|]. split.
    + intros e0 s0 H. inversion H; subst. now split.
    + intros q s0 e3 s3 H. discriminate H.
  - destruct Hcases as (q & -> & Hcases).
    pose proof (execute_tool_calls env "execute_sql" [("query", q)] s2) as Hexec.
    assert (Hcalls : forall s3 : State W, tool_calls s3 = tool_calls s2 ++ [retried q] ->
                                tool_calls s3 = tool_calls s ++ [first; gen; retried q]).
    { intros s3 ->. rewrite Hgen, Hlog, <- !app_assoc. reflexivity. }
    destruct (mcp_server.execute_tool env "execute_sql" [("query", q)] s2)
      as [[e3|data] s3] eqn:Hq; cbn [snd] in Hexec;
      rewrite Hcases in Hrun; inversion Hrun; subst s' r.
    + split; [right; exists q; now apply Hcalls|]. split; [now right|]. split.
      * intros e0 s0 H. discriminate H.
      * intros q' s0 e4 s4 H H'. inversion H; subst q' s0.
        split; [reflexivity | now apply Hcalls].
    + split; [right; exists q; now apply Hcalls|].
      split; [left; now exists data|]. split.
      * intros e0 s0 H. discriminate H.
      * intros q' s0 e4 s4 H H'. inversion H; subst q' s0.
        rewrite Hq in H'. discriminate H'.
Qed.

End RetryCap.

Lemma near_is_retryable :
  retryable "execute_sql" "near SELEC: syntax error".
Proof.
  split; [reflexivity|]. exists "near". split; [simpl; tauto|].
  now exists "", " selec: syntax error".
Qed.

Lemma retry_cap_witness :
  fst twice_failing.turn = inr (Failed "near SELEC: syntax error" "execute_sql")
  /\ tool_calls (snd twice_failing.turn)
     = [("execute_sql", [("query", VStr "SELEC 1")]);
        ("generate_sql", [("question", VStr "How many customers?");
                          ("error_feedback", VStr "near SELEC: syntax error")]);
        ("execute_sql", [("query", VStr "SELECT total FROM Customers")])].
Proof.
  pose proof (retry_cap twice_failing.env [("query", VStr "SELEC 1")] "run it"
                twice_failing.context scripted.start _ _ _ _
                eq_refl near_is_retryable eq_refl) as (_ & _ & _ & Hcap).
  exact (Hcap (VStr "SELECT total FROM Customers") _ _ _ eq_refl eq_refl).
Defined.

(** When the corrected query runs, the turn answers with its results,
    and without a context question the message is what is regenerated. *)
Example retry_succeeds :
  fst once_failing.turn
  = inr {| response_type := QUERY_RESULTS;
           data := [("query", VStr "SELECT 1"); ("headers", VList [VStr "1"]);
                    ("rows", VList [VList [VInt 1]]); ("count", VInt 1)];
           tool_used := "execute_sql";
           success := true |}
  /\ tool_calls (snd once_failing.turn)
     = [("execute_sql", [("query", VStr "SELEC 1")]);
        retry_call "near SELEC: syntax error" "run it" [];
        retried (VStr "SELECT 1")].
Proof. split; reflexivity. Qed.

Lemma retry_trigger_witness :
  exists rest,
    tool_calls (snd twice_failing.turn)
    = ("execute_sql", [("query", VStr "SELEC 1")])
      :: ("generate_sql", [("question", VStr "How many customers?");
                           ("error_feedback", VStr "near SELEC: syntax error")])
      :: rest.
Proof.
  pose proof (retry_trigger twice_failing.env
                {| tool := "execute_sql"; arguments := [("query", VStr "SELEC 1")] |}
                "run it" twice_failing.context scripted.start _ _ _ _
                eq_refl eq_refl) as (Htrigger & _ & _).
  exact (Htrigger near_is_retryable).
Defined.

(* ===================================================================== *)
(** * Routing when the router skill fails *)
(* ===================================================================== *)

Section HttpKernelFacts.
Context {W : Type}.
Variable post : string -> pyval -> string -> W -> ((string * string) + kernel.Response) * W.
Variable msg_of : InterpError -> string.
Variable url : string.

(** [HttpKernel.run] raises [KernelException] exactly for an answer with
    a status of 400 or more; a transport error and a body that is not
    JSON surface as other exceptions. *)
Lemma HttpKernel_KernelException (skill : Skill) (token : string) (input : pyval)
      (w w' : W) (e : exn) :
  kernel.run post msg_of url skill token input w = (inl e, w') ->
  is_KernelException e = true
  <-> exists response,
        post (kernel.endpoint url skill) input token w = (inr response, w')
        /\ (400 <= kernel.status_code response)%Z.
Proof.
  unfold kernel.run.
  destruct (post _ input token w) as [[[cls msg]|response] w1] eqn:Hpost.
  - intros H. inversion H; subst. split; [discriminate|].
    intros (response & Hp & _). discriminate Hp.
  - destruct (Z.leb_spec 400 (kernel.status_code response)) as [Hge|Hlt].
    + intros H. inversion H; subst. split; [|reflexivity].
      intros _. now exists response.
    + destruct (kernel.json response); intros H; inversion H; subst.
      split; [discriminate|].
      intros (response' & Hp & Hge). inversion Hp; subst. lia.
Qed.

End HttpKernelFacts.

Section Routing.
Context {W : Type} (env : Env W).

(** C4 (amended): when the tool_router call raises [KernelException] the
    routing step returns the decision of the local fallback rule; when
    it fails in any other way (it raises anything else, as on a
    transport error or a body that is not JSON, or its reply is not a
    valid decision) the routing step returns no decision, and the turn
    ends in the error response "Could not determine tool". *)
Theorem routing_recovers_kernel_exceptions
        (token msg : string) (ctx : pydict) (s : State W) (r : exn + pyval) (w' : W) :
  kernel_run env routes.router_skill token
             (VDict (routes.router_input msg ctx)) (world s) = (r, w') ->
  (forall e, r = inl e -> is_KernelException e = true ->
   exists decision,
     routed_by_truth msg ctx (inr decision)
     /\ routes._get_tool_decision env token msg ctx s
        = (inr (Some decision), set_world w' s))
  /\ ((exists e, r = inl e /\ is_KernelException e = false)
      \/ (exists reply, r = inr reply /\ decision_of reply = None) ->
      routes._get_tool_decision env token msg ctx s
      = (inr None, set_world w' s)
      /\ routes.agent_endpoint env (inr (request msg ctx)) token s
         = (inr (Failed "Could not determine tool" "unknown"),
            set_world w' (with_token token s))).
Proof.
  intros Hrun. split.
  - intros e -> Hk.
    exists (local_rule msg ctx). split; [apply local_rule_by_truth|].
    unfold routes._get_tool_decision, try_except, bind, run_skill, call.
    rewrite Hrun, Hk. unfold bind. now rewrite fallback_computes.
  - intros Hfails.
    assert (Hdec : forall s0 : State W, world s0 = world s ->
              routes._get_tool_decision env token msg ctx s0
              = (inr None, set_world w' s0)).
    { intros s0 Hw.
      unfold routes._get_tool_decision, try_except, bind, run_skill, call.
      rewrite Hw, Hrun.
      destruct Hfails as [(e & -> & Hk) | (reply & -> & Hreply)].
      - now rewrite Hk.
      - unfold decision_of in Hreply.
        destruct reply as [| | | | | |d]; try reflexivity.
        cbn [method_get ret].
        destruct (dict_get_or d "tool" (VStr "")) as [| | | |t| |];
          try reflexivity.
        destruct (dict_get_or d "arguments" (VDict [])) as [| | | | | |a];
          try reflexivity.
        discriminate Hreply. }
    split; [now apply Hdec|].
    unfold routes.agent_endpoint, try_except, request.
    unfold bind at 1. cbn [of_sum ret].
    unfold bind at 1.
    cbn [routes.mk_AgentRequest lookup_item String.eqb Ascii.eqb Bool.eqb ret].
    unfold bind at 1. cbn [mcp_server.set_token].
    unfold bind at 1. cbn [message context].
    rewrite (Hdec (mkState (world s) (fs s) token (tool_calls s) (workspaces s)
                           (children s)) eq_refl).
    reflexivity.
Qed.

End Routing.

(** C4, as stated, fails: after an unparseable reply, and after a
    transport error, the routing step has no decision and the caller gets
    an error response. *)
Lemma routing_failure_counterexample :
  fst (routes._get_tool_decision unparseable_reply.env "tok"
         "How many customers per country?" [] scripted.start) = inr None
  /\ fst (routes.agent_endpoint unparseable_reply.env
            (inr (request "How many customers per country?" [])) "tok"
            scripted.start)
     = inr (Failed "Could not determine tool" "unknown")
  /\ fst (routes._get_tool_decision transport_error.env "tok"
            "How many customers per country?" [] scripted.start) = inr None
  /\ fst (routes.agent_endpoint transport_error.env
            (inr (request "How many customers per country?" [])) "tok"
            scripted.start)
     = inr (Failed "Could not determine tool" "unknown").
Proof. repeat split; reflexivity. Qed.

(** With a 503 from the skill service the same turn is routed locally. *)
Lemma routing_recovers_kernel_exceptions_witness :
  exists decision,
    routed_by_truth "run it" [("query", VStr "SELECT 1")] (inr decision)
    /\ routes._get_tool_decision
         (scripted.env scripted.no_skill [] scripted.idle_child) "tok" "run it"
         [("query", VStr "SELECT 1")] scripted.start
       = (inr (Some decision), set_world 0%nat scripted.start).
Proof.
  exact (proj1 (routing_recovers_kernel_exceptions
                  (scripted.env scripted.no_skill [] scripted.idle_child)
                  "tok" "run it" [("query", VStr "SELECT 1")] scripted.start
                  _ _ eq_refl) _ eq_refl eq_refl).
Defined.

(** A reply that is no decision ends the turn as a transport error
    does. *)
Example routing_gives_up_on_an_invalid_decision :
  decision_of (VList [VStr "generate_sql"; VStr "execute_sql"]) = None
  /\ fst (routes._get_tool_decision invalid_decision.env "tok"
            "How many customers per country?" [] scripted.start) = inr None
  /\ fst (routes.agent_endpoint invalid_decision.env
            (inr (request "How many customers per country?" [])) "tok"
            scripted.start)
     = inr (Failed "Could not determine tool" "unknown").
Proof. repeat split; reflexivity. Qed.

(* ===================================================================== *)
(** * Chart classification and chart-code acquisition *)
(* ===================================================================== *)

Section Classification.
Context {W : Type} (env : Env W).

(** C5 (amended): when the chart_classifier call raises,
    [tool_classify_chart_type] reports a failure (naming the chart type
    "bar" beside the error), the ClassifyChartType capability raises with
    the error text, and the turn ends in a Failed response; when the
    call returns a reply without a [chart_type] key, the capability
    succeeds with the chart type "bar". *)
Theorem classification_failure_fails_the_turn
        (query : pyval) (hs rs : list pyval) (message : string) (context : pydict)
        (s : State W) :
  let headers := VList hs in
  let rows := VList rs in
  (forall e w',
     kernel_run env tools.classifier_skill (_token s)
                (classifier_input query headers rows) (world s) = (inl e, w') ->
     tools.tool_classify_chart_type env (_token s) query headers rows s
     = (inr [("success", VBool false); ("error", VStr (str_exn e));
             ("chart_type", VStr "bar")], set_world w' s)
     /\ mcp_server._run_classify_chart_type env query headers rows s
        = (inl (Exception "Exception" (str_exn e)), set_world w' s)
     /\ fst (routes._execute_with_retry
               env {| tool := "classify_chart_type";
                      arguments := chart_arguments query headers rows |}
               message context s)
        = inr (Failed (str_exn e) "classify_chart_type"))
  /\ (forall reply w',
        kernel_run env tools.classifier_skill (_token s)
                   (classifier_input query headers rows) (world s)
        = (inr (VDict reply), w') ->
        lookup_item "chart_type" reply = None ->
        mcp_server._run_classify_chart_type env query headers rows s
        = (inr [("chart_type", VStr "bar"); ("headers", headers);
                ("rows_count", VInt (Z.of_nat (List.length rs)))],
           set_world w' s)).
Proof.
  cbv zeta. split.
  - intros e w' Hrun.
    assert (Htool : forall s0 : State W, world s0 = world s -> _token s0 = _token s ->
              tools.tool_classify_chart_type env (_token s0) query (VList hs) (VList rs) s0
              = (inr [("success", VBool false); ("error", VStr (str_exn e));
                      ("chart_type", VStr "bar")], set_world w' s0)).
    { intros s0 Hw Ht.
      unfold tools.tool_classify_chart_type, try_except, bind, run_skill, call, len.
      cbn [py_len ret]. unfold classifier_input in Hrun.
      now rewrite Hw, Ht, Hrun. }
    assert (Hraise : forall s0 : State W, world s0 = world s -> _token s0 = _token s ->
              mcp_server._run_classify_chart_type env query (VList hs) (VList rs) s0
              = (inl (Exception "Exception" (str_exn e)), set_world w' s0)).
    { intros s0 Hw Ht.
      unfold mcp_server._run_classify_chart_type, bind, len, mcp_server.get_token.
      cbn [py_len ret]. now rewrite (Htool s0 Hw Ht). }
    split; [now apply Htool|]. split; [now apply Hraise|].
    unfold routes._execute_with_retry, try_except, mcp_server.execute_tool.
    cbn [tool arguments].
    unfold bind, mcp_server.log_tool_call.
    cbn [mcp_server._TOOL_IMPLEMENTATIONS String.eqb Ascii.eqb Bool.eqb].
    unfold bind, mcp_server.bind_kwargs, chart_arguments.
    cbn [List.find List.filter existsb app has_key lookup_item fst negb orb
         String.eqb Ascii.eqb Bool.eqb ret dict_get dict_get_or].
    rewrite Hraise by reflexivity. reflexivity.
  - intros reply w' Hrun Hnone.
    unfold mcp_server._run_classify_chart_type, tools.tool_classify_chart_type,
      try_except, bind, run_skill, call, len, mcp_server.get_token.
    cbn [py_len ret]. unfold classifier_input in Hrun. rewrite Hrun.
    unfold method_get, dict_get_or. rewrite Hnone. reflexivity.
Qed.

End Classification.

(** A reply without a chart type is classified as a bar chart. *)
Example classification_defaults_to_bar :
  fst (mcp_server.execute_tool
         mute_classifier.env "classify_chart_type"
         (chart_arguments classifier_down.query classifier_down.headers
                          classifier_down.rows)
         scripted.start)
  = inr [("chart_type", VStr "bar"); ("headers", classifier_down.headers);
         ("rows_count", VInt 2)].
Proof. reflexivity. Qed.

(** C5, as stated, fails: with the classifier down, the ClassifyChartType
    capability raises and the turn ends in a Failed response. *)
Lemma classification_counterexample :
  let arguments := chart_arguments classifier_down.query classifier_down.headers
                                   classifier_down.rows in
  fst (mcp_server.execute_tool classifier_down.env "classify_chart_type"
         arguments scripted.start)
  = inl (Exception "Exception" "Service Unavailable")
  /\ fst (routes._execute_with_retry classifier_down.env
            {| tool := "classify_chart_type"; arguments := arguments |}
            "which chart?" [] scripted.start)
     = inr (Failed "Service Unavailable" "classify_chart_type").
Proof. split; reflexivity. Qed.

(* ===================================================================== *)
(** * Computations that only talk to the outside *)
(* ===================================================================== *)

Section OutsideOnly.
Context {W : Type} (env : Env W).
#[local] Abbreviation M := (M (W := W)).

Lemma set_world_id (s : State W) : set_world (world s) s = s.
Proof. now destruct s. Qed.

Lemma outside_ret {A} (a : A) : outside_only (W := W) (ret a).
Proof. intros s. exists (world s). now rewrite set_world_id. Qed.

Lemma outside_raise {A} (e : exn) : outside_only (W := W) (raise (A := A) e).
Proof. intros s. exists (world s). now rewrite set_world_id. Qed.

Lemma outside_bind {A B} (m : M A) (k : A -> M B) :
  outside_only m -> (forall a, outside_only (k a)) -> outside_only (bind m k).
Proof.
  intros Hm Hk s. unfold bind. destruct (Hm s) as [w Hw].
  destruct (m s) as [[e|a] s1]; cbn in *; subst s1; [now exists w|].
  destruct (Hk a (set_world w s)) as [w' Hw']. exists w'. now rewrite Hw'.
Qed.

Lemma outside_try {A} (m : M A) (h : exn -> M A) :
  outside_only m -> (forall e, outside_only (h e)) -> outside_only (try_except m h).
Proof.
  intros Hm Hh s. unfold try_except. destruct (Hm s) as [w Hw].
  destruct (m s) as [[e|a] s1]; cbn in *; subst s1; [|now exists w].
  destruct (Hh e (set_world w s)) as [w' Hw']. exists w'. now rewrite Hw'.
Qed.

Lemma outside_call {A} (f : W -> (exn + A) * W) : outside_only (call f).
Proof. intros s. unfold call. destruct (f (world s)) as [r w]. now exists w. Qed.

Lemma outside_interp_error {A} (err : InterpError) :
  outside_only (interp_error (A := A) env err).
Proof. apply outside_raise. Qed.

End OutsideOnly.

Create HintDb outside.

#[local] Hint Resolve outside_ret outside_raise outside_call outside_interp_error
  : outside.

Ltac outside_step :=
  match goal with
  | |- outside_only (bind _ _) => apply outside_bind; [|intros]
  | |- outside_only (try_except _ _) => apply outside_try; [|intros]
  | |- outside_only (if ?b then _ else _) => destruct b
  | |- outside_only (match ?x with _ => _ end) => destruct x
  | |- outside_only _ => solve [auto with outside]
  end.

Ltac outside := repeat outside_step.

Section Acquisition.
Context {W : Type} (env : Env W).

Lemma outside_len (v : pyval) : outside_only (len env v).
Proof. unfold len. outside. Qed.

Lemma outside_slice_prefix (v : pyval) : outside_only (slice_prefix env v).
Proof. unfold slice_prefix. outside. Qed.

Lemma outside_method_get (v : pyval) (k : string) (default : pyval) :
  outside_only (method_get env v k default).
Proof. unfold method_get. outside. Qed.

Lemma outside_str_method (v : pyval) (attr : string) :
  outside_only (str_method env v attr).
Proof. unfold str_method. outside. Qed.

Lemma outside_run_skill (skill : Skill) (token : string) (input : pydict) :
  outside_only (run_skill env skill token input).
Proof. unfold run_skill. outside. Qed.

#[local] Hint Resolve outside_len outside_slice_prefix outside_method_get
  outside_str_method outside_run_skill : outside.

Lemma outside_classify_step (token : string) (query headers rows : pyval) :
  outside_only (chart_service.classify_step env token query headers rows).
Proof. unfold chart_service.classify_step. outside. Qed.

Lemma outside_generate_chart_code (token : string) (query headers rows : pyval) :
  outside_only (chart_service._generate_chart_code env token query headers rows).
Proof.
  unfold chart_service._generate_chart_code.
  pose proof outside_classify_step. outside.
Qed.

Lemma outside_generate_unique_chart_id (query headers rows : pyval) :
  outside_only (chart_service._generate_unique_chart_id env query headers rows).
Proof.
  unfold chart_service._generate_unique_chart_id.
  apply outside_bind; [|intros; apply outside_ret].
  intros s. unfold call. destruct (uuid4_hex env (world s)) as [h w]. now exists w.
Qed.

(** The chart identifier is always produced, from the content hash and
    the next random value. *)
Lemma generate_unique_chart_id_run (query headers rows : pyval) (s : State W) :
  chart_service._generate_unique_chart_id env query headers rows s
  = (inr (chart_id env query headers rows (fst (uuid4_hex env (world s)))),
     set_world (snd (uuid4_hex env (world s))) s).
Proof.
  unfold chart_service._generate_unique_chart_id, bind, call, chart_id.
  now destruct (uuid4_hex env (world s)) as [h w].
Qed.

(** Either the pipeline stops before any workspace exists, or it runs
    the body of its [with] block, under a chart identifier, in a state
    that differs from the initial one in the outside only. *)
Lemma generate_chart_image_cases (token : string) (query headers rows : pyval)
      (s : State W) :
  (exists e w,
      chart_service.generate_chart_image env token query headers rows s
      = (inl e, set_world w s))
  \/ (exists chart_code u w,
        chart_service.generate_chart_image env token query headers rows s
        = TemporaryDirectory
            env (chart_service.in_workspace env headers rows chart_code
                                            (chart_id env query headers rows u))
            (set_world w s)).
Proof.
  unfold chart_service.generate_chart_image.
  set (body := fun code u =>
                 TemporaryDirectory
                   env (chart_service.in_workspace env headers rows code
                                                   (chart_id env query headers rows u))).
  assert (Hstep : forall A (m : M A) (k : A -> M string) (s0 : State W) (w0 : W),
             s0 = set_world w0 s -> outside_only m ->
             (forall a w1, (exists e w, k a (set_world w1 s) = (inl e, set_world w s))
                           \/ (exists code u w,
                                  k a (set_world w1 s) = body code u (set_world w s))) ->
             (exists e w, bind m k s0 = (inl e, set_world w s))
             \/ (exists code u w, bind m k s0 = body code u (set_world w s))).
  { intros A m k s0 w0 -> Hm Hk. unfold bind. destruct (Hm (set_world w0 s)) as [w1 Hw1].
    destruct (m (set_world w0 s)) as [[e|a] s1]; cbn in Hw1; subst s1.
    - left. now exists e, w1.
    - apply Hk. }
  apply (Hstep _ _ _ s (world s)); [now rewrite set_world_id | apply outside_len |].
  intros _ w1. apply (Hstep _ _ _ _ w1); [reflexivity | apply outside_len |].
  intros _ w2. apply (Hstep _ _ _ _ w2); [reflexivity | |].
  { destruct (truthy rows); [apply outside_slice_prefix | apply outside_ret]. }
  intros _ w3. apply (Hstep _ _ _ _ w3); [reflexivity | apply outside_generate_chart_code |].
  intros code w4. right. unfold bind at 1. rewrite generate_unique_chart_id_run.
  cbn [world set_world].
  now exists code, (fst (uuid4_hex env w4)), (snd (uuid4_hex env w4)).
Qed.

End Acquisition.

Section ChartCode.
Context {W : Type} (env : Env W).

(** C9 (amended): when the chart_generator call returns a reply without
    chart code, the pipeline fails with "Failed to generate chart code";
    "Chart generation skill not available" is the error when the call
    itself raises [KernelException].  Either way the pipeline stops
    before a workspace is created. *)
Theorem chart_code_acquisition_errors
        (token : string) (query : pyval) (hs rs : list pyval)
        (s s1 : State W) (chart_type : pyval) (r2 : exn + pyval) (w2 : W) :
  let headers := VList hs in
  let rows := VList rs in
  chart_service.classify_step env token query headers rows s = (inr chart_type, s1) ->
  kernel_run env chart_service.generator_skill token
             (VDict (chart_service.generator_input chart_type query headers rows))
             (world s1) = (r2, w2) ->
  ((exists reply, r2 = inr (VDict reply)
                  /\ truthy (dict_get reply "chart_code") = false) ->
   chart_service.generate_chart_image env token query headers rows s
   = (inl (Exception "Exception" "Failed to generate chart code"), set_world w2 s1))
  /\ ((exists status_code msg, r2 = inl (KernelException status_code msg)) ->
      chart_service.generate_chart_image env token query headers rows s
      = (inl (Exception "Exception" "Chart generation skill not available"),
         set_world w2 s1)).
Proof.
  cbv zeta. intros Hclass Hgen.
  assert (Hpipe : forall r : exn + string,
             chart_service._generate_chart_code env token query (VList hs) (VList rs) s
             = (r, set_world w2 s1) ->
             (exists e, r = inl e) ->
             chart_service.generate_chart_image env token query (VList hs) (VList rs) s
             = (r, set_world w2 s1)).
  { intros r Hcode [e ->].
    unfold chart_service.generate_chart_image, bind, len. cbn [py_len ret truthy].
    destruct rs; cbn [sliceable slice_prefix ret]; now rewrite Hcode. }
  assert (Hcode : chart_service._generate_chart_code env token query (VList hs) (VList rs) s
                  = try_except
                      (let! generator_response :=
                         run_skill env chart_service.generator_skill token
                           (chart_service.generator_input chart_type query (VList hs) (VList rs)) in
                       let! chart_code := method_get env generator_response "chart_code" VNone in
                       if negb (truthy chart_code)
                       then raise (Exception "Exception" "Failed to generate chart code")
                       else str_method env chart_code "split")
                      (fun exp => if is_KernelException exp
                                  then raise (Exception "Exception"
                                                "Chart generation skill not available")
                                  else raise exp) s1).
  { unfold chart_service._generate_chart_code, bind at 1, len. cbn [py_len ret].
    unfold bind at 1. now rewrite Hclass. }
  split.
  - intros (reply & -> & Hnone). apply Hpipe; [|eauto].
    rewrite Hcode. unfold try_except, bind, run_skill, call. rewrite Hgen.
    cbn [method_get ret]. unfold dict_get in Hnone. now rewrite Hnone.
  - intros (c & m & ->). apply Hpipe; [|eauto].
    rewrite Hcode. unfold try_except, bind, run_skill, call. now rewrite Hgen.
Qed.

End ChartCode.

(** C9, as stated, fails: the generator answers without code and the
    GenerateChart capability fails with "Failed to generate chart code". *)
Lemma chart_code_counterexample :
  let outcome :=
    fst (mcp_server.execute_tool
           classifier_down.env "generate_chart"
           (chart_arguments classifier_down.query classifier_down.headers
                            classifier_down.rows)
           scripted.start) in
  outcome = inl (Exception "Exception" "Failed to generate chart code")
  /\ outcome <> inl (Exception "Exception" "Chart generation skill not available")
  /\ outcome <> inl (Exception "Exception" "chart generation skill not available").
Proof.
  cbv zeta. split; [reflexivity|].
  split; intros H; vm_compute in H; discriminate H.
Qed.

Lemma chart_code_acquisition_errors_witness :
  chart_service.generate_chart_image
    classifier_down.env "tok" classifier_down.query
    classifier_down.headers classifier_down.rows scripted.start
  = (inl (Exception "Exception" "Failed to generate chart code"), scripted.start).
Proof.
  exact (proj1 (chart_code_acquisition_errors
                  classifier_down.env "tok" classifier_down.query _ _
                  scripted.start _ _ _ _ eq_refl eq_refl)
               (ex_intro _ [] (conj eq_refl eq_refl))).
Defined.

(* ===================================================================== *)
(** * The rendering pipeline *)
(* ===================================================================== *)

Section Outcomes.
Context {W : Type} (env : Env W).

Lemma append_inj (p x y : string) : p +:+ x = p +:+ y -> x = y.
Proof.
  induction p as [|c p IH]; [easy|].
  rewrite !append_cons. intros H. apply IH. congruence.
Qed.

(** The three failures are told apart by the exception raised. *)
Lemma render_error_inj (a b : RenderFailure) :
  render_error a = render_error b -> a = b.
Proof.
  destruct a as [|ea|], b as [|eb|]; intros H; try reflexivity;
    try (vm_compute in H; discriminate H).
  f_equal. inversion H as [H']. now apply append_inj in H'.
Qed.

(** The body of the [with] block writes the two scripts, runs the child
    once, and returns what [render_result] reads off the run. *)
Lemma in_workspace_run (headers rows : pyval) (chart_code chart_uuid d : string)
      (s1 : State W) :
  let chart_file := path_join d "chart.py" in
  let image := path_join d (chart_uuid +:+ ".png") in
  let written :=
    <[chart_file := File (chart_service._create_chart_execution_code
                            env chart_code chart_uuid d)]>
      (<[path_join d "data.py" :=
           File (chart_service._create_data_preparation_code env headers rows)]>
         (fs s1)) in
  let run := fst (fst (spawn env [sys_executable env; chart_file] d written (world s1))) in
  let f := snd (fst (spawn env [sys_executable env; chart_file] d written (world s1))) in
  let w := snd (spawn env [sys_executable env; chart_file] d written (world s1)) in
  chart_service.in_workspace env headers rows chart_code chart_uuid d s1
  = (render_result env run f d image,
     mkState w f (_token s1) (tool_calls s1) (workspaces s1)
             (children s1 ++ [(run, f)])).
Proof.
  cbv zeta.
  unfold chart_service.in_workspace, bind, write_file, chart_service.run_and_collect,
    try_except, bind, chart_service._execute_chart_generation, subprocess_run,
    render_result.
  cbn [fs world set_fs _token tool_calls workspaces children].
  destruct (spawn env _ d _ (world s1)) as [[run f] w]. cbn [fst snd].
  destruct (elapsed run) as [t|]; [|reflexivity].
  destruct (Qle_bool t chart_service.timeout); [|reflexivity].
  destruct (returncode (completed run) =? 0)%Z; cbn [negb]; [|reflexivity].
  unfold listdir, path_exists, read_file. cbn [fs].
  destruct (f !! d) as [[|c]|]; try reflexivity.
  cbn [fs].
  destruct (f !! path_join d (chart_uuid +:+ ".png")) as [[|bytes]|] eqn:Himage;
    cbn [negb fs]; rewrite ?Himage; reflexivity.
Qed.



End Outcomes.

Section Render.
Context {W : Type} (env : Env W).

Lemma rmtree_root (d : string) (f : gmap string node) : rmtree d f !! d = None.
Proof.
  unfold rmtree. apply map_lookup_filter_None. right.
  intros x _ [Hne _]. now apply Hne.
Qed.

Lemma rmtree_below (d p : string) (f : gmap string node) :
  under d p = true -> rmtree d f !! p = None.
Proof.
  intros Hp. unfold rmtree. apply map_lookup_filter_None. right.
  intros x _ [_ Hu]. change (under d p = false) in Hu. congruence.
Qed.

Lemma append_length (a b : string) :
  String.length (a +:+ b) = (String.length a + String.length b)%nat.
Proof.
  induction a as [|c a IH]; [reflexivity|].
  rewrite append_cons. cbn [String.length]. now rewrite IH.
Qed.

Lemma path_join_neq (d n : string) : path_join d n <> d.
Proof.
  intros H. apply (f_equal String.length) in H.
  unfold path_join in H. rewrite !append_length in H. cbn [String.length] in H. lia.
Qed.

(** The workspace is a directory of the file system the child starts
    in, and the two scripts are files in it. *)
Lemma staged_workspace (headers rows : pyval) (code cid d : string)
      (f0 : gmap string node) :
  staged env headers rows code cid d f0 !! d = Some Dir
  /\ staged env headers rows code cid d f0 !! path_join d "data.py"
     = Some (File (chart_service._create_data_preparation_code env headers rows))
  /\ staged env headers rows code cid d f0 !! path_join d "chart.py"
     = Some (File (chart_service._create_chart_execution_code env code cid d)).
Proof.
  unfold staged. repeat split.
  - rewrite !lookup_insert_ne by apply path_join_neq. apply lookup_insert_eq.
  - rewrite lookup_insert_ne; [apply lookup_insert_eq|].
    unfold path_join. intros H. apply append_inj in H. discriminate H.
  - apply lookup_insert_eq.
Qed.

(** The pipeline, once the chart code is acquired: the identifier is
    drawn, the workspace made, the scripts written, the child run once
    in it, its run read, and the workspace removed. *)
Lemma generate_chart_image_run (token : string) (query headers rows : pyval)
      (s : State W) (code : string) (s1 : State W) :
  acquires env token query headers rows s code s1 ->
  let u := fst (uuid4_hex env (world s1)) in
  let d := fst (mkdtemp env (fs s) (snd (uuid4_hex env (world s1)))) in
  let cid := chart_id env query headers rows u in
  let child :=
    spawn env [sys_executable env; path_join d "chart.py"] d
          (staged env headers rows code cid d (fs s))
          (snd (mkdtemp env (fs s) (snd (uuid4_hex env (world s1))))) in
  chart_service.generate_chart_image env token query headers rows s
  = (render_result env (fst (fst child)) (snd (fst child)) d
                   (path_join d (cid +:+ ".png")),
     mkState (snd child) (rmtree d (snd (fst child))) (_token s) (tool_calls s)
             (workspaces s ++ [d])
             (children s ++ [(fst (fst child), snd (fst child))])).
Proof.
  intros (Hheaders & Hrows & Hcode). cbv zeta.
  destruct (outside_generate_chart_code env token query headers rows s) as [w1 Hw1].
  rewrite Hcode in Hw1. cbn [snd] in Hw1. subst s1.
  assert (Hlen : py_len rows <> None).
  { intros Hnone. unfold chart_service._generate_chart_code, bind, len in Hcode.
    rewrite Hnone in Hcode. discriminate Hcode. }
  unfold chart_service.generate_chart_image.
  unfold bind at 1. unfold len at 1.
  destruct (py_len rows) as [n|]; [|contradiction]. cbn [ret].
  unfold bind at 1. unfold len at 1.
  destruct (py_len headers) as [m|]; [|contradiction]. cbn [ret].
  unfold bind at 1.
  assert (Hslice : (if truthy rows then slice_prefix env rows else ret tt) s
                   = (inr tt, s)).
  { destruct (truthy rows); [|reflexivity].
    unfold slice_prefix. now rewrite (Hrows eq_refl). }
  rewrite Hslice.
  unfold bind at 1. rewrite Hcode.
  unfold bind at 1. rewrite generate_unique_chart_id_run.
  cbn [world set_world].
  unfold TemporaryDirectory.
  cbn [fs world set_world _token tool_calls workspaces children].
  destruct (mkdtemp env (fs s) (snd (uuid4_hex env w1))) as [d w3]. cbn [fst snd].
  rewrite in_workspace_run.
  cbn [fs world _token tool_calls workspaces children fst snd set_fs].
  reflexivity.
Qed.

(** Without the chart code the pipeline raises, and only the outside
    has changed. *)
Lemma generate_chart_image_stops (token : string) (query headers rows : pyval)
      (s : State W) :
  (forall code s1, ~ acquires env token query headers rows s code s1) ->
  exists e w,
    chart_service.generate_chart_image env token query headers rows s
    = (inl e, set_world w s).
Proof.
  intros Hnot.
  unfold chart_service.generate_chart_image.
  unfold bind at 1. unfold len at 1.
  destruct (py_len rows) as [n|] eqn:Hn;
    [|exists (Exception (interp_class (NoLen rows)) (interp_msg env (NoLen rows))),
        (world s); now rewrite set_world_id].
  cbn [ret]. unfold bind at 1. unfold len at 1.
  destruct (py_len headers) as [m|] eqn:Hm;
    [|exists (Exception (interp_class (NoLen headers)) (interp_msg env (NoLen headers))),
        (world s); now rewrite set_world_id].
  cbn [ret]. unfold bind at 1.
  destruct (truthy rows) eqn:Ht.
  - unfold slice_prefix. destruct (sliceable rows) eqn:Hs.
    + cbn [ret]. unfold bind at 1.
      destruct (outside_generate_chart_code env token query headers rows s)
        as [w1 Hw1].
      destruct (chart_service._generate_chart_code env token query headers rows s)
        as [[e|code] s1] eqn:Hcode; cbn [snd] in Hw1; subst s1.
      * now exists e, w1.
      * exfalso. apply (Hnot code (set_world w1 s)).
        split; [congruence|]. split; [intros _; exact Hs | exact Hcode].
    + exists (Exception (interp_class (NotSubscriptable rows))
                       (interp_msg env (NotSubscriptable rows))), (world s).
      now rewrite set_world_id.
  - cbn [ret]. unfold bind at 1.
    destruct (outside_generate_chart_code env token query headers rows s)
      as [w1 Hw1].
    destruct (chart_service._generate_chart_code env token query headers rows s)
      as [[e|code] s1] eqn:Hcode; cbn [snd] in Hw1; subst s1.
    + now exists e, w1.
    + exfalso. apply (Hnot code (set_world w1 s)).
      split; [congruence|]. split; [intros Hf; congruence | exact Hcode].
Qed.


(** C7: once the chart code is acquired the pipeline makes one
    workspace, the directory [mkdtemp] names; the child starts with that
    directory and the two scripts in it; and whatever the child does and
    however the call ends (an image, a failed or timed-out child, any
    other exception) neither the directory nor anything below it exists
    in the file system the call leaves behind, which is otherwise the
    one the child left.  Without the chart code no directory is made and
    the file system is as found. *)
Theorem workspace_removed (token : string) (query headers rows : pyval) (s : State W) :
  let s' := snd (chart_service.generate_chart_image env token query headers rows s) in
  (forall code s1,
     acquires env token query headers rows s code s1 ->
     exists d u w1 w2 run f,
       let start := staged env headers rows code (chart_id env query headers rows u)
                           d (fs s) in
       mkdtemp env (fs s) w1 = (d, w2)
       /\ workspaces s' = workspaces s ++ [d]
       /\ start !! d = Some Dir
       /\ (exists data_code, start !! path_join d "data.py" = Some (File data_code))
       /\ (exists chart_code, start !! path_join d "chart.py" = Some (File chart_code))
       /\ spawn env [sys_executable env; path_join d "chart.py"] d start w2
          = ((run, f), world s')
       /\ children s' = children s ++ [(run, f)]
       /\ fs s' = rmtree d f
       /\ fs s' !! d = None
       /\ (forall p, under d p = true -> fs s' !! p = None))
  /\ ((forall code s1, ~ acquires env token query headers rows s code s1) ->
      workspaces s' = workspaces s /\ fs s' = fs s).
Proof.
  cbv zeta. split.
  - intros code s1 Hacq.
    rewrite (generate_chart_image_run token query headers rows s code s1 Hacq).
    cbn [fst snd world children workspaces fs].
    set (u := fst (uuid4_hex env (world s1))).
    set (w1 := snd (uuid4_hex env (world s1))).
    set (d := fst (mkdtemp env (fs s) w1)).
    set (w2 := snd (mkdtemp env (fs s) w1)).
    set (child := spawn env _ d _ w2).
    exists d, u, w1, w2, (fst (fst child)), (snd (fst child)).
    destruct (staged_workspace headers rows code (chart_id env query headers rows u)
                               d (fs s)) as (Hd & Hdata & Hchart).
    split; [unfold d, w2; now destruct (mkdtemp env (fs s) w1)|].
    split; [reflexivity|]. split; [exact Hd|].
    split; [eexists; exact Hdata|]. split; [eexists; exact Hchart|].
    split; [subst child; now destruct (spawn env _ d _ _) as [[run f] w']|].
    split; [reflexivity|]. split; [reflexivity|]. split.
    + apply rmtree_root.
    + intros p Hp. now apply rmtree_below.
  - intros Hnot.
    destruct (generate_chart_image_stops token query headers rows s Hnot)
      as (e & w & ->).
    split; reflexivity.
Qed.

End Render.

(** The four renders. *)
Example render_times_out :
  fst (renders.render renders.sleeping) = inl (render_error Timeout)
  /\ fs (snd (renders.render renders.sleeping)) = ∅.
Proof. split; vm_compute; reflexivity. Qed.

Example render_process_fails :
  fst (renders.render renders.crashing)
  = inl (render_error (ProcessFailed "NameError: name 'plot' is not defined"))
  /\ fs (snd (renders.render renders.crashing)) = ∅.
Proof. split; vm_compute; reflexivity. Qed.

Example render_misses_artifact :
  fst (renders.render renders.forgetting) = inl (render_error ArtifactMissing)
  /\ fs (snd (renders.render renders.forgetting)) = ∅.
Proof. split; vm_compute; reflexivity. Qed.

Example render_returns_image :
  fst (renders.render renders.drawing) = inr "PNG"
  /\ workspaces (snd (renders.render renders.drawing)) = ["/tmp/tmpjob"]
  /\ fs (snd (renders.render renders.drawing)) = ∅.
Proof. repeat split; vm_compute; reflexivity. Qed.

(** In the four renders the chart code is acquired. *)
Lemma renders_acquire (child : gmap string node -> ChildRun * gmap string node) :
  acquires (scripted.env renders.skills [] child) "tok" classifier_down.query
           classifier_down.headers classifier_down.rows scripted.start
           "plt.bar(df['Country'], df['Customers'])" scripted.start.
Proof. split; [discriminate|]. split; reflexivity. Qed.


(** A child that draws the image: the workspace it ran in is gone when
    the call returns. *)
Lemma workspace_removed_witness :
  workspaces (snd (renders.render renders.drawing)) = ["/tmp/tmpjob"]
  /\ fs (snd (renders.render renders.drawing)) !! "/tmp/tmpjob" = None
  /\ fs (snd (renders.render renders.drawing)) !! renders.image = None.
Proof.
  destruct (proj1 (workspace_removed
                     (scripted.env renders.skills [] renders.drawing) "tok"
                     classifier_down.query classifier_down.headers
                     classifier_down.rows scripted.start)
                  _ _ (renders_acquire renders.drawing))
    as (d & u & w1 & w2 & run & f & Hmk & Hws & _ & _ & _ & _ & _ & _ & Hroot & Hbelow).
  cbn [mkdtemp scripted.env] in Hmk. injection Hmk as Hd _. subst d.
  split; [exact Hws|]. split; [exact Hroot|].
  apply Hbelow. reflexivity.
Defined.

(* ===================================================================== *)
(** * The column-typing threshold *)
(* ===================================================================== *)

Section Threshold.
Variable to_numeric : string -> option Q.

Lemma notna_sum_converted (cells : list (option string)) :
  data_preparation.notna_sum (data_preparation.numeric_series to_numeric cells)
  = converted to_numeric cells.
Proof.
  unfold data_preparation.notna_sum, data_preparation.numeric_series, converted.
  induction cells as [|[t|] cells IH]; [reflexivity| |exact IH].
  cbn [map List.filter converts]. destruct (to_numeric t); cbn; [now rewrite IH | exact IH].
Qed.

Lemma fillna0_coerced (cells : list (option string)) :
  data_preparation.fillna0 (data_preparation.numeric_series to_numeric cells)
  = coerced to_numeric cells.
Proof.
  unfold data_preparation.fillna0, data_preparation.numeric_series, coerced.
  rewrite map_map. apply map_ext. intros [t|]; reflexivity.
Qed.

Lemma all_na_converted (cells : list (option string)) :
  forallb data_preparation.isna (data_preparation.numeric_series to_numeric cells) = true ->
  converted to_numeric cells = 0%nat.
Proof.
  unfold data_preparation.numeric_series, converted.
  induction cells as [|[t|] cells IH]; cbn [map forallb List.filter converts];
    [reflexivity| |exact IH].
  destruct (to_numeric t); cbn; [discriminate | exact IH].
Qed.

Lemma mostly_numeric_spec (cells : list (option string)) :
  data_preparation.mostly_numeric (data_preparation.numeric_series to_numeric cells) = true
  <-> (0 < List.length cells /\ List.length cells < 2 * converted to_numeric cells)%nat
      \/ (List.length cells = 0 /\ 1 < 2 * converted to_numeric cells)%nat.
Proof.
  unfold data_preparation.mostly_numeric. rewrite notna_sum_converted.
  unfold data_preparation.numeric_series. rewrite length_map.
  rewrite negb_true_iff, <- not_true_iff_false, Qle_bool_iff.
  unfold Qle. cbn [Qnum Qden].
  destruct (List.length cells) as [|n] eqn:Hn.
  - cbn [Pos.of_nat]. lia.
  - rewrite <- Pos.of_nat_succ, Zpos_P_of_succ_nat. lia.
Qed.

(** C8 (amended): a text column is replaced by its numeric coercion,
    values that do not convert filled with 0, exactly when strictly more
    than half of all its values (missing ones included) convert; it is
    kept as text otherwise. *)
Theorem column_typing_threshold (cells : list (option string)) :
  let result := data_preparation.clean_column to_numeric
                  (data_preparation.ObjectCol cells) in
  ((List.length cells < 2 * converted to_numeric cells)%nat ->
   result = data_preparation.NumericCol (coerced to_numeric cells))
  /\ ((2 * converted to_numeric cells <= List.length cells)%nat ->
      result = data_preparation.ObjectCol cells).
Proof.
  cbv zeta. unfold data_preparation.clean_column.
  pose proof (mostly_numeric_spec cells) as Hmost.
  pose proof (all_na_converted cells) as Hna.
  assert (Hlen : (converted to_numeric cells <= List.length cells)%nat).
  { unfold converted. apply List.filter_length_le. }
  destruct (forallb data_preparation.isna _) eqn:Hall; cbn [negb].
  - specialize (Hna eq_refl). split; [lia | reflexivity].
  - destruct (data_preparation.mostly_numeric _) eqn:Hm.
    + rewrite fillna0_coerced. split; [reflexivity|].
      destruct Hmost as [Hmost _]. specialize (Hmost eq_refl). lia.
    + split; [|reflexivity]. intros Hlt.
      assert (Hfalse : false = true); [|discriminate Hfalse].
      apply Hmost. left. lia.
Qed.

End Threshold.

(** The two columns of the specification's example. *)
Example mostly_numbers_column :
  data_preparation.clean_column
    data_preparation.decimal
    (data_preparation.ObjectCol [Some "1"; Some "2"; Some "x"; Some "3"; Some "4"])
  = data_preparation.NumericCol
      [Qmake 1 1; Qmake 2 1; Qmake 0 1; Qmake 3 1; Qmake 4 1].
Proof. reflexivity. Qed.

Example mostly_text_column :
  data_preparation.clean_column
    data_preparation.decimal
    (data_preparation.ObjectCol [Some "1"; Some "a"; Some "b"; Some "c"])
  = data_preparation.ObjectCol [Some "1"; Some "a"; Some "b"; Some "c"].
Proof. reflexivity. Qed.

(** C8, as stated, fails: in the column ["1", None, None] the one
    non-missing value converts, and the column stays text. *)
Lemma threshold_counterexample :
  ~ typed_over_non_missing data_preparation.decimal [Some "1"; None; None].
Proof.
  intros [Hnum _]. cbv zeta in Hnum.
  assert (H : (non_missing [Some "1"; None; None]
               < 2 * converted data_preparation.decimal [Some "1"; None; None])%nat)
    by (vm_compute; lia).
  specialize (Hnum H). vm_compute in Hnum. discriminate Hnum.
Qed.

Lemma column_typing_threshold_witness :
  data_preparation.clean_column
    data_preparation.decimal
    (data_preparation.ObjectCol [Some "1"; Some "2"; Some "x"; Some "3"; Some "4"])
  = data_preparation.NumericCol
      (coerced data_preparation.decimal
               [Some "1"; Some "2"; Some "x"; Some "3"; Some "4"])
  /\ data_preparation.clean_column
       data_preparation.decimal
       (data_preparation.ObjectCol [Some "1"; Some "a"; Some "b"; Some "c"])
     = data_preparation.ObjectCol [Some "1"; Some "a"; Some "b"; Some "c"].
Proof.
  split.
  - apply (proj1 (column_typing_threshold
                    data_preparation.decimal
                    [Some "1"; Some "2"; Some "x"; Some "3"; Some "4"])).
    vm_compute. lia.
  - apply (proj2 (column_typing_threshold
                    data_preparation.decimal
                    [Some "1"; Some "a"; Some "b"; Some "c"])).
    vm_compute. lia.
Defined.

(* ===================================================================== *)
(** * The dispatcher *)
(* ===================================================================== *)

Section Dispatcher.
Context {W : Type} (env : Env W).

Lemma signature_known (tool_name : string) :
  In tool_name known_tools <-> exists sig, signature tool_name = Some sig.
Proof.
  unfold signature, known_tools. cbn [In].
  destruct (String.eqb_spec tool_name "generate_sql") as [->|H1]; [split; eauto|].
  destruct (String.eqb_spec tool_name "execute_sql") as [->|H2]; [split; eauto|].
  destruct (String.eqb_spec tool_name "classify_chart_type") as [->|H3]; [split; eauto|].
  destruct (String.eqb_spec tool_name "generate_chart") as [->|H4]; [split; eauto 6|].
  split; [intros [?|[?|[?|[?|[]]]]]; congruence | intros [sig Hs]; discriminate].
Qed.

Lemma tool_impl_known (tool_name : string) :
  In tool_name known_tools
  <-> exists impl, mcp_server._TOOL_IMPLEMENTATIONS env tool_name = Some impl.
Proof.
  rewrite signature_known. unfold signature, mcp_server._TOOL_IMPLEMENTATIONS.
  repeat match goal with
         | |- context [if String.eqb ?a ?b then _ else _] => destruct (String.eqb a b)
         end; split; intros [x Hx]; try discriminate; eauto.
Qed.

(** X1: a tool name that is not registered makes the turn fail with
    "Unknown tool: <name>": the call is recorded, nothing else happens,
    and no retry is attempted. *)
Theorem unknown_tool_fails_the_turn (decision : ToolRouterDecision) (message : string)
        (context : pydict) (s : State W) :
  ~ In (tool decision) known_tools ->
  mcp_server.execute_tool env (tool decision) (arguments decision) s
  = (inl (Exception "ValueError" ("Unknown tool: " +:+ tool decision)),
     logged (tool decision) (arguments decision) s)
  /\ routes._execute_with_retry env decision message context s
     = (inr (Failed ("Unknown tool: " +:+ tool decision) (tool decision)),
        logged (tool decision) (arguments decision) s).
Proof.
  intros Hunknown.
  assert (Hnone : mcp_server._TOOL_IMPLEMENTATIONS env (tool decision) = None).
  { destruct (mcp_server._TOOL_IMPLEMENTATIONS env (tool decision)) as [impl|] eqn:Hi;
      [|reflexivity].
    exfalso. apply Hunknown, tool_impl_known. eauto. }
  assert (Hrun : mcp_server.execute_tool env (tool decision) (arguments decision) s
                 = (inl (Exception "ValueError" ("Unknown tool: " +:+ tool decision)),
                    logged (tool decision) (arguments decision) s)).
  { unfold mcp_server.execute_tool, bind, mcp_server.log_tool_call. now rewrite Hnone. }
  split; [exact Hrun|].
  unfold routes._execute_with_retry, try_except. unfold bind at 1. rewrite Hrun.
  destruct (String.eqb_spec (tool decision) "execute_sql") as [Heq|Hne].
  - exfalso. apply Hunknown. rewrite Heq. cbn. tauto.
  - reflexivity.
Qed.

Lemma bind_kwargs_refuses (fn : string) (required optional : list string)
      (arguments : pydict) (s : State W) :
  fits required optional arguments = false ->
  exists msg,
    mcp_server.bind_kwargs env fn required optional arguments s
    = (inl (Exception "TypeError" msg), s).
Proof.
  unfold fits, mcp_server.bind_kwargs. intros Hfits.
  destruct (List.find _ arguments) as [[k v]|] eqn:Hfind; [eexists; reflexivity|].
  assert (Hall : forallb (fun kv => existsb (String.eqb (fst kv)) (required ++ optional))
                         arguments = true).
  { apply forallb_forall. intros kv Hin.
    pose proof (find_none _ _ Hfind kv Hin) as Hnone.
    now apply negb_false_iff in Hnone. }
  rewrite Hall in Hfits. cbn [andb] in Hfits.
  destruct (List.filter (fun p => negb (has_key arguments p)) required)
    as [|p missing] eqn:Hmissing; [|eexists; reflexivity].
  exfalso. apply not_true_iff_false in Hfits. apply Hfits.
  apply forallb_forall. intros p Hin.
  destruct (has_key arguments p) eqn:Hkey; [reflexivity|].
  assert (Hp : In p (List.filter (fun p => negb (has_key arguments p)) required)).
  { apply filter_In. split; [exact Hin | now rewrite Hkey]. }
  rewrite Hmissing in Hp. destruct Hp.
Qed.

(** X2: a call whose arguments do not fit the tool's parameters (an
    unexpected key, or a required parameter missing) raises a TypeError
    before the tool runs: the call is recorded, and the skill service,
    the database and the file system are not touched. *)
Theorem misfit_arguments_never_reach_the_tool
        (tool_name fn : string) (required optional : list string)
        (arguments : pydict) (s : State W) :
  signature tool_name = Some (fn, required, optional) ->
  fits required optional arguments = false ->
  exists msg,
    mcp_server.execute_tool env tool_name arguments s
    = (inl (Exception "TypeError" msg), logged tool_name arguments s).
Proof.
  intros Hsig Hfits.
  unfold mcp_server.execute_tool, bind at 1, mcp_server.log_tool_call.
  fold (logged tool_name arguments s).
  unfold signature in Hsig. unfold mcp_server._TOOL_IMPLEMENTATIONS.
  repeat match goal with
         | H : context [if String.eqb ?a ?b then _ else _] |- _ =>
             destruct (String.eqb a b)
         end; try discriminate;
    inversion Hsig; subst; clear Hsig;
    match goal with
    | |- context [mcp_server.bind_kwargs env ?f ?r ?o arguments] =>
        destruct (bind_kwargs_refuses f r o arguments
                    (logged tool_name arguments s) Hfits) as [msg Hmsg]
    end;
    exists msg; unfold bind; now rewrite Hmsg.
Qed.

End Dispatcher.

Lemma unknown_tool_fails_the_turn_witness :
  routes._execute_with_retry
    (scripted.env scripted.no_skill [] scripted.idle_child)
    {| tool := "drop_tables"; arguments := [] |} "clean up" [] scripted.start
  = (inr (Failed "Unknown tool: drop_tables" "drop_tables"),
     logged "drop_tables" [] scripted.start).
Proof.
  refine (proj2 (unknown_tool_fails_the_turn
                   (scripted.env scripted.no_skill [] scripted.idle_child)
                   {| tool := "drop_tables"; arguments := [] |} "clean up" []
                   scripted.start _)).
  cbn. intros [H|[H|[H|[H|[]]]]]; discriminate H.
Defined.

Lemma misfit_arguments_never_reach_the_tool_witness :
  exists msg,
    mcp_server.execute_tool
      (scripted.env scripted.no_skill [] scripted.idle_child)
      "execute_sql" [("sql", VStr "SELECT 1")] scripted.start
    = (inl (Exception "TypeError" msg),
       logged "execute_sql" [("sql", VStr "SELECT 1")] scripted.start).
Proof.
  exact (misfit_arguments_never_reach_the_tool
           (scripted.env scripted.no_skill [] scripted.idle_child)
           "execute_sql" _ _ _ [("sql", VStr "SELECT 1")] scripted.start
           eq_refl eq_refl).
Defined.

(* ===================================================================== *)
(** * The shape of every response *)
(* ===================================================================== *)

Section Responses.
Context {W : Type} (env : Env W).

Lemma execute_tool_success_known (tool_name : string) (arguments payload : pydict)
      (s s' : State W) :
  mcp_server.execute_tool env tool_name arguments s = (inr payload, s') ->
  In tool_name known_tools.
Proof.
  unfold mcp_server.execute_tool, bind at 1, mcp_server.log_tool_call.
  destruct (mcp_server._TOOL_IMPLEMENTATIONS env tool_name) as [impl|] eqn:Himpl.
  - intros _. apply (proj2 (tool_impl_known env tool_name)). eauto.
  - discriminate.
Qed.

Lemma response_types_known (tool_name : string) :
  In tool_name known_tools -> routes.response_types tool_name <> ERROR.
Proof.
  intros [<-|[<-|[<-|[<-|[]]]]]; discriminate.
Qed.

Lemma Failed_well_formed (error tool_name : string) :
  well_formed (Failed error tool_name).
Proof. right. repeat split. now exists error. Qed.

Lemma execute_with_retry_well_formed (decision : ToolRouterDecision)
      (message : string) (context : pydict) (s : State W) :
  exists response s',
    routes._execute_with_retry env decision message context s = (inr response, s')
    /\ well_formed response.
Proof.
  unfold routes._execute_with_retry, try_except. unfold bind at 1.
  destruct (mcp_server.execute_tool env (tool decision) (arguments decision) s)
    as [[e|payload] s1] eqn:Hfirst.
  - destruct (String.eqb (tool decision) "execute_sql"
              && routes._is_fixable_sql_error (str_exn e)).
    + unfold bind.
      pose proof (retry_cases env (str_exn e) message context s1) as Hcases.
      cbv zeta in Hcases.
      destruct (mcp_server.execute_tool env "generate_sql" _ s1)
        as [[e2|corrected] s2].
      * rewrite Hcases. eexists _, _. split; [reflexivity|]. apply Failed_well_formed.
      * destruct Hcases as (q & _ & Hcases).
        destruct (mcp_server.execute_tool env "execute_sql" _ s2) as [[e3|rows] s3];
          rewrite Hcases; eexists _, _; (split; [reflexivity|]).
        -- apply Failed_well_formed.
        -- left. cbn. repeat split; [tauto | discriminate].
    + eexists _, _. split; [reflexivity|]. apply Failed_well_formed.
  - eexists _, _. split; [reflexivity|]. left. cbn [success tool_used response_type].
    pose proof (execute_tool_success_known _ _ _ _ _ Hfirst) as Hknown.
    repeat split; [exact Hknown | now apply response_types_known].
Qed.

(** X3: the endpoint answers every request, whatever the body, the
    router, the tools and the outside do: it never raises, and its
    response is either a success that names one of the four registered
    tools and carries that tool's response type, or a failure of type
    ERROR that carries one error message. *)
Theorem agent_endpoint_always_answers (request_json : exn + pyval) (token : string)
        (s : State W) :
  exists response s',
    routes.agent_endpoint env request_json token s = (inr response, s')
    /\ well_formed response.
Proof.
  unfold routes.agent_endpoint, try_except.
  match goal with
  | |- context [match ?body s with _ => _ end] => destruct (body s) as [[e|response] s'] eqn:Hbody
  end.
  - eexists _, _. split; [reflexivity|]. apply Failed_well_formed.
  - exists response, s'. split; [reflexivity|].
    apply bind_returns in Hbody as (body & s1 & _ & Hbody).
    apply bind_returns in Hbody as (req & s2 & _ & Hbody).
    apply bind_returns in Hbody as (? & s3 & _ & Hbody).
    apply bind_returns in Hbody as (decision & s4 & _ & Hbody).
    destruct decision as [decision|].
    + destruct (execute_with_retry_well_formed
                  decision (message req)
                  (match context req with Some c => c | None => [] end) s4)
        as (r & s5 & Hrun & Hwf).
      rewrite Hrun in Hbody. inversion Hbody; subst. exact Hwf.
    + inversion Hbody; subst. apply Failed_well_formed.
Qed.

End Responses.

(* ===================================================================== *)
(** * The SQL tools *)
(* ===================================================================== *)

Section SqlTools.
Context {W : Type} (env : Env W).

(** X4: ExecuteSQL on an open connection does not connect again: it
    runs the query once; a result of [n] rows is returned with the query
    echoed and [count = n]; an engine error is raised with the engine's
    own message. *)
Theorem execute_sql_on_open_connection (query : pyval) (s : State W)
        (r : exn + (pyval * pyval)) (w' : W) :
  db_is_connected env (world s) = true ->
  db_query env query (world s) = (r, w') ->
  (forall hs rs, r = inr (VList hs, VList rs) ->
     mcp_server._run_execute_sql env query s
     = (inr (query_results query (VList hs) (VList rs) (Z.of_nat (List.length rs))),
        set_world w' s))
  /\ (forall e, r = inl e ->
        mcp_server._run_execute_sql env query s
        = (inl (Exception "Exception" (str_exn e)), set_world w' s)).
Proof.
  intros Hopen Hquery.
  split; intros; subst r;
    unfold mcp_server._run_execute_sql, tools.tool_execute_sql, try_except, bind, call;
    cbn [fst snd]; rewrite Hopen; cbn [negb ret world set_world];
    rewrite Hquery; reflexivity.
Qed.

(** X5: ExecuteSQL on a closed connection connects first; when
    connecting fails the query is not run and the connection error is
    raised; otherwise the query runs on the connection just opened. *)
Theorem execute_sql_connects_first (query : pyval) (s : State W)
        (c : exn + unit) (w1 : W) :
  db_is_connected env (world s) = false ->
  db_connect env (world s) = (c, w1) ->
  (forall e, c = inl e ->
     mcp_server._run_execute_sql env query s
     = (inl (Exception "Exception" (str_exn e)), set_world w1 s))
  /\ (forall hs rs w2,
        c = inr tt -> db_query env query w1 = (inr (VList hs, VList rs), w2) ->
        mcp_server._run_execute_sql env query s
        = (inr (query_results query (VList hs) (VList rs) (Z.of_nat (List.length rs))),
           set_world w2 s))
  /\ (forall e w2,
        c = inr tt -> db_query env query w1 = (inl e, w2) ->
        mcp_server._run_execute_sql env query s
        = (inl (Exception "Exception" (str_exn e)), set_world w2 s)).
Proof.
  intros Hclosed Hconnect.
  repeat split; intros; subst c;
    unfold mcp_server._run_execute_sql, tools.tool_execute_sql, try_except, bind, call;
    cbn [fst snd]; rewrite Hclosed; cbn [negb ret world set_world];
    rewrite Hconnect; cbn [world set_world];
    try match goal with H : db_query _ _ _ = _ |- _ => rewrite H end;
    reflexivity.
Qed.

(** X6: GenerateSQL asks the sql-generator skill once.  Without error
    feedback the question is passed as it is; with an error text as
    feedback the skill is asked the correction prompt.  A reply with a
    truthy answer is returned as [sql_query]; a reply without one fails
    with "Unable to generate SQL query"; a failing call fails with its
    own message. *)
Theorem generate_sql_outcomes (question : pyval) (feedback : option string)
        (s : State W) (r : exn + pyval) (w' : W) :
  let error_feedback := match feedback with Some err => VStr err | None => VNone end in
  let asked :=
    match feedback with
    | Some err => if String.eqb err "" then question
                  else correction_prompt env question err
    | None => question
    end in
  kernel_run env sql_generator (_token s) (VDict [("question", asked)]) (world s)
  = (r, w') ->
  (forall reply, r = inr (VDict reply) ->
     truthy (dict_get reply "answer") = true ->
     mcp_server._run_generate_sql env question error_feedback s
     = (inr [("sql_query", dict_get reply "answer")], set_world w' s))
  /\ (forall reply, r = inr (VDict reply) ->
        truthy (dict_get reply "answer") = false ->
        mcp_server._run_generate_sql env question error_feedback s
        = (inl (Exception "Exception" "Unable to generate SQL query"), set_world w' s))
  /\ (forall e, r = inl e ->
        mcp_server._run_generate_sql env question error_feedback s
        = (inl (Exception "Exception" (str_exn e)), set_world w' s)).
Proof.
  cbv zeta. intros Hrun.
  assert (Hshape :
    mcp_server._run_generate_sql
      env question (match feedback with Some err => VStr err | None => VNone end) s
    = (let! result :=
         (let! response := call (fun w => (r, w')) in
          try_except
            (let! sql_query := method_get env response "answer" VNone in
             if negb (truthy sql_query)
             then ret [("success", VBool false);
                       ("error", VStr "Unable to generate SQL query")]
             else ret [("success", VBool true); ("sql_query", sql_query)])
            (fun e => ret [("success", VBool false); ("error", VStr (str_exn e))])) in
       do! mcp_server.check_success env result "SQL generation failed" in
       let! sql_query := getitem env result "sql_query" in
       ret [("sql_query", sql_query)]) s
    \/ exists e, r = inl e).
  { destruct r as [e|response]; [right; eauto|left].
    unfold mcp_server._run_generate_sql, tools.tool_generate_sql, sql_generator in *.
    unfold correction_prompt in Hrun.
    destruct feedback as [err|]; cbn [truthy].
    - destruct (String.eqb err "") eqn:Herr; cbn [negb];
        unfold try_except, bind, slice_prefix, run_skill, call, mcp_server.get_token;
        cbn [sliceable ret fst snd py_str]; rewrite Hrun; reflexivity.
    - unfold try_except, bind, run_skill, call, mcp_server.get_token;
        cbn [ret fst snd]; rewrite Hrun; reflexivity. }
  repeat split.
  - intros reply -> Ht. destruct Hshape as [Hshape|[e He]]; [|discriminate He].
    rewrite Hshape. unfold bind, call, try_except, method_get. cbn [ret].
    unfold dict_get in Ht. rewrite Ht. reflexivity.
  - intros reply -> Ht. destruct Hshape as [Hshape|[e He]]; [|discriminate He].
    rewrite Hshape. unfold bind, call, try_except, method_get. cbn [ret].
    unfold dict_get in Ht. rewrite Ht. reflexivity.
  - intros e ->.
    unfold mcp_server._run_generate_sql, tools.tool_generate_sql, sql_generator in *.
    unfold correction_prompt in Hrun.
    destruct feedback as [err|]; cbn [truthy].
    + destruct (String.eqb err "") eqn:Herr; cbn [negb];
        unfold try_except, bind, slice_prefix, run_skill, call, mcp_server.get_token;
        cbn [sliceable ret fst snd py_str]; rewrite Hrun; reflexivity.
    + unfold try_except, bind, run_skill, call, mcp_server.get_token;
        cbn [ret fst snd]; rewrite Hrun; reflexivity.
Qed.

End SqlTools.

(* ===================================================================== *)
(** * The chart tools *)
(* ===================================================================== *)

Section ChartTools.
Context {W : Type} (env : Env W).

(** X7: whatever the rendering pipeline raises surfaces as the turn's
    error, under its own message and without any retry; an image it
    returns is passed on with the row count and the size estimate of
    three quarters of the encoded length, in kilobytes. *)
Theorem chart_turn_passes_the_pipeline_outcome
        (query : pyval) (hs rs : list pyval) (message : string) (context : pydict)
        (s s' : State W) (r : exn + string) :
  let headers := VList hs in
  let rows := VList rs in
  let arguments := chart_arguments query headers rows in
  chart_service.generate_chart_image env (_token s) query headers rows
                                     (logged "generate_chart" arguments s)
  = (r, s') ->
  (forall e, r = inl e ->
     routes._execute_with_retry
       env {| tool := "generate_chart"; arguments := arguments |} message context s
     = (inr (Failed (str_exn e) "generate_chart"), s'))
  /\ (forall image, r = inr image ->
        routes._execute_with_retry
          env {| tool := "generate_chart"; arguments := arguments |} message context s
        = (inr {| response_type := CHART_IMAGE;
                  data := chart_payload image (List.length rs);
                  tool_used := "generate_chart";
                  success := true |}, s')).
Proof.
  cbv zeta. intros Hrender.
  assert (Htool :
    mcp_server.execute_tool env "generate_chart"
      (chart_arguments query (VList hs) (VList rs)) s
    = match r with
      | inl e => (inl (Exception "Exception" (str_exn e)), s')
      | inr image => (inr (chart_payload image (List.length rs)), s')
      end).
  { unfold mcp_server.execute_tool, bind at 1, mcp_server.log_tool_call.
    fold (logged "generate_chart" (chart_arguments query (VList hs) (VList rs)) s).
    cbn [mcp_server._TOOL_IMPLEMENTATIONS String.eqb Ascii.eqb Bool.eqb].
    unfold bind at 1, mcp_server.bind_kwargs, chart_arguments.
    cbn [List.find List.filter existsb app has_key lookup_item fst negb orb
         String.eqb Ascii.eqb Bool.eqb ret dict_get dict_get_or].
    unfold mcp_server._run_generate_chart, tools.tool_generate_chart,
      try_except, bind, len, mcp_server.get_token.
    cbn [py_len ret]. unfold chart_arguments in Hrender.
    change (_token (logged "generate_chart"
                      [("query", query); ("headers", VList hs); ("rows", VList rs)] s))
      with (_token s).
    rewrite Hrender. now destruct r. }
  split; intros; subst r;
    unfold routes._execute_with_retry, try_except, bind at 1;
    cbn [tool arguments]; rewrite Htool; reflexivity.
Qed.

(** X8: the classification step inside the chart pipeline degrades to
    a bar chart: when the classifier call raises [KernelException], and
    when its reply names no (or an empty) chart type, the step returns
    "bar"; a chart type named by the reply is returned as it is. *)
Theorem classify_step_defaults_to_bar
        (token : string) (query headers rows : pyval) (s : State W)
        (r : exn + pyval) (w' : W) :
  kernel_run env tools.classifier_skill token (classifier_input query headers rows)
             (world s) = (r, w') ->
  (forall status_code msg, r = inl (KernelException status_code msg) ->
     chart_service.classify_step env token query headers rows s
     = (inr (VStr "bar"), set_world w' s))
  /\ (forall reply, r = inr (VDict reply) ->
        truthy (dict_get reply "chart_type") = false ->
        chart_service.classify_step env token query headers rows s
        = (inr (VStr "bar"), set_world w' s))
  /\ (forall reply chart_type, r = inr (VDict reply) ->
        dict_get reply "chart_type" = VStr chart_type -> chart_type <> "" ->
        chart_service.classify_step env token query headers rows s
        = (inr (VStr chart_type), set_world w' s)).
Proof.
  intros Hrun. unfold classifier_input, tools.classifier_skill in Hrun.
  repeat split; intros; subst r;
    unfold chart_service.classify_step, try_except, bind, run_skill, call;
    rewrite Hrun; cbn [is_KernelException method_get ret]; try reflexivity.
  - unfold dict_get in *.
    match goal with H : truthy _ = false |- _ => rewrite H end. reflexivity.
  - unfold dict_get in *.
    match goal with H : dict_get_or _ _ _ = VStr _ |- _ => rewrite H end.
    cbn [truthy]. destruct (String.eqb_spec chart_type ""); [contradiction|].
    reflexivity.
Qed.


End ChartTools.

(* ===================================================================== *)
(** * What a render leaves in the file system *)
(* ===================================================================== *)

Section RenderFrame.
Context {W : Type} (env : Env W).

Lemma prefix_append (p s : string) : String.prefix p (p +:+ s) = true.
Proof. apply prefix_spec. now exists s. Qed.

Lemma path_join_under (d n : string) : under d (path_join d n) = true.
Proof.
  unfold under, path_join.
  replace (d +:+ "/" +:+ n) with ((d +:+ "/") +:+ n).
  - apply prefix_append.
  - induction d as [|c d IH]; [reflexivity|]. rewrite !append_cons. now rewrite IH.
Qed.

Lemma rmtree_outside (d p : string) (f : gmap string node) :
  p <> d -> under d p = false -> rmtree d f !! p = f !! p.
Proof.
  intros Hne Hout. unfold rmtree.
  destruct (f !! p) as [x|] eqn:Hp.
  - apply map_lookup_filter_Some. split; [exact Hp|]. now split.
  - apply map_lookup_filter_None. now left.
Qed.

(** X10: the pipeline writes only inside its workspace.  Once the
    chart code is acquired, the file system the child starts in is the
    one found but for the workspace and what lies below it, and the one
    the call leaves is the one the child left but for the workspace and
    what lies below it; without the chart code the file system is as
    found and no child runs. *)
Theorem render_touches_only_the_workspace
        (token : string) (query headers rows : pyval) (s : State W) :
  let s' := snd (chart_service.generate_chart_image env token query headers rows s) in
  (forall code s1,
     acquires env token query headers rows s code s1 ->
     exists d u w1 w2 run f,
       let start := staged env headers rows code (chart_id env query headers rows u)
                           d (fs s) in
       mkdtemp env (fs s) w1 = (d, w2)
       /\ spawn env [sys_executable env; path_join d "chart.py"] d start w2
          = ((run, f), world s')
       /\ children s' = children s ++ [(run, f)]
       /\ (forall p, p <> d -> under d p = false -> start !! p = fs s !! p)
       /\ (forall p, p <> d -> under d p = false -> fs s' !! p = f !! p))
  /\ ((forall code s1, ~ acquires env token query headers rows s code s1) ->
      fs s' = fs s /\ children s' = children s).
Proof.
  cbv zeta. split.
  - intros code s1 Hacq.
    rewrite (generate_chart_image_run env token query headers rows s code s1 Hacq).
    cbn [fst snd world children workspaces fs].
    set (u := fst (uuid4_hex env (world s1))).
    set (w1 := snd (uuid4_hex env (world s1))).
    set (d := fst (mkdtemp env (fs s) w1)).
    set (w2 := snd (mkdtemp env (fs s) w1)).
    set (child := spawn env _ d _ w2).
    exists d, u, w1, w2, (fst (fst child)), (snd (fst child)).
    split; [unfold d, w2; now destruct (mkdtemp env (fs s) w1)|].
    split; [subst child; now destruct (spawn env _ d _ _) as [[run f] w']|].
    split; [reflexivity|]. split.
    + intros p Hne Hout. unfold staged.
      rewrite !lookup_insert_ne; [reflexivity | congruence | |].
      * intros Heq. rewrite <- Heq, path_join_under in Hout. discriminate Hout.
      * intros Heq. rewrite <- Heq, path_join_under in Hout. discriminate Hout.
    + intros p Hne Hout. now apply rmtree_outside.
  - intros Hnot.
    destruct (generate_chart_image_stops env token query headers rows s Hnot)
      as (e & w & ->).
    split; reflexivity.
Qed.

End RenderFrame.

(** A child that draws the image: a path outside the workspace is, when
    the call returns, as the child left it. *)
Lemma render_touches_only_the_workspace_witness :
  exists run f,
    children (snd (renders.render renders.drawing)) = [(run, f)]
    /\ fs (snd (renders.render renders.drawing)) !! "/etc/passwd" = f !! "/etc/passwd".
Proof.
  destruct (proj1 (render_touches_only_the_workspace
                     (scripted.env renders.skills [] renders.drawing) "tok"
                     classifier_down.query classifier_down.headers
                     classifier_down.rows scripted.start)
                  _ _ (renders_acquire renders.drawing))
    as (d & u & w1 & w2 & run & f & Hmk & _ & Hchildren & _ & Hafter).
  cbn [mkdtemp scripted.env] in Hmk. injection Hmk as Hd _. subst d.
  exists run, f. split; [exact Hchildren|].
  apply Hafter; [discriminate | reflexivity].
Defined.

(* ===================================================================== *)
(** * The retry heuristic on texts *)
(* ===================================================================== *)

Lemma lower_append (a b : string) : lower (a +:+ b) = lower a +:+ lower b.
Proof.
  induction a as [|c a IH]; [reflexivity|].
  rewrite append_cons. cbn [lower]. rewrite append_cons. now rewrite IH.
Qed.

Lemma append_assoc (a b c : string) : (a +:+ b) +:+ c = a +:+ b +:+ c.
Proof.
  induction a as [|x a IH]; [reflexivity|]. rewrite !append_cons. now rewrite IH.
Qed.

(** X11: the retry heuristic looks anywhere in the text: an error text
    that embeds a retryable text is itself retryable, whatever stands
    before and after it, and the empty text is not retryable. *)
Theorem fixable_anywhere_in_the_text (error before after : string) :
  routes._is_fixable_sql_error "" = false
  /\ (routes._is_fixable_sql_error error = true ->
      routes._is_fixable_sql_error (before +:+ error +:+ after) = true).
Proof.
  split; [reflexivity|].
  rewrite !is_fixable_spec. intros (k & Hin & pre & post & Hk).
  exists k. split; [exact Hin|].
  exists (lower before +:+ pre), (post +:+ lower after).
  rewrite !lower_append, Hk, !append_assoc. reflexivity.
Qed.

(* ===================================================================== *)
(** * The cleaning loop, again *)
(* ===================================================================== *)

Section Cleaning.
Variable to_numeric : string -> option Q.


Lemma none_converted_all_na (cells : list (option string)) :
  converted to_numeric cells = 0%nat ->
  forallb data_preparation.isna (data_preparation.numeric_series to_numeric cells)
  = true.
Proof.
  unfold data_preparation.numeric_series, converted.
  induction cells as [|[t|] cells IH]; cbn [map forallb List.filter converts];
    [reflexivity| |exact IH].
  destruct (to_numeric t); cbn; [discriminate | exact IH].
Qed.







(** X13: a text column none of whose values converts (in particular an
    empty column, and a column of missing values only) stays text: the
    ratio is not even computed. *)
Theorem unconvertible_column_stays_text (cells : list (option string)) :
  converted to_numeric cells = 0%nat ->
  data_preparation.clean_column to_numeric (data_preparation.ObjectCol cells)
  = data_preparation.ObjectCol cells.
Proof.
  intros Hnone. unfold data_preparation.clean_column.
  now rewrite (none_converted_all_na cells Hnone).
Qed.

End Cleaning.

(* ===================================================================== *)
(** * What the router's reply does to a turn *)
(* ===================================================================== *)

Section RouterReply.
Context {W : Type} (env : Env W).

(** X14: the service acts on the router's reply as it stands.  A reply
    that names a tool and gives its arguments as an object becomes the
    decision, a missing [arguments] standing for no arguments; a reply
    without a [tool] stands for the tool named by the empty string, so
    the turn fails with "Unknown tool: " and no tool runs. *)
Theorem router_reply_is_taken_as_it_stands
        (token msg : string) (ctx reply : pydict) (s : State W) (w' : W) :
  kernel_run env routes.router_skill token
             (VDict (routes.router_input msg ctx)) (world s)
  = (inr (VDict reply), w') ->
  (forall tool_name args,
     lookup_item "tool" reply = Some (VStr tool_name) ->
     dict_get_or reply "arguments" (VDict []) = VDict args ->
     routes._get_tool_decision env token msg ctx s
     = (inr (Some {| tool := tool_name; arguments := args |}), set_world w' s))
  /\ (forall args,
        lookup_item "tool" reply = None ->
        dict_get_or reply "arguments" (VDict []) = VDict args ->
        routes.agent_endpoint env (inr (request msg ctx)) token s
        = (inr (Failed "Unknown tool: " ""),
           logged "" args (set_world w' (with_token token s)))).
Proof.
  intros Hrun.
  assert (Hdec : forall (s0 : State W) tool_name args,
             world s0 = world s ->
             dict_get_or reply "tool" (VStr "") = VStr tool_name ->
             dict_get_or reply "arguments" (VDict []) = VDict args ->
             routes._get_tool_decision env token msg ctx s0
             = (inr (Some {| tool := tool_name; arguments := args |}), set_world w' s0)).
  { intros s0 t a Hw Ht Ha.
    unfold routes._get_tool_decision, try_except, bind, run_skill, call.
    rewrite Hw, Hrun. cbn [method_get ret]. rewrite Ht, Ha. reflexivity. }
  split.
  - intros t a Ht Ha. apply Hdec; [reflexivity | | exact Ha].
    unfold dict_get_or. now rewrite Ht.
  - intros a Ht Ha.
    unfold routes.agent_endpoint, try_except, request.
    unfold bind at 1. cbn [of_sum ret].
    unfold bind at 1.
    cbn [routes.mk_AgentRequest lookup_item String.eqb Ascii.eqb Bool.eqb ret].
    unfold bind at 1. cbn [mcp_server.set_token].
    unfold bind at 1. cbn [message context].
    rewrite (Hdec (mkState (world s) (fs s) token (tool_calls s) (workspaces s)
                           (children s)) "" a eq_refl);
      [|unfold dict_get_or; now rewrite Ht | exact Ha].
    reflexivity.
Qed.

End RouterReply.

(* ===================================================================== *)
(** * HttpKernel *)
(* ===================================================================== *)

Section HttpKernelReturns.
Context {W : Type}.
Variable post : string -> pyval -> string -> W -> ((string * string) + kernel.Response) * W.
Variable msg_of : InterpError -> string.
Variable url : string.

(** X15: [HttpKernel.run] returns a value exactly when the answer to
    its post has a status below 400 and a body that is JSON, and the
    value is that JSON; it raises [KernelException], with the status and
    the body text, exactly when the status is 400 or more. *)
Theorem HttpKernel_run_outcomes (skill : Skill) (token : string) (input : pyval)
        (w w' : W) :
  (forall v,
        kernel.run post msg_of url skill token input w = (inr v, w')
        <-> exists response,
              post (kernel.endpoint url skill) input token w = (inr response, w')
              /\ (kernel.status_code response < 400)%Z
              /\ kernel.json response = Some v)
  /\ (forall status_code msg,
        kernel.run post msg_of url skill token input w
        = (inl (KernelException status_code msg), w')
        <-> exists response,
              post (kernel.endpoint url skill) input token w = (inr response, w')
              /\ (400 <= kernel.status_code response)%Z
              /\ status_code = kernel.status_code response
              /\ msg = kernel.text response).
Proof.
  unfold kernel.run.
  destruct (post _ input token w) as [[[cls m]|response] w1] eqn:Hpost.
  - split; intros; (split; [discriminate | intros (r & Hr & _); discriminate Hr]).
  - destruct (Z.leb_spec 400 (kernel.status_code response)) as [Hge|Hlt].
    + split.
      * intros v. split; [discriminate|].
        intros (r & Hr & Hlt & _). inversion Hr; subst. lia.
      * intros c m. split.
        -- intros H. inversion H; subst. now exists response.
        -- intros (r & Hr & _ & -> & ->). now inversion Hr; subst.
    + split.
      * intros v. split.
        -- destruct (kernel.json response) as [v'|] eqn:Hj; intros H; inversion H; subst.
           now exists response.
        -- intros (r & Hr & _ & Hj). inversion Hr; subst. now rewrite Hj.
      * intros c m. split.
        -- destruct (kernel.json response); discriminate.
        -- intros (r & Hr & Hge & _). inversion Hr; subst. lia.
Qed.

End HttpKernelReturns.

(* ===================================================================== *)
(** * The token of a request *)
(* ===================================================================== *)

(** X16: the token sent as "Bearer <token>" is the token [get_token]
    returns, whatever the environment holds; every header that does not
    start with "Bearer " (the test is case-sensitive, so "bearer " does
    not count) yields the environment's token, and without one the
    request is refused with status 400. *)
Theorem get_token_outcomes (token authorization : string) (environ : option string) :
  dependencies.get_token ("Bearer " +:+ token) environ = inr token
  /\ dependencies.get_token ("bearer " +:+ token) None
     = inl {| dependencies.status_code := 400;
              dependencies.detail := "Invalid authorization header" |}
  /\ (String.prefix "Bearer " authorization = false ->
      (forall fallback,
         dependencies.get_token authorization (Some fallback) = inr fallback)
      /\ dependencies.get_token authorization None
         = inl {| dependencies.status_code := 400;
                  dependencies.detail := "Invalid authorization header" |}).
Proof.
  split.
  { unfold dependencies.get_token.
    replace (String.prefix "Bearer " ("Bearer " +:+ token)) with true; [reflexivity|].
    symmetry. apply prefix_spec. now exists token. }
  split.
  { unfold dependencies.get_token.
    replace (String.prefix "Bearer " ("bearer " +:+ token)) with false; [reflexivity|].
    symmetry. apply not_true_iff_false. rewrite prefix_spec.
    intros [post H]. discriminate H. }
  intros Hprefix. unfold dependencies.get_token. rewrite Hprefix.
  split; [intros fallback|]; reflexivity.
Qed.

(* ===================================================================== *)
(** * Stripping and lowering *)
(* ===================================================================== *)

Section TextFacts.

Lemma lower_keeps_space (c : ascii) : Text.is_space (lower_ascii c) = Text.is_space c.
Proof. destruct c as [[] [] [] [] [] [] [] []]; reflexivity. Qed.

Lemma lstrip_lower (s : string) : Text.lstrip (lower s) = lower (Text.lstrip s).
Proof.
  induction s as [|c s IH]; [reflexivity|].
  cbn [lower Text.lstrip]. rewrite lower_keeps_space.
  destruct (Text.is_space c); [exact IH | reflexivity].
Qed.

Lemma lower_empty (s : string) : lower s = "" <-> s = "".
Proof. destruct s; split; intros H; try reflexivity; discriminate H. Qed.

Lemma rstrip_lower (s : string) : Text.rstrip (lower s) = lower (Text.rstrip s).
Proof.
  induction s as [|c s IH]; [reflexivity|].
  cbn [lower Text.rstrip]. rewrite IH, lower_keeps_space.
  destruct (Text.rstrip s) as [|c' k]; cbn [lower].
  - destruct (Text.is_space c); reflexivity.
  - reflexivity.
Qed.

Lemma strip_lower (s : string) : Text.strip (lower s) = lower (Text.strip s).
Proof. unfold Text.strip. now rewrite rstrip_lower, lstrip_lower. Qed.

Lemma lstrip_idem (s : string) : Text.lstrip (Text.lstrip s) = Text.lstrip s.
Proof.
  induction s as [|c s IH]; [reflexivity|].
  cbn [Text.lstrip]. destruct (Text.is_space c) eqn:Hc; [exact IH|].
  cbn [Text.lstrip]. now rewrite Hc.
Qed.

Lemma rstrip_idem (s : string) : Text.rstrip (Text.rstrip s) = Text.rstrip s.
Proof.
  induction s as [|c s IH]; [reflexivity|].
  cbn [Text.rstrip]. destruct (Text.rstrip s) as [|c' k] eqn:Hk.
  - destruct (Text.is_space c) eqn:Hc; [reflexivity|].
    cbn [Text.rstrip]. now rewrite Hc.
  - cbn [Text.rstrip] in *. now rewrite IH.
Qed.

Lemma rstrip_lstrip (t : string) :
  Text.rstrip t = t -> Text.rstrip (Text.lstrip t) = Text.lstrip t.
Proof.
  induction t as [|c t IH]; [reflexivity|].
  intros Ht. cbn [Text.lstrip]. destruct (Text.is_space c) eqn:Hc; [|exact Ht].
  apply IH. cbn [Text.rstrip] in Ht.
  destruct (Text.rstrip t) as [|c' k]; [now rewrite Hc in Ht | congruence].
Qed.

Lemma strip_idem (s : string) : Text.strip (Text.strip s) = Text.strip s.
Proof.
  unfold Text.strip.
  rewrite (rstrip_lstrip (Text.rstrip s) (rstrip_idem s)). apply lstrip_idem.
Qed.

Lemma prefix_cons (c c' : ascii) (p s : string) :
  String.prefix (String c p) (String c' s)
  = if Ascii.ascii_dec c c' then String.prefix p s else false.
Proof. reflexivity. Qed.

Lemma after_first_step (sep : string) (c : ascii) (s : string) :
  Text.after_first sep (String c s)
  = if String.prefix sep (String c s)
    then Some (Text.drop (String.length sep) (String c s))
    else Text.after_first sep s.
Proof. reflexivity. Qed.

(** Behind a text without "</", the first "</think>" is the one that
    follows it. *)
Lemma after_first_think (thinking answer : string) :
  contains "</" thinking = false ->
  Text.after_first "</think>" (thinking +:+ "</think>" +:+ answer) = Some answer.
Proof.
  induction thinking as [|c t IH]; intros Hno.
  - change ("" +:+ "</think>" +:+ answer) with (String "<" ("/think>" +:+ answer)).
    rewrite after_first_step.
    replace (String.prefix "</think>" (String "<" ("/think>" +:+ answer))) with true.
    + reflexivity.
    + symmetry. apply prefix_spec. now exists answer.
  - rewrite contains_cons in Hno. apply orb_false_iff in Hno as [Hp Hno].
    rewrite append_cons, after_first_step.
    replace (String.prefix "</think>" (String c (t +:+ "</think>" +:+ answer)))
      with false; [now apply IH|].
    symmetry. change "</think>" with (String "<" (String "/" "think>")).
    rewrite prefix_cons. destruct (Ascii.ascii_dec "<" c) as [<-|]; [|reflexivity].
    change "</" with (String "<" (String "/" "")) in Hp.
    destruct t as [|c2 t].
    + change ("" +:+ "</think>" +:+ answer) with (String "<" ("/think>" +:+ answer)).
      rewrite prefix_cons. now destruct (Ascii.ascii_dec "/" "<").
    + rewrite append_cons, prefix_cons.
      rewrite !prefix_cons in Hp.
      destruct (Ascii.ascii_dec "<" "<"); [|contradiction].
      destruct (Ascii.ascii_dec "/" c2); [|reflexivity].
      now destruct t.
Qed.

End TextFacts.

(* ===================================================================== *)
(** * The chart classifier skill *)
(* ===================================================================== *)

Section Classifier.
Variable chat : string -> string -> exn + string.
Variable json_dumps : pyval -> string.
Variable SYSTEM_PROMPT : string.
Variable render : string -> string -> string -> nat -> nat -> string.

(** X17: whatever the model answers, and when the call to it fails, the
    classifier skill names one of the five chart types. *)
Theorem classifier_names_a_valid_type (input : chart_classifier.Input) :
  In (chart_classifier.classify_chart_type chat json_dumps SYSTEM_PROMPT render input)
     chart_classifier.valid_types.
Proof.
  unfold chart_classifier.classify_chart_type.
  destruct (chat _ _) as [e|content]; [cbn; tauto|].
  destruct (String.eqb _ "" || _) eqn:Hcheck; [cbn; tauto|].
  apply orb_false_iff in Hcheck as [_ Hin].
  apply negb_false_iff, existsb_exists in Hin as (t & Hin & Heq).
  apply String.eqb_eq in Heq. now rewrite Heq.
Qed.

End Classifier.

(** X18: an answer that mentions a chart type, in any letter case and
    anywhere in the text, is read as a chart type it mentions, "bar"
    taking precedence over the others wherever they stand. *)
Theorem extract_chart_type_reads_a_mention (text chart_type : string) :
  Text.after_first "</think>" text = None ->
  In chart_type chart_classifier.valid_types ->
  contains chart_type (Text.strip (lower text)) = true ->
  In (chart_classifier.extract_chart_type text) chart_classifier.valid_types
  /\ contains (chart_classifier.extract_chart_type text) (Text.strip (lower text)) = true
  /\ (contains "bar" (Text.strip (lower text)) = true ->
      chart_classifier.extract_chart_type text = "bar").
Proof.
  intros Hthink Hin Hmention. unfold chart_classifier.extract_chart_type.
  rewrite Hthink.
  destruct (List.find _ chart_classifier.valid_types) as [t|] eqn:Hfind.
  - pose proof (find_some _ _ Hfind) as [Ht Hc]. split; [exact Ht|]. split; [exact Hc|].
    intros Hbar. unfold chart_classifier.valid_types in Hfind.
    cbn [List.find] in Hfind. rewrite Hbar in Hfind. congruence.
  - exfalso. pose proof (find_none _ _ Hfind chart_type Hin) as Hnone.
    cbn beta in Hnone. congruence.
Qed.

(** X19: what the model writes before "</think>" does not count: behind
    a thinking text without "</", the answer is read as if it stood
    alone. *)
Theorem extract_chart_type_skips_thinking (thinking answer : string) :
  contains "</" thinking = false ->
  Text.after_first "</think>" answer = None ->
  chart_classifier.extract_chart_type (thinking +:+ "</think>" +:+ answer)
  = chart_classifier.extract_chart_type answer.
Proof.
  intros Hthinking Hanswer. unfold chart_classifier.extract_chart_type.
  rewrite (after_first_think thinking answer Hthinking), Hanswer.
  now rewrite !strip_lower, strip_idem.
Qed.

(* ===================================================================== *)
(** * The tool-router skill *)
(* ===================================================================== *)

Section DictFacts.

Lemma lookup_dict_set_same (d : pydict) (k : string) (v : pyval) :
  lookup_item k (tool_router.dict_set d k v) = Some v.
Proof.
  induction d as [|[k' v'] d IH]; cbn.
  - now rewrite String.eqb_refl.
  - destruct (String.eqb k k') eqn:E; cbn; rewrite E; [reflexivity | exact IH].
Qed.

Lemma lookup_dict_set_other (d : pydict) (k k0 : string) (v : pyval) :
  k0 <> k ->
  lookup_item k0 (tool_router.dict_set d k v) = lookup_item k0 d.
Proof.
  intros Hne.
  assert (Hneq : String.eqb k0 k = false) by now apply String.eqb_neq.
  induction d as [|[k' v'] d IH]; cbn.
  - now rewrite Hneq.
  - destruct (String.eqb k k') eqn:E; cbn.
    + apply String.eqb_eq in E; subst k'. now rewrite Hneq.
    + now rewrite IH.
Qed.

Lemma lookup_app (d d' : pydict) (k : string) :
  lookup_item k (d ++ d')
  = match lookup_item k d with Some v => Some v | None => lookup_item k d' end.
Proof.
  induction d as [|[k' v'] d IH]; cbn; [reflexivity|].
  destruct (String.eqb k k'); [reflexivity | exact IH].
Qed.

Lemma has_key_dict_set (d : pydict) (k k0 : string) (v : pyval) :
  has_key (tool_router.dict_set d k v) k0 = String.eqb k0 k || has_key d k0.
Proof.
  unfold has_key.
  destruct (String.eqb k0 k) eqn:E.
  - apply String.eqb_eq in E; subst. now rewrite lookup_dict_set_same.
  - apply String.eqb_neq in E. now rewrite lookup_dict_set_other.
Qed.

Lemma has_key_dict_setdefault (d : pydict) (k k0 : string) (v : pyval) :
  has_key (tool_router.dict_setdefault d k v) k0 = String.eqb k0 k || has_key d k0.
Proof.
  unfold tool_router.dict_setdefault.
  destruct (has_key d k) eqn:Hk.
  - destruct (String.eqb k0 k) eqn:E; [|reflexivity].
    apply String.eqb_eq in E; subst. now rewrite Hk.
  - unfold has_key in *. rewrite lookup_app. cbn.
    destruct (String.eqb k0 k) eqn:E.
    + apply String.eqb_eq in E; subst.
      destruct (lookup_item k d); [discriminate | reflexivity].
    + destruct (lookup_item k0 d); reflexivity.
Qed.

Lemma truthy_has_value (d : pydict) (k : string) (default : pyval) :
  truthy (dict_get d k) = true -> dict_get_or d k default = dict_get d k.
Proof.
  unfold dict_get, dict_get_or.
  destruct (lookup_item k d); [reflexivity | discriminate].
Qed.

End DictFacts.

Section Router.
Variable chat : string -> exn + string.
Variable json_loads : string -> option pyval.
Variable py_repr : pyval -> string.
Variable interp_msg : InterpError -> string.
Variable hashable_slices : bool.

#[local] Abbreviation route_tool :=
  (tool_router.route_tool chat json_loads py_repr interp_msg hashable_slices).
#[local] Abbreviation scan := (tool_router.scan json_loads interp_msg).
#[local] Abbreviation complete := (tool_router.complete interp_msg).
#[local] Abbreviation chart_data := (tool_router.chart_data interp_msg).

Lemma bindE_inr {A B} (r : exn + A) (k : A -> exn + B) (b : B) :
  tool_router.bindE r k = inr b -> exists a, r = inr a /\ k a = inr b.
Proof. destruct r as [e|a]; cbn; [discriminate | eauto]. Qed.

Lemma setitem_inr (a : pyval) (k : string) (v a' : pyval) :
  tool_router.setitem interp_msg a k v = inr a' ->
  exists d, a = VDict d /\ a' = VDict (tool_router.dict_set d k v).
Proof. destruct a; cbn; try discriminate. intros [= <-]. eauto. Qed.

Lemma setdefault_inr (a : pyval) (k : string) (v a' : pyval) :
  tool_router.setdefault interp_msg a k v = inr a' ->
  exists d, a = VDict d /\ a' = VDict (tool_router.dict_setdefault d k v).
Proof. destruct a; cbn; try discriminate. intros [= <-]. eauto. Qed.

Lemma Output_inr (t a : pyval) (d : ToolRouterDecision) :
  tool_router.Output interp_msg t a = inr d ->
  t = VStr (tool d) /\ a = VDict (arguments d).
Proof.
  destruct t, a; cbn; try discriminate.
  intros [= <-]. split; reflexivity.
Qed.

(** With no text that parses, the loop ends without a decision. *)
Lemma scan_undecided (message : string) (context : option pydict) :
  (forall text, json_loads text = None) ->
  forall rest taken brace_count,
    scan message context taken rest brace_count = None.
Proof.
  intros Hjson rest.
  induction rest as [|c rest IH]; intros taken n; cbn; [reflexivity|].
  destruct (Ascii.eqb c "{"); [apply IH|].
  destruct (Ascii.eqb c "}"); [|apply IH].
  destruct (n - 1 =? 0)%Z; [|apply IH].
  rewrite Hjson. apply IH.
Qed.

(** Every decision of the loop is one made from a parsed text. *)
Lemma scan_decides (message : string) (context : option pydict) :
  forall rest taken brace_count outcome,
    scan message context taken rest brace_count = Some outcome ->
    exists decision, outcome = complete message context decision.
Proof.
  intros rest.
  induction rest as [|c rest IH]; intros taken n outcome; cbn; [discriminate|].
  destruct (Ascii.eqb c "{"); [apply IH|].
  destruct (Ascii.eqb c "}"); [|apply IH].
  destruct (n - 1 =? 0)%Z; [|apply IH].
  destruct (json_loads _) as [decision|]; [|apply IH].
  intros [= <-]. eauto.
Qed.

(** What [route_tool] returns is the fallback or a completed decision. *)
Lemma route_tool_cases (message : string) (context : option pydict)
      (d : ToolRouterDecision) :
  route_tool message context = inr d ->
  d = tool_router.fallback message context
  \/ exists decision, complete message context decision = inr d.
Proof.
  unfold tool_router.route_tool.
  intros H.
  apply bindE_inr in H as (parts & _ & H).
  apply bindE_inr in H as (reply & _ & H).
  destruct (tool_router.from_brace _) as [text|]; [|left; congruence].
  destruct (tool_router.scan _ _ _ _ _ _ _) as [outcome|] eqn:Hscan;
    [|left; congruence].
  apply scan_decides in Hscan as (decision & ->).
  right. eauto.
Qed.

End Router.

Section RouterDecisions.
Variable chat : string -> exn + string.
Variable json_loads : string -> option pyval.
Variable py_repr : pyval -> string.
Variable interp_msg : InterpError -> string.
Variable hashable_slices : bool.

#[local] Abbreviation route_tool :=
  (tool_router.route_tool chat json_loads py_repr interp_msg hashable_slices).
#[local] Abbreviation complete := (tool_router.complete interp_msg).
#[local] Abbreviation chart_data := (tool_router.chart_data interp_msg).

Lemma from_brace_drop (n : nat) (s : string) :
  tool_router.from_brace s = None -> tool_router.from_brace (Text.drop n s) = None.
Proof.
  revert s. induction n as [|n IH]; intros s H; [exact H|].
  destruct s as [|c s]; [reflexivity|].
  cbn in H |- *. destruct (Ascii.eqb c "{"); [discriminate | now apply IH].
Qed.

Lemma from_brace_lstrip (s : string) :
  tool_router.from_brace s = None -> tool_router.from_brace (Text.lstrip s) = None.
Proof.
  induction s as [|c s IH]; intros H; [reflexivity|].
  cbn [Text.lstrip]. destruct (Text.is_space c); [|exact H].
  cbn in H. destruct (Ascii.eqb c "{"); [discriminate | now apply IH].
Qed.

Lemma from_brace_rstrip (s : string) :
  tool_router.from_brace s = None -> tool_router.from_brace (Text.rstrip s) = None.
Proof.
  induction s as [|c s IH]; intros H; [reflexivity|].
  cbn in H. destruct (Ascii.eqb c "{") eqn:E; [discriminate|].
  specialize (IH H). cbn [Text.rstrip].
  destruct (Text.rstrip s) as [|c' kept].
  - destruct (Text.is_space c); cbn; [reflexivity | now rewrite E].
  - cbn [tool_router.from_brace]. rewrite E. exact IH.
Qed.

Lemma from_brace_after_first (sep s rest : string) :
  tool_router.from_brace s = None ->
  Text.after_first sep s = Some rest ->
  tool_router.from_brace rest = None.
Proof.
  induction s as [|c s IH]; intros H Hafter.
  - change (Text.after_first sep "")
      with (if String.prefix sep "" then Some (Text.drop (String.length sep) "")
            else None) in Hafter.
    destruct (String.prefix sep ""); [|discriminate].
    injection Hafter as <-. now apply from_brace_drop.
  - change (Text.after_first sep (String c s))
      with (if String.prefix sep (String c s)
            then Some (Text.drop (String.length sep) (String c s))
            else Text.after_first sep s) in Hafter.
    destruct (String.prefix sep (String c s)).
    + injection Hafter as <-. now apply from_brace_drop.
    + cbn in H. destruct (Ascii.eqb c "{"); [discriminate | now apply IH].
Qed.

(** A reply without a brace, or of which nothing parses, leaves the
    decision to the fallback. *)
Lemma route_tool_falls_back (message : string) (context : option pydict)
      (parts : list string) (reply : string) :
  tool_router.context_parts py_repr interp_msg hashable_slices context = inr parts ->
  chat (tool_router.user_prompt message parts) = inr reply ->
  tool_router.from_brace reply = None \/ (forall text, json_loads text = None) ->
  route_tool message context = inr (tool_router.fallback message context).
Proof.
  intros Hparts Hchat Hreply.
  unfold tool_router.route_tool. rewrite Hparts. cbn [tool_router.bindE].
  rewrite Hchat. cbn [tool_router.bindE].
  destruct Hreply as [Hbrace | Hjson].
  - assert (Hnone : tool_router.from_brace
                      match Text.after_first "</think>" reply with
                      | Some rest => Text.strip rest
                      | None => reply
                      end = None).
    { destruct (Text.after_first "</think>" reply) as [rest|] eqn:Hafter;
        [|exact Hbrace].
      apply from_brace_lstrip, from_brace_rstrip.
      exact (from_brace_after_first _ _ _ Hbrace Hafter). }
    now rewrite Hnone.
  - destruct (tool_router.from_brace _); [|reflexivity].
    now rewrite (scan_undecided json_loads interp_msg message context Hjson).
Qed.

(** X20: when the model's reply gives no decision, the skill decides by
    its own rule, which is the service's fallback rule except on a context
    with headers and no rows: there the service asks for a chart and the
    skill for a new query. *)
Theorem skill_and_service_fallbacks
        (message : string) (ctx : pydict) (parts : list string) (reply : string) :
  tool_router.context_parts py_repr interp_msg hashable_slices (Some ctx) = inr parts ->
  chat (tool_router.user_prompt message parts) = inr reply ->
  tool_router.from_brace reply = None \/ (forall text, json_loads text = None) ->
  exists d,
    route_tool message (Some ctx) = inr d
    /\ (d = local_rule message ctx
        <-> truthy (dict_get ctx "headers") = false
            \/ truthy (dict_get ctx "rows") = true)
    /\ (truthy (dict_get ctx "headers") = true ->
        truthy (dict_get ctx "rows") = false ->
        d = GenerateSQL message
        /\ tool (local_rule message ctx) = "generate_chart").
Proof.
  intros Hparts Hchat Hreply.
  exists (tool_router.fallback message (Some ctx)).
  split; [exact (route_tool_falls_back _ _ _ _ Hparts Hchat Hreply)|].
  unfold tool_router.fallback, tool_router.given, local_rule.
  destruct ctx as [|item items].
  { cbn. split; [split; [intros _; now left | reflexivity]|discriminate]. }
  set (ctx := item :: items).
  destruct (truthy (dict_get ctx "headers")) eqn:Hh;
    destruct (truthy (dict_get ctx "query")) eqn:Hq;
    destruct (truthy (dict_get ctx "rows")) eqn:Hr; cbn [andb negb];
    (split; [split|]); try discriminate; try reflexivity;
    try (intros _; now left); try (intros _; now right);
    try (intros [?|?]; discriminate);
    try (intros _; unfold GenerateChart;
         now rewrite (truthy_has_value ctx "rows" (VList []) Hr));
    try (intros _ _; split; reflexivity).
Qed.

Lemma chart_data_of_context (ctx : pydict) (a : pyval) (args : pydict) :
  ctx <> [] ->
  chart_data (Some ctx) a = inr (VDict args) ->
  lookup_item "query" args = Some (dict_get_or ctx "query" (VStr ""))
  /\ lookup_item "headers" args = Some (dict_get_or ctx "headers" (VList []))
  /\ lookup_item "rows" args = Some (dict_get_or ctx "rows" (VList [])).
Proof.
  intros Hctx. unfold tool_router.chart_data, tool_router.given.
  destruct ctx as [|item items]; [congruence|].
  intros H.
  apply bindE_inr in H as (a1 & H1 & H).
  apply bindE_inr in H as (a2 & H2 & H3).
  apply setitem_inr in H1 as (d0 & -> & ->).
  apply setitem_inr in H2 as (d1 & [= <-] & ->).
  apply setitem_inr in H3 as (d2 & [= <-] & [= ->]).
  repeat split.
  - rewrite !lookup_dict_set_other by discriminate. apply lookup_dict_set_same.
  - rewrite lookup_dict_set_other by discriminate. apply lookup_dict_set_same.
  - apply lookup_dict_set_same.
Qed.

Lemma chart_data_keys (context : option pydict) (a : pyval) (args : pydict) :
  chart_data context a = inr (VDict args) ->
  has_key args "query" = true /\ has_key args "headers" = true
  /\ has_key args "rows" = true.
Proof.
  unfold tool_router.chart_data.
  destruct (tool_router.given context) as [ctx|]; intros H;
    apply bindE_inr in H as (a1 & H1 & H);
    apply bindE_inr in H as (a2 & H2 & H3).
  - apply setitem_inr in H1 as (d0 & -> & ->).
    apply setitem_inr in H2 as (d1 & [= <-] & ->).
    apply setitem_inr in H3 as (d2 & [= <-] & [= ->]).
    rewrite !has_key_dict_set. cbn. repeat split; reflexivity.
  - apply setdefault_inr in H1 as (d0 & -> & ->).
    apply setdefault_inr in H2 as (d1 & [= <-] & ->).
    apply setdefault_inr in H3 as (d2 & [= <-] & [= ->]).
    rewrite !has_key_dict_setdefault. cbn. repeat split; reflexivity.
Qed.

(** The branch a completed decision went through, by its tool. *)
Lemma complete_inr (message : string) (context : option pydict)
      (decision : pyval) (d : ToolRouterDecision) :
  complete message context decision = inr d ->
  exists a : pyval,
    (if String.eqb (tool d) "generate_chart" then chart_data context a
     else if String.eqb (tool d) "execute_sql" then
       tool_router.bindE (tool_router.not_in interp_msg "query" a)
         (fun missing =>
            if missing
            then tool_router.setitem interp_msg a "query"
                   match tool_router.given context with
                   | Some ctx => dict_get_or ctx "query" (VStr "")
                   | None => VStr ""
                   end
            else inr a)
     else if String.eqb (tool d) "generate_sql" then
       tool_router.bindE (tool_router.not_in interp_msg "question" a)
         (fun missing =>
            if missing then tool_router.setitem interp_msg a "question" (VStr message)
            else inr a)
     else if String.eqb (tool d) "classify_chart_type" then chart_data context a
     else inr a) = inr (VDict (arguments d)).
Proof.
  unfold tool_router.complete.
  destruct decision as [| | | | | |dd]; try discriminate.
  intros H. apply bindE_inr in H as (a' & H & Hout).
  apply Output_inr in Hout as [Htool ->].
  rewrite Htool in H. cbn [tool_router.is_tool] in H.
  eexists. exact H.
Qed.

(** X21: whatever the model answers, a chart or classification decision
    of the skill on a non-empty context carries the query, the headers
    and the rows of that context (their defaults where the context has
    none), never the model's. *)
Theorem chart_decisions_carry_the_context
        (message : string) (ctx : pydict) (d : ToolRouterDecision) :
  ctx <> [] ->
  route_tool message (Some ctx) = inr d ->
  tool d = "generate_chart" \/ tool d = "classify_chart_type" ->
  lookup_item "query" (arguments d) = Some (dict_get_or ctx "query" (VStr ""))
  /\ lookup_item "headers" (arguments d) = Some (dict_get_or ctx "headers" (VList []))
  /\ lookup_item "rows" (arguments d) = Some (dict_get_or ctx "rows" (VList [])).
Proof.
  intros Hctx Hroute Htool.
  apply route_tool_cases in Hroute as [-> | (decision & Hdone)].
  - unfold tool_router.fallback, tool_router.given in *.
    destruct ctx as [|item items]; [congruence|].
    set (ctx := item :: items) in *.
    destruct (truthy (dict_get ctx "query") && negb (truthy (dict_get ctx "headers")));
      [destruct Htool as [H|H]; discriminate H|].
    destruct (truthy (dict_get ctx "headers")) eqn:Hh;
      [|destruct Htool as [H|H]; discriminate H].
    destruct (truthy (dict_get ctx "rows")) eqn:Hr;
      [|destruct Htool as [H|H]; discriminate H].
    cbn. rewrite (truthy_has_value ctx "headers" (VList []) Hh).
    rewrite (truthy_has_value ctx "rows" (VList []) Hr).
    repeat split; reflexivity.
  - apply complete_inr in Hdone as (a & H).
    destruct Htool as [Ht | Ht]; rewrite Ht in H; cbn in H;
      exact (chart_data_of_context ctx a _ Hctx H).
Qed.

Lemma ensured_key (k : string) (v a : pyval) (args : pydict) :
  tool_router.bindE (tool_router.not_in interp_msg k a)
    (fun missing =>
       if missing then tool_router.setitem interp_msg a k v else inr a)
  = inr (VDict args) ->
  has_key args k = true.
Proof.
  intros H. apply bindE_inr in H as (missing & Hin & H).
  destruct missing.
  - apply setitem_inr in H as (d0 & -> & [= ->]).
    rewrite has_key_dict_set, String.eqb_refl. reflexivity.
  - injection H as ->. cbn in Hin. injection Hin as Hin.
    now apply negb_false_iff in Hin.
Qed.

(** X22: a decision of the skill for one of the service's tools names
    every argument that tool requires, whatever the model left out. *)
Theorem skill_decisions_name_the_required_arguments
        (message : string) (context : option pydict) (d : ToolRouterDecision)
        (fn : string) (required optional : list string) :
  route_tool message context = inr d ->
  signature (tool d) = Some (fn, required, optional) ->
  forallb (has_key (arguments d)) required = true.
Proof.
  intros Hroute Hsig.
  apply route_tool_cases in Hroute as [-> | (decision & Hdone)].
  - unfold tool_router.fallback in Hsig |- *.
    destruct (tool_router.given context) as [ctx|].
    + destruct (truthy (dict_get ctx "query") && negb (truthy (dict_get ctx "headers")));
        [cbn in Hsig |- *; injection Hsig as <- <- <-; reflexivity|].
      destruct (truthy (dict_get ctx "headers") && truthy (dict_get ctx "rows"));
        cbn in Hsig |- *; injection Hsig as <- <- <-; reflexivity.
    + cbn in Hsig |- *. injection Hsig as <- <- <-. reflexivity.
  - apply complete_inr in Hdone as (a & H).
    unfold signature in Hsig.
    destruct (String.eqb (tool d) "generate_sql") eqn:E1.
    { injection Hsig as <- <- <-.
      apply String.eqb_eq in E1. rewrite E1 in H. cbn in H.
      cbn [forallb]. rewrite (ensured_key _ _ _ _ H). reflexivity. }
    destruct (String.eqb (tool d) "execute_sql") eqn:E2.
    { injection Hsig as <- <- <-.
      apply String.eqb_eq in E2. rewrite E2 in H. cbn in H.
      cbn [forallb]. rewrite (ensured_key _ _ _ _ H). reflexivity. }
    destruct (String.eqb (tool d) "classify_chart_type") eqn:E3.
    { injection Hsig as <- <- <-.
      apply String.eqb_eq in E3. rewrite E3 in H. cbn in H.
      apply chart_data_keys in H as (Hq & Hh & Hr).
      cbn [forallb]. now rewrite Hq, Hh, Hr. }
    destruct (String.eqb (tool d) "generate_chart") eqn:E4; [|discriminate].
    injection Hsig as <- <- <-.
    cbv beta iota in H.
    apply chart_data_keys in H as (Hq & Hh & Hr).
    cbn [forallb]. now rewrite Hq, Hh, Hr.
Qed.

End RouterDecisions.

Section RouterContext.
Variable chat : string -> exn + string.
Variable json_loads : string -> option pyval.
Variable py_repr : pyval -> string.
Variable interp_msg : InterpError -> string.
Variable hashable_slices : bool.

(** X27: a context of the wrong shape fails the skill before the model
    is asked, whatever the model would answer: a truthy query that cannot
    be sliced (a number, [True], a dict) raises, and so do truthy rows
    without a length beside truthy headers and a query that raises
    nothing. *)
Theorem ill_typed_context_fails_the_router (message : string) (ctx : pydict) :
  (truthy (dict_get ctx "query") = true ->
   sliceable (dict_get ctx "query") = false ->
   exists cls msg,
     tool_router.route_tool chat json_loads py_repr interp_msg hashable_slices
                            message (Some ctx)
     = inl (Exception cls msg)
     /\ (cls = "TypeError" \/ cls = "KeyError"))
  /\ (sliceable (dict_get ctx "query") = true \/ truthy (dict_get ctx "query") = false ->
      truthy (dict_get ctx "headers") = true ->
      truthy (dict_get ctx "rows") = true ->
      py_len (dict_get ctx "rows") = None ->
      tool_router.route_tool chat json_loads py_repr interp_msg hashable_slices
                             message (Some ctx)
      = inl (Exception "TypeError" (interp_msg (NoLen (dict_get ctx "rows"))))).
Proof.
  unfold tool_router.route_tool, tool_router.context_parts, tool_router.given.
  destruct ctx as [|item items].
  { split; [discriminate|]. intros _ H. discriminate H. }
  set (ctx := item :: items).
  split.
  - intros Hq Hslice. rewrite Hq.
    destruct (dict_get ctx "query") eqn:Hv; try discriminate Hslice;
      cbn; try (do 2 eexists; split; [reflexivity | now left]).
    destruct hashable_slices; cbn; do 2 eexists;
      (split; [reflexivity|]); [now right | now left].
  - intros Hq Hh Hr Hlen. rewrite Hh, Hr. cbn [andb].
    unfold tool_router.len_text. rewrite Hlen.
    destruct (truthy (dict_get ctx "query")) eqn:Ht.
    + destruct Hq as [Hq | Hq]; [|discriminate Hq].
      destruct (dict_get ctx "query"); try discriminate Hq; reflexivity.
    + reflexivity.
Qed.

End RouterContext.

(* ===================================================================== *)
(** * The SQL skill: what is read out of the model's reply *)
(* ===================================================================== *)

Section LineFacts.

Lemma prefix_empty (s : string) : String.prefix "" s = true.
Proof. now destruct s. Qed.

Lemma contains_char_cons (c a : ascii) (s : string) :
  contains (String c "") (String a s) = Ascii.eqb c a || contains (String c "") s.
Proof.
  rewrite contains_cons, prefix_cons, prefix_empty.
  destruct (Ascii.ascii_dec c a) as [<-|Hne].
  - now rewrite Ascii.eqb_refl.
  - apply Ascii.eqb_neq in Hne. now rewrite Hne.
Qed.

Lemma contains_char_app (c : ascii) (a b : string) :
  contains (String c "") (a +:+ b)
  = contains (String c "") a || contains (String c "") b.
Proof.
  induction a as [|x a IH]; [reflexivity|].
  rewrite append_cons, !contains_char_cons, IH. now rewrite orb_assoc.
Qed.

Lemma drop_app (w rest : string) : Text.drop (String.length w) (w +:+ rest) = rest.
Proof. induction w as [|c w IH]; [reflexivity | exact IH]. Qed.

(** A text that begins with a white-space character is that character
    and what follows it. *)
Lemma after_space_split (s rest : string) :
  Lines.after_space s = Some rest ->
  exists w, In w Lines.white_space /\ s = w +:+ rest.
Proof.
  unfold Lines.after_space.
  destruct (List.find _ Lines.white_space) as [w|] eqn:Hfind; [|discriminate].
  intros [= <-]. apply find_some in Hfind as [Hin Hprefix].
  apply prefix_spec in Hprefix as [post ->].
  exists w. split; [exact Hin|]. now rewrite drop_app.
Qed.

(** What [lstrip] returns is the end of the text. *)
Lemma lstrip_fuel_suffix (fuel : nat) (s : string) :
  exists removed, s = removed +:+ Lines.lstrip_fuel fuel s.
Proof.
  revert s. induction fuel as [|fuel IH]; intros s; [now exists ""|].
  cbn [Lines.lstrip_fuel].
  destruct (Lines.after_space s) as [rest|] eqn:Hspace; [|now exists ""].
  apply after_space_split in Hspace as (w & _ & ->).
  destruct (IH rest) as [removed Hrest].
  exists (w +:+ removed). rewrite append_assoc. now rewrite <- Hrest.
Qed.

(** What [rstrip] returns is the beginning of the text. *)
Lemma rstrip_prefix (s : string) : exists removed, s = Lines.rstrip s +:+ removed.
Proof.
  induction s as [|c s [removed IH]]; [now exists ""|].
  cbn [Lines.rstrip].
  destruct (existsb _ Lines.white_space).
  - now exists (String c s).
  - exists removed. rewrite append_cons. now rewrite <- IH.
Qed.

Lemma strip_keeps_out (c : ascii) (s : string) :
  contains (String c "") s = false -> contains (String c "") (Lines.strip s) = false.
Proof.
  intros H. unfold Lines.strip, Lines.lstrip.
  destruct (rstrip_prefix s) as [behind Hs].
  destruct (lstrip_fuel_suffix (String.length (Lines.rstrip s)) (Lines.rstrip s))
    as [before Hkept].
  rewrite Hs, Hkept, !contains_char_app in H.
  apply orb_false_iff in H as [H _]. now apply orb_false_iff in H as [_ H].
Qed.

Lemma rstrip_dots_keeps_out (c : ascii) (s : string) :
  contains (String c "") s = false ->
  contains (String c "") (Lines.rstrip_dots s) = false.
Proof.
  induction s as [|a s IH]; intros H; [exact H|].
  rewrite contains_char_cons in H. apply orb_false_iff in H as [Ha H].
  specialize (IH H). cbn [Lines.rstrip_dots].
  destruct (Lines.rstrip_dots s) as [|a' k].
  - destruct (Ascii.eqb a "."); [reflexivity|].
    rewrite contains_char_cons, Ha. reflexivity.
  - rewrite contains_char_cons, Ha. exact IH.
Qed.

(** No line of a text holds a line break. *)
Lemma split_lines_single (s : string) :
  Forall (fun line => contains nl line = false) (Lines.split_lines s).
Proof.
  induction s as [|c s IH]; [now repeat constructor|].
  cbn [Lines.split_lines].
  destruct (Ascii.eqb c Lines.newline) eqn:Hc.
  - constructor; [reflexivity | exact IH].
  - destruct (Lines.split_lines s) as [|line more].
    + constructor; [|constructor].
      unfold nl. rewrite contains_char_cons.
      rewrite Ascii.eqb_sym. fold Lines.newline. now rewrite Hc.
    + inversion IH as [|? ? Hline Hmore]; subst.
      constructor; [|exact Hmore].
      unfold nl in *. rewrite contains_char_cons.
      rewrite Ascii.eqb_sym. fold Lines.newline. now rewrite Hc.
Qed.

Lemma lines_of_single (text : string) :
  Forall (fun line => contains nl line = false) (qa.lines_of text).
Proof.
  unfold qa.lines_of.
  apply List.Forall_forall. intros line Hin.
  apply filter_In in Hin as [Hin _].
  apply in_map_iff in Hin as (raw & <- & Hin).
  apply strip_keeps_out.
  exact (proj1 (List.Forall_forall _ _) (split_lines_single _) raw Hin).
Qed.

Lemma concat_single (c : ascii) (sep : string) (ls : list string) :
  contains (String c "") sep = false ->
  Forall (fun line => contains (String c "") line = false) ls ->
  contains (String c "") (String.concat sep ls) = false.
Proof.
  intros Hsep Hls.
  induction Hls as [|line more Hline Hmore IH]; [reflexivity|].
  cbn [String.concat]. destruct more as [|next more]; [exact Hline|].
  rewrite !contains_char_app, Hline, Hsep. exact IH.
Qed.

Lemma continuation_incl (P : string -> Prop) (ls : list string) :
  Forall P ls -> Forall P (qa.continuation ls).
Proof.
  induction 1 as [|line more Hline Hmore IH]; [constructor|].
  cbn [qa.continuation].
  destruct (_ || _ || _); [constructor|].
  destruct (Lines.ends_with ";" line); repeat constructor; assumption.
Qed.

(** The line the outer loop stops at starts with SELECT, and it and the
    lines behind it are lines of the text. *)
Lemma last_select_found (ls : list string) (line : string) (behind : list string) :
  qa.last_select ls = Some (line, behind) ->
  qa.starts_select line = true
  /\ exists before, ls = before ++ line :: behind.
Proof.
  revert line behind.
  induction ls as [|l more IH]; intros line behind H; [discriminate|].
  cbn [qa.last_select] in H.
  destruct (qa.last_select more) as [[line' behind']|].
  - injection H as -> ->.
    destruct (IH _ _ eq_refl) as (Hs & before & ->).
    split; [exact Hs|]. now exists (l :: before).
  - destruct (qa.starts_select l) eqn:Hl; [|discriminate].
    injection H as -> ->. split; [exact Hl|]. now exists [].
Qed.

Lemma last_select_none (ls : list string) :
  qa.last_select ls = None <-> existsb qa.starts_select ls = false.
Proof.
  induction ls as [|l more IH]; [easy|].
  cbn [qa.last_select existsb].
  destruct (qa.last_select more) as [[line' behind']|].
  - split; [discriminate|].
    intros H. apply orb_false_iff in H as [_ H]. apply IH in H. discriminate.
  - rewrite (proj1 IH eq_refl), orb_false_r.
    destruct (qa.starts_select l); split; congruence.
Qed.

Lemma last_char_snoc (s : string) (c : ascii) :
  Lines.last_char (s +:+ String c "") = Some c.
Proof.
  induction s as [|a s IH]; [reflexivity|].
  rewrite append_cons.
  destruct s as [|b s]; [reflexivity|].
  rewrite append_cons in *. exact IH.
Qed.

Lemma rstrip_dots_cons (c : ascii) (s : string) :
  c <> "."%char ->
  Lines.rstrip_dots (String c s) = String c (Lines.rstrip_dots s).
Proof.
  intros Hc. cbn [Lines.rstrip_dots].
  destruct (Lines.rstrip_dots s); [|reflexivity].
  apply Ascii.eqb_neq in Hc. now rewrite Hc.
Qed.

Lemma rstrip_dots_app (w s : string) :
  contains "." w = false ->
  Lines.rstrip_dots (w +:+ s) = w +:+ Lines.rstrip_dots s.
Proof.
  induction w as [|c w IH]; intros Hw; [reflexivity|].
  rewrite contains_char_cons in Hw. apply orb_false_iff in Hw as [Hc Hw].
  rewrite !append_cons, rstrip_dots_cons, (IH Hw); [reflexivity|].
  intros ->. discriminate Hc.
Qed.

(** The beginning of a word whose characters hold no dot survives the
    stripping of the dots at the end of a longer text. *)
Lemma starts_upper_kept (letters : list (list string)) (s t : string) :
  forallb (forallb (fun w => negb (contains "." w))) letters = true ->
  Lines.starts_upper letters s = true ->
  Lines.starts_upper letters (Lines.rstrip_dots (s +:+ t)) = true.
Proof.
  revert s. induction letters as [|alternatives more IH]; intros s Hdots Hs;
    [reflexivity|].
  cbn [forallb] in Hdots. apply andb_true_iff in Hdots as [Halt Hmore].
  cbn [Lines.starts_upper] in Hs |- *.
  apply existsb_exists in Hs as (w & Hin & Hw).
  apply andb_true_iff in Hw as [Hprefix Hrest].
  apply prefix_spec in Hprefix as [rest ->]. rewrite drop_app in Hrest.
  assert (Hdot : contains "." w = false).
  { apply negb_true_iff. exact (proj1 (forallb_forall _ _) Halt w Hin). }
  apply existsb_exists. exists w. split; [exact Hin|].
  rewrite append_assoc, (rstrip_dots_app w (rest +:+ t) Hdot).
  rewrite prefix_append, drop_app. now apply IH.
Qed.

Lemma starts_upper_app (letters : list (list string)) (s t : string) :
  Lines.starts_upper letters s = true ->
  Lines.starts_upper letters (s +:+ t) = true.
Proof.
  revert s. induction letters as [|alternatives more IH]; intros s Hs; [reflexivity|].
  cbn [Lines.starts_upper] in Hs |- *.
  apply existsb_exists in Hs as (w & Hin & Hw).
  apply andb_true_iff in Hw as [Hprefix Hrest].
  apply prefix_spec in Hprefix as [rest ->]. rewrite drop_app in Hrest.
  apply existsb_exists. exists w. split; [exact Hin|].
  rewrite append_assoc, prefix_append, drop_app. now apply IH.
Qed.

Lemma concat_head (sep line : string) (more : list string) :
  exists tail, String.concat sep (line :: more) = line +:+ tail.
Proof.
  destruct more as [|next more].
  - exists "". cbn. induction line as [|c l IH]; [reflexivity|].
    rewrite append_cons. now rewrite <- IH.
  - eexists. reflexivity.
Qed.

End LineFacts.

(** X23: where a line of the model's reply, its thinking blocks
    removed, starts with SELECT once put in upper case, the text
    extracted is one statement: its uppercase starts with SELECT, it
    ends with a semicolon and it holds no line break.  Where no line
    does, it is the reply, stripped, without its thinking blocks. *)
Theorem extract_sql_text_gives_one_statement (sql_text : string) :
  (existsb qa.starts_select (qa.lines_of (Lines.remove_thinking sql_text)) = true ->
   qa.starts_select (qa.extract_sql_text sql_text) = true
   /\ Lines.ends_with ";" (qa.extract_sql_text sql_text) = true
   /\ contains nl (qa.extract_sql_text sql_text) = false)
  /\ (existsb qa.starts_select (qa.lines_of (Lines.remove_thinking sql_text)) = false ->
      qa.extract_sql_text sql_text = Lines.strip (Lines.remove_thinking sql_text)).
Proof.
  unfold qa.extract_sql_text.
  pose proof (lines_of_single (Lines.remove_thinking sql_text)) as Hsingle.
  destruct (qa.last_select _) as [[line behind]|] eqn:Hlast.
  - split; [intros _ | intros Hnone; apply last_select_none in Hnone; congruence].
    apply last_select_found in Hlast as (Hselect & before & Hlines).
    rewrite Hlines in Hsingle.
    apply List.Forall_app in Hsingle as [_ Hsingle].
    inversion Hsingle as [|? ? Hline Hbehind]; subst.
    assert (Hq : contains nl (Lines.rstrip_dots
                                (String.concat " " (line :: qa.continuation behind)))
                 = false).
    { apply rstrip_dots_keeps_out, concat_single; [reflexivity|].
      constructor; [exact Hline | now apply continuation_incl]. }
    assert (Hs : qa.starts_select
                   (Lines.rstrip_dots
                      (String.concat " " (line :: qa.continuation behind))) = true).
    { destruct (concat_head " " line (qa.continuation behind)) as [tail ->].
      apply starts_upper_kept; [reflexivity | exact Hselect]. }
    destruct (Lines.ends_with ";" _) eqn:Hend; [now repeat split|].
    split; [|split].
    + now apply starts_upper_app.
    + unfold Lines.ends_with. now rewrite last_char_snoc.
    + unfold nl in *. now rewrite contains_char_app, Hq.
  - split; [|reflexivity].
    intros Hsome. apply last_select_none in Hlast. congruence.
Qed.

(** A reply that begins with a no-break space, and one that begins with
    a long s. *)
Example extract_sql_text_beyond_ascii :
  qa.extract_sql_text (Lines.encoded [194; 160] +:+ "select 1") = "select 1;"
  /\ qa.extract_sql_text (Lines.encoded [197; 191] +:+ "elect 1" +:+ nl)
     = Lines.encoded [197; 191] +:+ "elect 1;".
Proof. split; vm_compute; reflexivity. Qed.

Section Thinking.

Lemma drop_length (n : nat) (s : string) :
  String.length (Text.drop n s) = (String.length s - n)%nat.
Proof.
  revert s. induction n as [|n IH]; intros s; cbn [Text.drop].
  - now rewrite Nat.sub_0_r.
  - destruct s as [|c s]; [reflexivity|]. cbn [String.length]. apply IH.
Qed.

Lemma after_space_shorter (s rest : string) :
  Lines.after_space s = Some rest -> (String.length rest < String.length s)%nat.
Proof.
  intros Hspace. apply after_space_split in Hspace as (w & Hin & ->).
  assert (Hw : negb (String.eqb w "") = true).
  { assert (Hall : forallb (fun w => negb (String.eqb w "")) Lines.white_space = true)
      by reflexivity.
    exact (proj1 (forallb_forall _ _) Hall w Hin). }
  rewrite append_length. destruct w; [discriminate Hw | cbn [String.length]; lia].
Qed.

(** The fuel of [lstrip] is enough: any amount from the length of the
    text on gives the same result. *)
Lemma lstrip_fuel_enough (fuel : nat) (s : string) :
  (String.length s <= fuel)%nat -> Lines.lstrip_fuel fuel s = Lines.lstrip s.
Proof.
  unfold Lines.lstrip.
  assert (Hany : forall fuel fuel' s,
             (String.length s <= fuel)%nat -> (String.length s <= fuel')%nat ->
             Lines.lstrip_fuel fuel s = Lines.lstrip_fuel fuel' s).
  { clear fuel s. induction fuel as [|fuel IH]; intros fuel' s H H'.
    - destruct s; [|cbn in H; lia]. destruct fuel'; reflexivity.
    - destruct fuel' as [|fuel'].
      + destruct s; [reflexivity | cbn in H'; lia].
      + cbn [Lines.lstrip_fuel].
        destruct (Lines.after_space s) as [rest|] eqn:Hspace; [|reflexivity].
        apply after_space_shorter in Hspace. apply IH; lia. }
  intros H. now apply Hany.
Qed.

Lemma after_first_length (sep s behind : string) :
  Text.after_first sep s = Some behind ->
  (String.length behind <= String.length s)%nat.
Proof.
  induction s as [|c s IH]; intros H.
  - change (Text.after_first sep "")
      with (if String.prefix sep "" then Some (Text.drop (String.length sep) "")
            else None) in H.
    destruct (String.prefix sep ""); [|discriminate].
    injection H as <-. rewrite drop_length. lia.
  - rewrite after_first_step in H.
    destruct (String.prefix sep (String c s)).
    + injection H as <-. rewrite drop_length. lia.
    + specialize (IH H). cbn [String.length]. lia.
Qed.

(** The fuel is enough: any amount from the length of the text on gives
    the same result. *)
Lemma without_thinking_fuel (fuel fuel' : nat) (s : string) :
  (String.length s <= fuel)%nat -> (String.length s <= fuel')%nat ->
  Lines.without_thinking fuel s = Lines.without_thinking fuel' s.
Proof.
  revert fuel' s. induction fuel as [|fuel IH]; intros fuel' s H H'.
  - destruct s; [|cbn in H; lia]. now destruct fuel'.
  - destruct s as [|c s]; [now destruct fuel'|].
    destruct fuel' as [|fuel']; [cbn in H'; lia|].
    cbn [String.length] in H, H'.
    cbn [Lines.without_thinking].
    destruct (String.prefix "<think>" (String c s)).
    + destruct (Text.after_first "</think>" (Text.drop 7 (String c s)))
        as [behind|] eqn:Hbehind; [|reflexivity].
      apply after_first_length in Hbehind.
      change (Text.drop 7 (String c s)) with (Text.drop 6 s) in Hbehind.
      rewrite drop_length in Hbehind.
      apply IH; lia.
    + f_equal. apply IH; lia.
Qed.

Lemma remove_thinking_skips (thinking answer : string) :
  contains "</" thinking = false ->
  Lines.remove_thinking ("<think>" +:+ thinking +:+ "</think>" +:+ answer)
  = Lines.remove_thinking answer.
Proof.
  intros Hthinking. unfold Lines.remove_thinking.
  set (text := "<think>" +:+ thinking +:+ "</think>" +:+ answer).
  assert (Hlen : String.length text
                 = S (14 + String.length thinking + String.length answer)).
  { unfold text. rewrite !append_length. cbn [String.length]. lia. }
  rewrite Hlen. unfold text.
  change ("<think>" +:+ thinking +:+ "</think>" +:+ answer)
    with (String "<" ("think>" +:+ thinking +:+ "</think>" +:+ answer)).
  cbn [Lines.without_thinking].
  replace (String.prefix "<think>"
             (String "<" ("think>" +:+ thinking +:+ "</think>" +:+ answer)))
    with true by (symmetry; apply prefix_spec; now eexists).
  change (Text.drop 7 (String "<" ("think>" +:+ thinking +:+ "</think>" +:+ answer)))
    with (thinking +:+ "</think>" +:+ answer).
  rewrite (after_first_think thinking answer Hthinking).
  apply without_thinking_fuel; lia.
Qed.

End Thinking.

(** X24: a thinking block at the head of the reply does not count: the
    text extracted is the one extracted from what follows the block, even
    where the block holds statements of its own. *)
Theorem extract_sql_text_skips_thinking (thinking answer : string) :
  contains "</" thinking = false ->
  qa.extract_sql_text ("<think>" +:+ thinking +:+ "</think>" +:+ answer)
  = qa.extract_sql_text answer.
Proof.
  intros Hthinking. unfold qa.extract_sql_text.
  now rewrite (remove_thinking_skips thinking answer Hthinking).
Qed.

Section CustomRag.
Variable DocumentPath : Type.
Variable search : string -> exn + list (qa.SearchResult DocumentPath).
Variable document_metadata : DocumentPath -> exn + pyval.
Variable chat : string -> string -> exn + string.
Variable render_system : string -> string.
Variable render_user : string -> list qa.FewShotExample -> string -> string.
Variable DATABASE_SCHEMA : string.
Variable interp_msg : InterpError -> string.

#[local] Abbreviation custom_rag :=
  (qa.custom_rag DocumentPath search document_metadata chat render_system
                 render_user DATABASE_SCHEMA interp_msg).
#[local] Abbreviation few_shot_examples :=
  (qa.few_shot_examples DocumentPath search document_metadata interp_msg).

(** X25: once the examples are collected the skill returns, whatever the
    model does: a failing call to the model gives no answer, and an
    answer is the text extracted from the model's reply, never the empty
    text nor the marker "None". *)
Theorem custom_rag_swallows_model_failures
        (input : qa.Input) (examples : list qa.FewShotExample) :
  few_shot_examples (qa.question input) = inr examples ->
  exists out,
    custom_rag input = inr out
    /\ qa.duration out = None
    /\ qa.answer out <> Some ""
    /\ qa.answer out <> Some "None"
    /\ (forall e,
          chat (render_system "None")
               (qa.formatted_user_prompt render_user DATABASE_SCHEMA input examples)
          = inl e ->
          qa.answer out = None)
    /\ (forall sql,
          qa.answer out = Some sql ->
          exists reply,
            chat (render_system "None")
                 (qa.formatted_user_prompt render_user DATABASE_SCHEMA input examples)
            = inr reply
            /\ sql = qa.extract_sql_text (Lines.strip reply)).
Proof.
  intros Hexamples. unfold qa.custom_rag. rewrite Hexamples. cbn [qa.bindE].
  change qa.unable_response with "None".
  destruct (chat _ _) as [e|reply] eqn:Hchat.
  - eexists. split; [reflexivity|]. cbn.
    repeat split; discriminate.
  - destruct (String.eqb _ "None" || String.eqb _ "") eqn:Hcheck.
    + eexists. split; [reflexivity|]. cbn. repeat split; discriminate.
    + apply orb_false_iff in Hcheck as [Hunable Hempty].
      apply String.eqb_neq in Hunable, Hempty.
      eexists. split; [reflexivity|]. cbn.
      split; [reflexivity|].
      split; [congruence|].
      split; [congruence|].
      split; [discriminate|].
      intros sql [= <-]. now exists reply.
Qed.

Lemma documents_metadata_fetched (documents : list (qa.SearchResult DocumentPath)) :
  Forall (fun hit => exists metadata,
            document_metadata (qa.document_path hit) = inr metadata) documents ->
  exists fetched,
    qa.documents_metadata DocumentPath document_metadata documents = inr fetched.
Proof.
  induction 1 as [|hit more [metadata Hhit] Hmore (fetched & Hfetched)].
  - now exists [].
  - exists (metadata :: fetched). cbn [qa.documents_metadata].
    rewrite Hhit. cbn [qa.bindE]. now rewrite Hfetched.
Qed.

(** X26: a search hit without metadata fails the skill: when the first
    hit has metadata that is not a dict (as [None], for a document that
    has none) and the metadata of all hits could be fetched, the skill
    raises an AttributeError, and the model is never asked. *)
Theorem hit_without_metadata_fails_the_skill
        (input : qa.Input) (hit : qa.SearchResult DocumentPath)
        (hits : list (qa.SearchResult DocumentPath)) (metadata : pyval) :
  search (qa.question input) = inr (hit :: hits) ->
  document_metadata (qa.document_path hit) = inr metadata ->
  (forall d, metadata <> VDict d) ->
  Forall (fun other => exists fetched,
            document_metadata (qa.document_path other) = inr fetched) hits ->
  custom_rag input
  = inl (Exception "AttributeError" (interp_msg (NoAttribute metadata "get"))).
Proof.
  intros Hsearch Hhit Hnodict Hhits.
  unfold qa.custom_rag, qa.few_shot_examples. rewrite Hsearch. cbn [qa.bindE].
  destruct (documents_metadata_fetched hits Hhits) as (fetched & Hfetched).
  cbn [qa.documents_metadata]. rewrite Hhit. cbn [qa.bindE].
  rewrite Hfetched. cbn [qa.bindE List.combine qa.examples_of].
  destruct metadata; try reflexivity.
  exfalso. now eapply Hnodict.
Qed.

End CustomRag.

(* ===================================================================== *)
(** * Runs of the further properties *)
(* ===================================================================== *)

Lemma execute_sql_on_open_connection_witness :
  mcp_server._run_execute_sql answering.env (VStr "SELECT 1") scripted.start
  = (inr (query_results (VStr "SELECT 1") (VList [VStr "1"])
                        (VList [VList [VInt 1]]) 1),
     set_world 1%nat scripted.start).
Proof.
  exact (proj1 (execute_sql_on_open_connection
                  answering.env (VStr "SELECT 1") scripted.start _ _ eq_refl eq_refl)
               [VStr "1"] [VList [VInt 1]] eq_refl).
Defined.

Lemma execute_sql_connects_first_witness :
  mcp_server._run_execute_sql closed_database.env (VStr "SELECT 1") scripted.start
  = (inl (Exception "Exception" "unable to open database file"),
     set_world 0%nat scripted.start).
Proof.
  exact (proj1 (execute_sql_connects_first
                  closed_database.env (VStr "SELECT 1") scripted.start _ _
                  eq_refl eq_refl)
               _ eq_refl).
Defined.

Lemma generate_sql_outcomes_witness :
  mcp_server._run_generate_sql
    twice_failing.env (VStr "How many customers?")
    (VStr "near SELEC: syntax error") scripted.start
  = (inr [("sql_query", VStr "SELECT total FROM Customers")],
     set_world 0%nat scripted.start).
Proof.
  exact (proj1 (generate_sql_outcomes
                  twice_failing.env (VStr "How many customers?")
                  (Some "near SELEC: syntax error") scripted.start _ _ eq_refl)
               [("answer", VStr "SELECT total FROM Customers")] eq_refl eq_refl).
Defined.

Lemma chart_turn_passes_the_pipeline_outcome_witness :
  fst (routes._execute_with_retry
         (scripted.env renders.skills [] renders.sleeping)
         {| tool := "generate_chart";
            arguments := chart_arguments classifier_down.query
                                         (VList [VStr "Country"; VStr "Customers"])
                                         (VList [VList [VStr "Germany"; VInt 11]]) |}
         "draw it" [] scripted.start)
  = inr (Failed "Chart generation timed out" "generate_chart").
Proof.
  refine (f_equal fst
            (proj1 (chart_turn_passes_the_pipeline_outcome
                      (scripted.env renders.skills [] renders.sleeping)
                      classifier_down.query [VStr "Country"; VStr "Customers"]
                      [VList [VStr "Germany"; VInt 11]] "draw it" []
                      scripted.start _ _ _)
                   (Exception "Exception" "Chart generation timed out") _)).
  - vm_compute. reflexivity.
  - reflexivity.
Defined.

Lemma classify_step_defaults_to_bar_witness :
  chart_service.classify_step
    classifier_down.env "tok" classifier_down.query classifier_down.headers
    classifier_down.rows scripted.start
  = (inr (VStr "bar"), set_world 0%nat scripted.start).
Proof.
  exact (proj1 (classify_step_defaults_to_bar
                  classifier_down.env "tok" classifier_down.query
                  classifier_down.headers classifier_down.rows scripted.start
                  _ _ eq_refl)
               503%Z "Service Unavailable" eq_refl).
Defined.


Lemma unconvertible_column_stays_text_witness :
  data_preparation.clean_column data_preparation.decimal
                                (data_preparation.ObjectCol [])
  = data_preparation.ObjectCol []
  /\ data_preparation.clean_column data_preparation.decimal
                                   (data_preparation.ObjectCol [None; None; Some "n/a"])
     = data_preparation.ObjectCol [None; None; Some "n/a"].
Proof.
  split.
  - exact (unconvertible_column_stays_text data_preparation.decimal [] eq_refl).
  - exact (unconvertible_column_stays_text data_preparation.decimal
                                           [None; None; Some "n/a"] eq_refl).
Defined.

Lemma router_reply_is_taken_as_it_stands_witness :
  routes._get_tool_decision routing.env "tok" "How many customers?" [] scripted.start
  = (inr (Some (GenerateSQL "How many customers?")), set_world 0%nat scripted.start).
Proof.
  exact (proj1 (router_reply_is_taken_as_it_stands
                  routing.env "tok" "How many customers?" [] _ scripted.start _
                  eq_refl)
               "generate_sql" [("question", VStr "How many customers?")]
               eq_refl eq_refl).
Defined.

Lemma extract_chart_type_reads_a_mention_witness :
  chart_classifier.extract_chart_type "A LINE chart, not a bar chart." = "bar".
Proof.
  exact (proj2 (proj2 (extract_chart_type_reads_a_mention
                         "A LINE chart, not a bar chart." "line"
                         eq_refl (or_intror (or_introl eq_refl)) eq_refl))
               eq_refl).
Defined.

Lemma extract_chart_type_skips_thinking_witness :
  chart_classifier.extract_chart_type
    ("<think>a pie? no, a time series" +:+ "</think>" +:+ " Line ")
  = chart_classifier.extract_chart_type " Line ".
Proof.
  exact (extract_chart_type_skips_thinking
           "<think>a pie? no, a time series" " Line " eq_refl eq_refl).
Defined.

Lemma skill_and_service_fallbacks_witness :
  exists d,
    tool_router.route_tool prose_reply.chat prose_reply.json_loads
                           chart_reply.py_repr chart_reply.interp_msg true
                           "chart it" (Some prose_reply.context) = inr d
    /\ d = GenerateSQL "chart it"
    /\ tool (local_rule "chart it" prose_reply.context) = "generate_chart".
Proof.
  destruct (skill_and_service_fallbacks
              prose_reply.chat prose_reply.json_loads
              chart_reply.py_repr chart_reply.interp_msg true
              "chart it" prose_reply.context _ _ eq_refl eq_refl
              (or_introl eq_refl)) as (d & Hroute & _ & Hdiffer).
  exists d. split; [exact Hroute|]. exact (Hdiffer eq_refl eq_refl).
Defined.

Lemma chart_decisions_carry_the_context_witness :
  tool_router.route_tool chart_reply.chat chart_reply.json_loads
                         chart_reply.py_repr chart_reply.interp_msg true
                         "chart it" (Some chart_reply.context)
  = inr chart_reply.decision
  /\ lookup_item "rows" (arguments chart_reply.decision)
     = Some (VList [VList [VStr "Germany"; VInt 11]]).
Proof.
  assert (Hroute : tool_router.route_tool
                     chart_reply.chat chart_reply.json_loads
                     chart_reply.py_repr chart_reply.interp_msg true
                     "chart it" (Some chart_reply.context)
                   = inr chart_reply.decision) by (vm_compute; reflexivity).
  split; [exact Hroute|].
  exact (proj2 (proj2 (chart_decisions_carry_the_context
                         chart_reply.chat chart_reply.json_loads
                         chart_reply.py_repr chart_reply.interp_msg true
                         "chart it" chart_reply.context chart_reply.decision
                         ltac:(discriminate) Hroute (or_introl eq_refl)))).
Defined.

Lemma skill_decisions_name_the_required_arguments_witness :
  forallb (has_key (arguments chart_reply.decision)) ["query"; "headers"; "rows"]
  = true.
Proof.
  refine (skill_decisions_name_the_required_arguments
            chart_reply.chat chart_reply.json_loads
            chart_reply.py_repr chart_reply.interp_msg true
            "chart it" (Some chart_reply.context) chart_reply.decision
            "_run_generate_chart" ["query"; "headers"; "rows"] [] _ eq_refl).
  vm_compute. reflexivity.
Defined.

Lemma ill_typed_context_fails_the_router_witness :
  exists cls msg,
    tool_router.route_tool chart_reply.chat chart_reply.json_loads
                           chart_reply.py_repr chart_reply.interp_msg true
                           "run it" (Some numeric_query.context)
    = inl (Exception cls msg)
    /\ (cls = "TypeError" \/ cls = "KeyError").
Proof.
  exact (proj1 (ill_typed_context_fails_the_router
                  chart_reply.chat chart_reply.json_loads
                  chart_reply.py_repr chart_reply.interp_msg true
                  "run it" numeric_query.context)
               eq_refl eq_refl).
Defined.

Lemma extract_sql_text_skips_thinking_witness :
  qa.extract_sql_text ("<think>" +:+ "select 1;" +:+ "</think>" +:+ "None")
  = qa.extract_sql_text "None".
Proof.
  exact (extract_sql_text_skips_thinking "select 1;" "None" eq_refl).
Defined.

Lemma custom_rag_swallows_model_failures_witness :
  exists out,
    qa.custom_rag nat sql_reply.finds_none sql_reply.document_metadata
                  sql_reply.chat sql_reply.render_system sql_reply.render_user
                  "<schema>" sql_reply.interp_msg sql_reply.input = inr out
    /\ exists reply,
         sql_reply.chat "<system>" "<user>" = inr reply
         /\ qa.answer out = Some (qa.extract_sql_text (Lines.strip reply))
         /\ qa.answer out = Some "select count(CustomerID) from Customers;".
Proof.
  destruct (custom_rag_swallows_model_failures
              nat sql_reply.finds_none sql_reply.document_metadata
              sql_reply.chat sql_reply.render_system sql_reply.render_user
              "<schema>" sql_reply.interp_msg sql_reply.input [] eq_refl)
    as (out & Hrun & _ & _ & _ & _ & Hanswer).
  exists out. split; [exact Hrun|].
  assert (Hout : qa.answer out = Some "select count(CustomerID) from Customers;").
  { vm_compute in Hrun. injection Hrun as <-. reflexivity. }
  destruct (Hanswer _ Hout) as (reply & Hreply & Hsql).
  exists reply. split; [exact Hreply|]. split; [|exact Hout].
  rewrite Hout. now f_equal.
Defined.

Lemma hit_without_metadata_fails_the_skill_witness :
  qa.custom_rag nat sql_reply.finds_one sql_reply.document_metadata
                sql_reply.chat sql_reply.render_system sql_reply.render_user
                "<schema>" sql_reply.interp_msg sql_reply.input
  = inl (Exception "AttributeError" "<message>").
Proof.
  exact (hit_without_metadata_fails_the_skill
           nat sql_reply.finds_one sql_reply.document_metadata
           sql_reply.chat sql_reply.render_system sql_reply.render_user
           "<schema>" sql_reply.interp_msg sql_reply.input sql_reply.hit [] VNone
           eq_refl eq_refl ltac:(discriminate) (List.Forall_nil _)).
Defined.
